(** * The sense/act switch bridge of [example_ble_aws_1.py]

    A shallow embedding of the control logic of
    [src/edge_st_examples/aws/example_ble_aws_1.py]: the two MQTT message
    callbacks, [iot_device_act], [read_input] and [main] with its
    polling loop.  Python globals become fields of a [World] record that is
    threaded through a state-and-exception monad; every call into the
    BlueST / EdgeST SDKs is appended to a chronological [trace], and an
    oracle decides whether such a call raises. *)

From Stdlib Require Import ZArith List String Ascii Bool Lia DecimalString.
Import ListNotations.
Open Scope string_scope.
Open Scope Z_scope.

(** ** Python strings *)

Module Py.

(** The double-quote character, from its code. *)
Definition dquote : ascii := ascii_of_nat 34.
Definition backslash : ascii := ascii_of_nat 92.
Definition q : string := String dquote EmptyString.

(** [needle in hay] for two strings. *)
Fixpoint contains (needle hay : string) : bool :=
  String.prefix needle hay
  || match hay with
     | EmptyString => false
     | String _ rest => contains needle rest
     end.

(** [s.split(sep)] for a one-character separator: every occurrence
    splits, consecutive separators give empty fields, and the empty
    string gives one empty field. *)
Fixpoint split (sep : ascii) (s : string) : list string :=
  match s with
  | EmptyString => [EmptyString]
  | String c rest =>
      if Ascii.eqb c sep then EmptyString :: split sep rest
      else match split sep rest with
           | [] => [String c EmptyString]
           | w :: ws => String c w :: ws
           end
  end.

(** [str(n)] for an integer. *)
Definition str (n : Z) : string := NilZero.string_of_int (Z.to_int n).

(** [sep.join(parts)]. *)
Fixpoint join (sep : string) (parts : list string) : string :=
  match parts with
  | [] => EmptyString
  | [p] => p
  | p :: ps => p ++ sep ++ join sep ps
  end.

End Py.

(** ** JSON values, and a reader for concrete payloads *)

#[local] Set Warnings "-register-all".

Inductive json : Type :=
| JNull
| JBool (b : bool)
| JNumber (lexeme : string)
| JString (s : string)
| JArray (items : list json)
| JObject (members : list (string * json)).

Module Json.

Definition is_ws (c : ascii) : bool :=
  let n := nat_of_ascii c in
  Nat.eqb n 32 || Nat.eqb n 9 || Nat.eqb n 10 || Nat.eqb n 13.

Fixpoint skip_ws (s : string) : string :=
  match s with
  | String c r => if is_ws c then skip_ws r else s
  | EmptyString => s
  end.

Definition hex_digit (c : ascii) : option nat :=
  let n := nat_of_ascii c in
  if Nat.leb 48 n && Nat.leb n 57 then Some (n - 48)%nat
  else if Nat.leb 65 n && Nat.leb n 70 then Some (n - 55)%nat
  else if Nat.leb 97 n && Nat.leb n 102 then Some (n - 87)%nat
  else None.

Definition hex4 (a b c d : ascii) : option nat :=
  match hex_digit a, hex_digit b, hex_digit c, hex_digit d with
  | Some x, Some y, Some z, Some t =>
      Some (((x * 16 + y) * 16 + z) * 16 + t)%nat
  | _, _, _, _ => None
  end.

(** The escape letter after a backslash (all but [u]). *)
Definition simple_escape (c : ascii) : option ascii :=
  let n := nat_of_ascii c in
  if Nat.eqb n 34 then Some Py.dquote
  else if Nat.eqb n 92 then Some Py.backslash
  else if Nat.eqb n 47 then Some (ascii_of_nat 47)
  else if Nat.eqb n 98 then Some (ascii_of_nat 8)
  else if Nat.eqb n 102 then Some (ascii_of_nat 12)
  else if Nat.eqb n 110 then Some (ascii_of_nat 10)
  else if Nat.eqb n 114 then Some (ascii_of_nat 13)
  else if Nat.eqb n 116 then Some (ascii_of_nat 9)
  else None.

(** The body of a string literal, after its opening quote: the decoded
    text and what follows the closing quote.  Control characters are
    refused as by the strict decoder; a [\u] escape is decoded when its
    code point fits a byte. *)
Fixpoint string_body (s : string) : option (string * string) :=
  match s with
  | EmptyString => None
  | String c r =>
      if Ascii.eqb c Py.dquote then Some (EmptyString, r)
      else if Ascii.eqb c Py.backslash then
        match r with
        | String e r' =>
            if Ascii.eqb e "u" then
              match r' with
              | String h1 (String h2 (String h3 (String h4 r''))) =>
                  match hex4 h1 h2 h3 h4 with
                  | Some n =>
                      if Nat.ltb n 256 then
                        match string_body r'' with
                        | Some (t, rest) => Some (String (ascii_of_nat n) t, rest)
                        | None => None
                        end
                      else None
                  | None => None
                  end
              | _ => None
              end
            else
              match simple_escape e with
              | Some d =>
                  match string_body r' with
                  | Some (t, rest) => Some (String d t, rest)
                  | None => None
                  end
              | None => None
              end
        | EmptyString => None
        end
      else if Nat.ltb (nat_of_ascii c) 32 then None
      else
        match string_body r with
        | Some (t, rest) => Some (String c t, rest)
        | None => None
        end
  end.

Definition is_digit (c : ascii) : bool :=
  let n := nat_of_ascii c in Nat.leb 48 n && Nat.leb n 57.

Fixpoint digits (s : string) : string * string :=
  match s with
  | String c r =>
      if is_digit c then let (d, rest) := digits r in (String c d, rest)
      else (EmptyString, s)
  | EmptyString => (EmptyString, s)
  end.

(** A number lexeme: an optional minus sign, an integer part (a lone
    zero, or digits not starting with zero), then optionally a fraction
    and an exponent, read greedily as the decoder's pattern does: a
    part that does not match is left unread. *)
Definition fraction (s : string) : string * string :=
  match s with
  | String c r =>
      if Ascii.eqb c "." then
        match digits r with
        | (EmptyString, _) => (EmptyString, s)
        | (d, rest) => (String c d, rest)
        end
      else (EmptyString, s)
  | EmptyString => (EmptyString, s)
  end.

Definition exponent (s : string) : string * string :=
  match s with
  | String c r =>
      if Ascii.eqb c "e" || Ascii.eqb c "E" then
        let (sg, r1) :=
          match r with
          | String c' r' =>
              if Ascii.eqb c' "+" || Ascii.eqb c' "-"
              then (String c' EmptyString, r') else (EmptyString, r)
          | EmptyString => (EmptyString, r)
          end in
        match digits r1 with
        | (EmptyString, _) => (EmptyString, s)
        | (d, rest) => (String c (sg ++ d), rest)
        end
      else (EmptyString, s)
  | EmptyString => (EmptyString, s)
  end.

Definition number (s : string) : option (string * string) :=
  let (sign, s1) :=
    match s with
    | String c r => if Ascii.eqb c "-" then ("-", r) else (EmptyString, s)
    | EmptyString => (EmptyString, s)
    end in
  let (int_part, s2) :=
    match s1 with
    | String c r =>
        if Ascii.eqb c "0" then (String c EmptyString, r) else digits s1
    | EmptyString => (EmptyString, s1)
    end in
  match int_part with
  | EmptyString => None
  | String _ _ =>
      let (fr, s3) := fraction s2 in
      let (ex, s4) := exponent s3 in
      Some (sign ++ int_part ++ fr ++ ex, s4)
  end.

Fixpoint strip_prefix (p s : string) : option string :=
  match p, s with
  | EmptyString, _ => Some s
  | String a p', String b s' => if Ascii.eqb a b then strip_prefix p' s' else None
  | String _ _, EmptyString => None
  end.

(** One value, then the unread rest.  [fuel] bounds the nesting and the
    number of members read. *)
Fixpoint value (fuel : nat) (s : string) : option (json * string) :=
  match fuel with
  | O => None
  | S f =>
      match skip_ws s with
      | EmptyString => None
      | String c r =>
          if Ascii.eqb c "{" then
            match skip_ws r with
            | String c' r' =>
                if Ascii.eqb c' "}" then Some (JObject [], r')
                else
                  match members f (skip_ws r) with
                  | Some (ms, rest) => Some (JObject ms, rest)
                  | None => None
                  end
            | EmptyString => None
            end
          else if Ascii.eqb c "[" then
            match skip_ws r with
            | String c' r' =>
                if Ascii.eqb c' "]" then Some (JArray [], r')
                else
                  match elements f r with
                  | Some (xs, rest) => Some (JArray xs, rest)
                  | None => None
                  end
            | EmptyString => None
            end
          else if Ascii.eqb c Py.dquote then
            match string_body r with
            | Some (t, rest) => Some (JString t, rest)
            | None => None
            end
          else
            match strip_prefix "true" (String c r) with
            | Some rest => Some (JBool true, rest)
            | None =>
                match strip_prefix "false" (String c r) with
                | Some rest => Some (JBool false, rest)
                | None =>
                    match strip_prefix "null" (String c r) with
                    | Some rest => Some (JNull, rest)
                    | None =>
                        match number (String c r) with
                        | Some (lx, rest) => Some (JNumber lx, rest)
                        | None => None
                        end
                    end
                end
            end
      end
  end

with elements (fuel : nat) (s : string) : option (list json * string) :=
  match fuel with
  | O => None
  | S f =>
      match value f s with
      | Some (v, rest) =>
          match skip_ws rest with
          | String c r =>
              if Ascii.eqb c "]" then Some ([v], r)
              else if Ascii.eqb c "," then
                match elements f r with
                | Some (vs, rest') => Some (v :: vs, rest')
                | None => None
                end
              else None
          | EmptyString => None
          end
      | None => None
      end
  end

(** Members of an object; [s] starts at the quote of the first key. *)
with members (fuel : nat) (s : string) : option (list (string * json) * string) :=
  match fuel with
  | O => None
  | S f =>
      match s with
      | String c0 r0 =>
          if Ascii.eqb c0 Py.dquote then
            match string_body r0 with
            | Some (k, after_key) =>
                match skip_ws after_key with
                | String c1 r1 =>
                    if Ascii.eqb c1 ":" then
                      match value f r1 with
                      | Some (v, rest) =>
                          match skip_ws rest with
                          | String c2 r2 =>
                              if Ascii.eqb c2 "}" then Some ([(k, v)], r2)
                              else if Ascii.eqb c2 "," then
                                match members f (skip_ws r2) with
                                | Some (ms, rest') => Some ((k, v) :: ms, rest')
                                | None => None
                                end
                              else None
                          | EmptyString => None
                          end
                      | None => None
                      end
                    else None
                | EmptyString => None
                end
            | None => None
            end
          else None
      | EmptyString => None
      end
  end.

(** A reader in the manner of [json.loads]: one value, surrounded by
    white space only.  [None] stands for the decoder's [ValueError]. *)
Definition loads (s : string) : option json :=
  match value (2 * String.length s + 2) s with
  | Some (v, rest) =>
      match skip_ws rest with
      | EmptyString => Some v
      | String _ _ => None
      end
  | None => None
  end.

Fixpoint escape (s : string) : string :=
  match s with
  | EmptyString => EmptyString
  | String c r =>
      if Ascii.eqb c Py.dquote || Ascii.eqb c Py.backslash
      then String Py.backslash (String c (escape r))
      else String c (escape r)
  end.

(** A writer in the manner of [json.dumps] for the one shape the bridge
    writes, an object with one string member, and for plain strings. *)
Definition dumps (v : json) : string :=
  match v with
  | JObject [(k, JString s)] =>
      "{" ++ Py.q ++ escape k ++ Py.q ++ ": " ++ Py.q ++ escape s ++ Py.q ++ "}"
  | JString s => Py.q ++ escape s ++ Py.q
  | _ => "null"
  end.

End Json.

(** [d[key]] on a Python dict built by the decoder: of two members with the
    same key the later one is the one kept. *)
Fixpoint dict_get (key : string) (members : list (string * json)) : option json :=
  match members with
  | [] => None
  | (k, v) :: rest =>
      match dict_get key rest with
      | Some v' => Some v'
      | None => if String.eqb k key then Some v else None
      end
  end.

(** ** Constants of the script *)

(** [class SwitchStatus(Enum)]. *)
Inductive SwitchStatus : Type := OFF | ON.

(** [SwitchStatus.value]. *)
Definition value (s : SwitchStatus) : Z :=
  match s with OFF => 0 | ON => 1 end.

(** The two Bluetooth devices; one name stands for the node, its switch
    feature and its cloud client, which the script keeps in three globals
    per device. *)
Inductive Device : Type := IoT_Device_1 | IoT_Device_2.

Definition Device_eqb (a b : Device) : bool :=
  match a, b with
  | IoT_Device_1, IoT_Device_1 | IoT_Device_2, IoT_Device_2 => true
  | _, _ => false
  end.

Definition nl : string := String (ascii_of_nat 10) EmptyString.

Definition USAGE : string :=
  "Usage:" ++ nl ++ nl
  ++ "Use certificate based mutual authentication:" ++ nl
  ++ "python <application>.py -e <endpoint> -r <root_ca_path>" ++ nl ++ nl.

Definition HELP : string :=
  "-e, --endpoint" ++ nl ++ "    Your AWS IoT custom endpoint" ++ nl
  ++ "-r, --rootCA" ++ nl ++ "    Root CA file path" ++ nl
  ++ "-h, --help" ++ nl ++ "    Help information" ++ nl ++ nl.

Definition INTRO : string :=
  "###############################################" ++ nl
  ++ "# Edge IoT Example with Amazon Cloud Platform #" ++ nl
  ++ "###############################################".

Definition IOT_DEVICE_1_MAC : string := "d1:07:fd:84:30:8c".
Definition IOT_DEVICE_2_MAC : string := "d7:90:95:be:58:7e".

Definition SCANNING_TIME_s : Z := 5.
Definition SHADOW_CALLBACK_TIMEOUT_s : Z := 5.

Definition MQTT_QOS_0 : Z := 0.
Definition MQTT_QOS_1 : Z := 1.

Definition MQTT_IOT_DEVICE_SWITCH_SENSE_TOPIC : string := "iot_device/switch_sense".
Definition MQTT_IOT_DEVICE_SWITCH_ACT_TOPIC : string := "iot_device/switch_act".

Definition CERTIF_EXT : string := ".pem".
Definition PRIV_K_EXT : string := ".prv".
Definition DEVICES_PATH : string := "./devices_ble_aws/".
Definition IOT_DEVICE_1_NAME : string := "IoT_Device_1".
Definition IOT_DEVICE_2_NAME : string := "IoT_Device_2".
Definition IOT_DEVICE_1_CERTIF_PATH : string := DEVICES_PATH ++ IOT_DEVICE_1_NAME ++ CERTIF_EXT.
Definition IOT_DEVICE_2_CERTIF_PATH : string := DEVICES_PATH ++ IOT_DEVICE_2_NAME ++ CERTIF_EXT.
Definition IOT_DEVICE_1_PRIV_K_PATH : string := DEVICES_PATH ++ IOT_DEVICE_1_NAME ++ PRIV_K_EXT.
Definition IOT_DEVICE_2_PRIV_K_PATH : string := DEVICES_PATH ++ IOT_DEVICE_2_NAME ++ PRIV_K_EXT.

(** The shadow document both [iot_device_act] and the start-up reset build
    from a status value. *)
Definition state_json_str (v : Z) : string :=
  "{" ++ Py.q ++ "state" ++ Py.q ++ ":{" ++ Py.q ++ "desired" ++ Py.q ++ ":{"
  ++ Py.q ++ "switch_status" ++ Py.q ++ ":" ++ Py.str v ++ "}}}".

(** ** Exceptions, SDK calls and the world *)

Inductive Exn : Type :=
| UnboundLocalError
| NameError
| ValueError
| KeyError
| TypeError
| AttributeError
| GetoptError
| SystemExit (code : Z)
| os_exit (code : Z)
| InvalidOperationException
| BTLEException
| WrongInstantiationException
| KeyboardInterrupt
| OtherException (name : string).

(** What the script does to the outside, one constructor per call. *)
Inductive Call : Type :=
| print (s : string)
| print_exception (e : Exn)
| manager_add_listener
| start_discovery (timeout_s : Z)
| sleep (s : Z)
| stop_discovery
| get_nodes
| node_add_listener (d : Device)
| connect (d : Device)
| get_feature (d : Device)
| write_switch_status (d : Device) (v : Z)
| AWSGreengrass (endpoint root_ca_path : string)
| get_client (d : Device) (name certif priv_k : string)
| client_connect (d : Device)
| subscribe (d : Device) (topic : string) (qos : Z)
| update_shadow_state (d : Device) (doc : string) (timeout_s : Z)
| feature_add_listener (d : Device) (topic : string)
| enable_notifications (d : Device)
| disable_notifications (d : Device)
| wait_for_notifications (d : Device)
| publish (d : Device) (topic payload : string) (qos : Z).

(** The globals of the module, and the calls made so far, oldest first.
    [None] in [endpoint] and [root_ca_path] is a name that was never
    assigned: the module has no top-level assignment to either. *)
Record World : Type := mkWorld {
  endpoint : option string;
  root_ca_path : option string;
  iot_device_1_bound : bool;
  iot_device_2_bound : bool;
  iot_device_1_status : SwitchStatus;
  iot_device_2_status : SwitchStatus;
  iot_device_1_act_flag : bool;
  iot_device_2_act_flag : bool;
  trace : list Call
}.

Definition set_endpoint (v : string) (w : World) : World :=
  mkWorld (Some v) (root_ca_path w) (iot_device_1_bound w) (iot_device_2_bound w)
    (iot_device_1_status w) (iot_device_2_status w)
    (iot_device_1_act_flag w) (iot_device_2_act_flag w) (trace w).

Definition set_root_ca_path (v : string) (w : World) : World :=
  mkWorld (endpoint w) (Some v) (iot_device_1_bound w) (iot_device_2_bound w)
    (iot_device_1_status w) (iot_device_2_status w)
    (iot_device_1_act_flag w) (iot_device_2_act_flag w) (trace w).

Definition set_bound (d : Device) (w : World) : World :=
  match d with
  | IoT_Device_1 =>
      mkWorld (endpoint w) (root_ca_path w) true (iot_device_2_bound w)
        (iot_device_1_status w) (iot_device_2_status w)
        (iot_device_1_act_flag w) (iot_device_2_act_flag w) (trace w)
  | IoT_Device_2 =>
      mkWorld (endpoint w) (root_ca_path w) (iot_device_1_bound w) true
        (iot_device_1_status w) (iot_device_2_status w)
        (iot_device_1_act_flag w) (iot_device_2_act_flag w) (trace w)
  end.

Definition set_status (d : Device) (s : SwitchStatus) (w : World) : World :=
  match d with
  | IoT_Device_1 =>
      mkWorld (endpoint w) (root_ca_path w) (iot_device_1_bound w) (iot_device_2_bound w)
        s (iot_device_2_status w)
        (iot_device_1_act_flag w) (iot_device_2_act_flag w) (trace w)
  | IoT_Device_2 =>
      mkWorld (endpoint w) (root_ca_path w) (iot_device_1_bound w) (iot_device_2_bound w)
        (iot_device_1_status w) s
        (iot_device_1_act_flag w) (iot_device_2_act_flag w) (trace w)
  end.

Definition set_act_flag (d : Device) (b : bool) (w : World) : World :=
  match d with
  | IoT_Device_1 =>
      mkWorld (endpoint w) (root_ca_path w) (iot_device_1_bound w) (iot_device_2_bound w)
        (iot_device_1_status w) (iot_device_2_status w)
        b (iot_device_2_act_flag w) (trace w)
  | IoT_Device_2 =>
      mkWorld (endpoint w) (root_ca_path w) (iot_device_1_bound w) (iot_device_2_bound w)
        (iot_device_1_status w) (iot_device_2_status w)
        (iot_device_1_act_flag w) b (trace w)
  end.

Definition set_trace (t : list Call) (w : World) : World :=
  mkWorld (endpoint w) (root_ca_path w) (iot_device_1_bound w) (iot_device_2_bound w)
    (iot_device_1_status w) (iot_device_2_status w)
    (iot_device_1_act_flag w) (iot_device_2_act_flag w) t.

Definition status_of (d : Device) (w : World) : SwitchStatus :=
  match d with
  | IoT_Device_1 => iot_device_1_status w
  | IoT_Device_2 => iot_device_2_status w
  end.

Definition act_flag_of (d : Device) (w : World) : bool :=
  match d with
  | IoT_Device_1 => iot_device_1_act_flag w
  | IoT_Device_2 => iot_device_2_act_flag w
  end.

(** ** The state-and-exception monad

    A computation takes the world and gives a result, a value or a raised
    exception, with the world as it then is: what was assigned or called
    before a [raise] stays. *)

Inductive Result (A : Type) : Type :=
| Returned (a : A)
| Raised (e : Exn).
Arguments Returned {A} a.
Arguments Raised {A} e.

Definition M (A : Type) : Type := World -> Result A * World.

Definition ret {A} (a : A) : M A := fun w => (Returned a, w).

Definition bind {A B} (m : M A) (k : A -> M B) : M B :=
  fun w =>
    match m w with
    | (Returned a, w') => k a w'
    | (Raised e, w') => (Raised e, w')
    end.

Definition raise {A} (e : Exn) : M A := fun w => (Raised e, w).

Definition get : M World := fun w => (Returned w, w).

Definition modify (f : World -> World) : M unit := fun w => (Returned tt, f w).

(** [try: body / except ...]: [handlers e] is the matching clause, if any. *)
Definition try_except {A} (body : M A) (handlers : Exn -> option (M A)) : M A :=
  fun w =>
    match body w with
    | (Returned a, w') => (Returned a, w')
    | (Raised e, w') =>
        match handlers e with
        | Some h => h w'
        | None => (Raised e, w')
        end
    end.

Declare Scope monad_scope.
Delimit Scope monad_scope with monad.
Notation "x <- m ;; k" := (bind m (fun x => k))
  (at level 61, m at next level, right associativity) : monad_scope.
Notation "m ;; k" := (bind m (fun _ => k))
  (at level 61, right associativity) : monad_scope.
Open Scope monad_scope.

(** A statement for each item of a list, in order ([for x in xs:]). *)
Fixpoint for_each {A} (xs : list A) (body : A -> M unit) : M unit :=
  match xs with
  | [] => ret tt
  | x :: rest => body x ;; for_each rest body
  end.

(** A call that cannot fail in the model ([print]). *)
Definition emit (c : Call) : M unit :=
  modify (fun w => set_trace (trace w ++ [c]) w).

(** A sample of the switch feature, as the listener reads it:
    [sample.get_timestamp()] and [FeatureSwitch.get_switch_status(sample)]. *)
Record Sample : Type := mkSample {
  get_timestamp : Z;
  get_switch_status : Z
}.

(** The external collaborators: the one SDK constant the script reads, the
    [json] module, the names the SDK objects report, and an oracle that
    says, from the calls made so far, whether the next call raises.
    [json_loads] is [None] where [json.loads] raises, and
    [json_loads_error] is then what it raises: [ValueError] on a text
    that is not JSON, [RecursionError] on one nested too deeply. *)
Record Sdk : Type := mkSdk {
  FEATURE_DATA_NAME : string;
  json_loads : string -> option json;
  json_loads_error : string -> Exn;
  json_dumps : json -> string;
  get_fields_description_0_get_name : Device -> string;
  get_name : Device -> string;
  raises : list Call -> Call -> option Exn
}.

(** ** [getopt.getopt], as the standard library defines it

    [None] stands for a raised [GetoptError]. *)

Module Getopt.

Fixpoint short_has_arg (opt : ascii) (shortopts : string) : option bool :=
  match shortopts with
  | EmptyString => None
  | String c rest =>
      if Ascii.eqb opt c && negb (Ascii.eqb c ":") then
        Some match rest with
             | String c' _ => Ascii.eqb c' ":"
             | EmptyString => false
             end
      else short_has_arg opt rest
  end.

(** The options of one cluster [-abc], and the arguments left. *)
Fixpoint do_shorts (optstring shortopts : string) (args : list string)
  : option (list (string * string) * list string) :=
  match optstring with
  | EmptyString => Some ([], args)
  | String opt rest =>
      let name := String "-" (String opt EmptyString) in
      match short_has_arg opt shortopts with
      | None => None
      | Some true =>
          match rest, args with
          | EmptyString, [] => None
          | EmptyString, a :: args' => Some ([(name, a)], args')
          | String _ _, _ => Some ([(name, rest)], args)
          end
      | Some false =>
          match do_shorts rest shortopts args with
          | Some (opts, args') => Some ((name, EmptyString) :: opts, args')
          | None => None
          end
      end
  end.

(** [opt.index('=')]: the text before and after the first equals sign. *)
Fixpoint cut_at_equals (s : string) : string * option string :=
  match s with
  | EmptyString => (EmptyString, None)
  | String c r =>
      if Ascii.eqb c "=" then (EmptyString, Some r)
      else let (a, b) := cut_at_equals r in (String c a, b)
  end.

Fixpoint ends_with_equals (s : string) : bool :=
  match s with
  | EmptyString => false
  | String c EmptyString => Ascii.eqb c "="
  | String _ r => ends_with_equals r
  end.

Fixpoint drop_last (s : string) : string :=
  match s with
  | EmptyString => EmptyString
  | String _ EmptyString => EmptyString
  | String c r => String c (drop_last r)
  end.

Definition long_has_args (opt : string) (longopts : list string)
  : option (bool * string) :=
  let possibilities := filter (fun o => String.prefix opt o) longopts in
  match possibilities with
  | [] => None
  | _ =>
      if existsb (String.eqb opt) possibilities then Some (false, opt)
      else if existsb (String.eqb (opt ++ "=")) possibilities then Some (true, opt)
      else
        match possibilities with
        | [unique_match] =>
            if ends_with_equals unique_match
            then Some (true, drop_last unique_match)
            else Some (false, unique_match)
        | _ => None
        end
  end.

Definition do_longs (opt : string) (longopts : list string) (args : list string)
  : option ((string * string) * list string) :=
  let (opt, optarg) := cut_at_equals opt in
  match long_has_args opt longopts with
  | None => None
  | Some (true, opt) =>
      match optarg, args with
      | None, [] => None
      | None, a :: args' => Some (("--" ++ opt, a), args')
      | Some a, _ => Some (("--" ++ opt, a), args)
      end
  | Some (false, opt) =>
      match optarg with
      | Some _ => None
      | None => Some (("--" ++ opt, EmptyString), args)
      end
  end.

(** The [while] loop of [getopt]; every round takes at least the first
    argument off, so [fuel] above the number of arguments never runs out. *)
Fixpoint getopt_loop (fuel : nat) (args : list string) (shortopts : string)
  (longopts : list string) : option (list (string * string) * list string) :=
  match fuel with
  | O => Some ([], args)
  | S f =>
      match args with
      | [] => Some ([], args)
      | a :: rest =>
          if negb (String.prefix "-" a) || String.eqb a "-" then Some ([], args)
          else if String.eqb a "--" then Some ([], rest)
          else if String.prefix "--" a then
            match do_longs (String.substring 2 (String.length a) a) longopts rest with
            | None => None
            | Some (o, rest') =>
                match getopt_loop f rest' shortopts longopts with
                | Some (opts, remaining) => Some (o :: opts, remaining)
                | None => None
                end
            end
          else
            match do_shorts (String.substring 1 (String.length a) a) shortopts rest with
            | None => None
            | Some (os, rest') =>
                match getopt_loop f rest' shortopts longopts with
                | Some (opts, remaining) => Some ((os ++ opts)%list, remaining)
                | None => None
                end
            end
      end
  end.

Definition getopt (args : list string) (shortopts : string) (longopts : list string)
  : option (list (string * string) * list string) :=
  getopt_loop (S (List.length args)) args shortopts longopts.

End Getopt.

(** The second and third arguments [read_input] gives to [getopt.getopt].
    The long options are written in the source as ONE string literal, so the
    list has a single, odd entry. *)
Definition read_input_shortopts : string := "hwe:k:c:r:".
Definition read_input_longopts : list string :=
  [ "help" ++ Py.q ++ ", " ++ Py.q ++ "endpoint=" ++ Py.q ++ ", " ++ Py.q ++ "key="
    ++ Py.q ++ "," ++ Py.q ++ "cert=" ++ Py.q ++ "," ++ Py.q ++ "rootCA=" ].

Definition in2 (x a b : string) : bool := String.eqb x a || String.eqb x b.

(** What one pass of the polling loop meets: the act-topic payloads that
    arrived since the previous pass, what each device's
    [wait_for_notifications] has to hand to the switch listener, and the
    payloads that arrive while an act is being applied (after its status
    argument was read, before the flag is cleared). *)
Record Tick : Type := mkTick {
  inbound : list string;
  notification_1 : option Sample;
  notification_2 : option Sample;
  inbound_during_act : list string
}.

(** What a run of [main] meets: the tags of the nodes [get_nodes] returns,
    the payloads arriving between the start-up statements that follow the
    first subscription, and the passes of the loop that are observed. *)
Record Inputs : Type := mkInputs {
  discovered_devices : list string;
  inbound_after_subscribe_1 : list string;
  inbound_after_subscribe_2 : list string;
  inbound_after_shadow_1 : list string;
  ticks : list Tick
}.

(** How [main] is left within the observed passes. *)
Inductive MainEnd : Type := StillRunning | Finished.

(** How the process ends: [Exited] with a status, [Crashed] by an exception
    nothing catches (a traceback, status 1), or [Running] on. *)
Inductive Outcome : Type :=
| Running
| Exited (code : Z)
| Crashed (e : Exn).

(** ** The script *)

Section Bridge.

Variable sdk : Sdk.

(** A call into an SDK: it is recorded, and raises if the oracle says so. *)
Definition call (c : Call) : M unit :=
  fun w =>
    let w' := set_trace (trace w ++ [c]) w in
    match raises sdk (trace w) c with
    | None => (Returned tt, w')
    | Some e => (Raised e, w')
    end.

(** [print_intro]. *)
Definition print_intro : M unit := emit (print (nl ++ INTRO ++ nl)).

(** [read_input]: the loop over the parsed options ... *)
Definition read_input_option (o : string * string) : M unit :=
  let (opt, arg) := o in
  (if in2 opt "-h" "--help"
   then emit (print HELP) ;; raise (SystemExit 0) else ret tt) ;;
  (if in2 opt "-e" "--endpoint" then modify (set_endpoint arg) else ret tt) ;;
  (if in2 opt "-r" "--rootCA" then modify (set_root_ca_path arg) else ret tt).

(** ... and the reading of a global, a [NameError] while it is unbound. *)
Definition read_global (g : World -> option string) : M string :=
  w <- get ;;
  match g w with
  | Some v => ret v
  | None => raise NameError
  end.

Definition not_ (s : string) : bool := String.eqb s EmptyString.

Definition read_input (argv : list string) : M unit :=
  try_except
    (match Getopt.getopt argv read_input_shortopts read_input_longopts with
     | None => raise GetoptError
     | Some (opts, args) =>
         if Nat.eqb (List.length opts) 0 then raise GetoptError
         else for_each opts read_input_option
     end)
    (fun e =>
       match e with
       | GetoptError => Some (emit (print USAGE) ;; raise (SystemExit 1))
       | _ => None
       end) ;;
  e <- read_global endpoint ;;
  missing_1 <- (if not_ e
                then emit (print "Missing '-e' or '--endpoint'") ;; ret true
                else ret false) ;;
  r <- read_global root_ca_path ;;
  missing_configuration <-
    (if not_ r
     then emit (print "Missing '-r' or '--rootCA'") ;; ret true
     else ret missing_1) ;;
  if (missing_configuration : bool) then raise (SystemExit 2) else ret tt.

(** [MyFeatureSwitchListener.on_update], for the listener of device [d]:
    its client is the one created under the device's name, its topic the
    sense topic. *)
Definition client_id (d : Device) : string :=
  match d with
  | IoT_Device_1 => IOT_DEVICE_1_NAME
  | IoT_Device_2 => IOT_DEVICE_2_NAME
  end.

Definition on_update (d : Device) (topic : string) (sample : Sample) : M unit :=
  let switch_status := get_switch_status sample in
  let sample_json_str :=
    json_dumps sdk
      (JObject
         [(get_fields_description_0_get_name sdk d,
           JString ("(" ++ Py.str (get_timestamp sample) ++ ") "
                    ++ client_id d ++ " " ++ Py.str switch_status))]) in
  call (publish d topic sample_json_str MQTT_QOS_0).

(** The steps of a message callback that can raise. *)
Definition loads (payload : string) : M json :=
  match json_loads sdk payload with
  | Some v => ret v
  | None => raise (json_loads_error sdk payload)
  end.

Definition subscript (v : json) (key : string) : M json :=
  match v with
  | JObject members =>
      match dict_get key members with
      | Some x => ret x
      | None => raise KeyError
      end
  | _ => raise TypeError
  end.

Definition split_space (v : json) : M (list string) :=
  match v with
  | JString s => ret (Py.split " " s)
  | _ => raise AttributeError
  end.

Definition unpack3 (parts : list string) : M (string * string * string) :=
  match parts with
  | [a; b; c] => ret (a, b, c)
  | _ => raise ValueError
  end.

(** [iot_device_1_callback].  The locals [ts], [client_id] and
    [switch_status] are bound by the unpacking inside the first [if]
    only: [locals] is [None] when that branch was not taken, and reading
    [client_id] then is an [UnboundLocalError]. *)
Definition iot_device_1_callback (payload : string) : M unit :=
  let feature_name := FEATURE_DATA_NAME sdk in
  locals <-
    (if Py.contains feature_name payload then
       message_json <- loads payload ;;
       field <- subscript message_json feature_name ;;
       parts <- split_space field ;;
       t <- unpack3 parts ;;
       ret (Some t)
     else ret None) ;;
  match locals with
  | None => raise UnboundLocalError
  | Some (ts, client_id, switch_status) =>
      if String.eqb client_id IOT_DEVICE_1_NAME then
        modify (set_status IoT_Device_1
                  (if negb (String.eqb switch_status "0") then ON else OFF)) ;;
        modify (set_act_flag IoT_Device_1 true)
      else ret tt
  end.

(** [iot_device_2_callback]. *)
Definition iot_device_2_callback (payload : string) : M unit :=
  let feature_name := FEATURE_DATA_NAME sdk in
  locals <-
    (if Py.contains feature_name payload then
       message_json <- loads payload ;;
       field <- subscript message_json feature_name ;;
       parts <- split_space field ;;
       t <- unpack3 parts ;;
       ret (Some t)
     else ret None) ;;
  match locals with
  | None => raise UnboundLocalError
  | Some (ts, client_id, switch_status) =>
      if String.eqb client_id IOT_DEVICE_2_NAME then
        modify (set_status IoT_Device_2
                  (if negb (String.eqb switch_status "0") then ON else OFF)) ;;
        modify (set_act_flag IoT_Device_2 true)
      else ret tt
  end.

Definition callback_of (d : Device) : string -> M unit :=
  match d with
  | IoT_Device_1 => iot_device_1_callback
  | IoT_Device_2 => iot_device_2_callback
  end.

(** A payload of the act topic reaches the subscribed clients: each
    one's callback runs on the MQTT client's own thread, so what it raises
    goes to that thread and not to [main]; what it assigned stays. *)
Definition deliver (subscribed : list Device) (payload : string) : M unit :=
  for_each subscribed
    (fun d w => (Returned tt, snd (callback_of d payload w))).

Definition arrive (subscribed : list Device) (payloads : list string) : M unit :=
  for_each payloads (deliver subscribed).

Definition both : list Device := [IoT_Device_1; IoT_Device_2].

(** [iot_device_act]. *)
Definition iot_device_act (iot_device iot_device_feature : Device)
  (iot_device_status : SwitchStatus) (iot_device_client : Device) : M unit :=
  call (disable_notifications iot_device) ;;
  call (write_switch_status iot_device_feature (value iot_device_status)) ;;
  call (enable_notifications iot_device) ;;
  call (update_shadow_state iot_device_client
          (state_json_str (value iot_device_status)) SHADOW_CALLBACK_TIMEOUT_s).

(** [node.wait_for_notifications]: when a notification is at hand the
    feature's listener is run with its sample and the call answers
    [True]. *)
Definition wait (d : Device) (n : option Sample) : M bool :=
  call (wait_for_notifications d) ;;
  match n with
  | Some sample => on_update d MQTT_IOT_DEVICE_SWITCH_SENSE_TOPIC sample ;; ret true
  | None => ret false
  end.

(** One pass of [while True:]. *)
Definition loop_body (t : Tick) : M unit :=
  arrive both (inbound t) ;;
  n1 <- wait IoT_Device_1 (notification_1 t) ;;
  n <- (if (n1 : bool) then ret true else wait IoT_Device_2 (notification_2 t)) ;;
  if (n : bool) then ret tt
  else
    w <- get ;;
    if iot_device_1_act_flag w then
      iot_device_act IoT_Device_1 IoT_Device_1 (iot_device_1_status w) IoT_Device_1 ;;
      arrive both (inbound_during_act t) ;;
      modify (set_act_flag IoT_Device_1 false)
    else if iot_device_2_act_flag w then
      iot_device_act IoT_Device_2 IoT_Device_2 (iot_device_2_status w) IoT_Device_2 ;;
      arrive both (inbound_during_act t) ;;
      modify (set_act_flag IoT_Device_2 false)
    else ret tt.

Fixpoint loop (ts : list Tick) : M MainEnd :=
  match ts with
  | [] => ret StillRunning
  | t :: rest => loop_body t ;; loop rest
  end.

(** The [for discovered in discovered_devices:] loop with its [break]. *)
Fixpoint check_discovered (tags : list string) (devices : list Device)
  : M (list Device) :=
  match tags with
  | [] => ret devices
  | tag :: rest =>
      devices' <-
        (if String.eqb tag IOT_DEVICE_1_MAC then
           modify (set_bound IoT_Device_1) ;; ret (devices ++ [IoT_Device_1])%list
         else if String.eqb tag IOT_DEVICE_2_MAC then
           modify (set_bound IoT_Device_2) ;; ret (devices ++ [IoT_Device_2])%list
         else ret devices) ;;
      if Nat.eqb (List.length devices') 2 then ret devices'
      else check_discovered rest devices'
  end.

Definition read_node (d : Device) : M unit :=
  w <- get ;;
  if match d with
     | IoT_Device_1 => iot_device_1_bound w
     | IoT_Device_2 => iot_device_2_bound w
     end
  then ret tt else raise NameError.

(** The body of the [try:] of [main]: the statements before the loop ... *)
Definition start_up (inp : Inputs) : M unit :=
  call manager_add_listener ;;
  emit (print ("Scanning Bluetooth devices..." ++ nl)) ;;
  call (start_discovery SCANNING_TIME_s) ;;
  call (sleep SCANNING_TIME_s) ;;
  call stop_discovery ;;
  call get_nodes ;;
  (match discovered_devices inp with
   | [] =>
       emit (print (nl ++ "No Bluetooth devices found. Exiting..." ++ nl)) ;;
       raise (SystemExit 0)
   | _ :: _ => ret tt
   end) ;;
  devices <- check_discovered (discovered_devices inp) [] ;;
  (if Nat.ltb (List.length devices) 2 then
     emit (print (nl ++ "Bluetooth setup incomplete. Exiting..." ++ nl)) ;;
     raise (SystemExit 0)
   else ret tt) ;;
  for_each devices
    (fun device =>
       call (node_add_listener device) ;;
       emit (print ("Connecting to " ++ get_name sdk device ++ "...")) ;;
       call (connect device) ;;
       emit (print "Connection done.")) ;;
  emit (print (nl ++ "Getting features...")) ;;
  read_node IoT_Device_1 ;;
  call (get_feature IoT_Device_1) ;;
  read_node IoT_Device_2 ;;
  call (get_feature IoT_Device_2) ;;
  emit (print "Resetting switches...") ;;
  w <- get ;;
  call (write_switch_status IoT_Device_1 (value (iot_device_1_status w))) ;;
  w <- get ;;
  call (write_switch_status IoT_Device_2 (value (iot_device_2_status w))) ;;
  emit (print (nl ++ "Bluetooth setup complete.")) ;;
  emit (print (nl ++ "Initializing Edge Computing..." ++ nl)) ;;
  e <- read_global endpoint ;;
  r <- read_global root_ca_path ;;
  call (AWSGreengrass e r) ;;
  call (get_client IoT_Device_1 IOT_DEVICE_1_NAME
          IOT_DEVICE_1_CERTIF_PATH IOT_DEVICE_1_PRIV_K_PATH) ;;
  call (get_client IoT_Device_2 IOT_DEVICE_2_NAME
          IOT_DEVICE_2_CERTIF_PATH IOT_DEVICE_2_PRIV_K_PATH) ;;
  call (client_connect IoT_Device_1) ;;
  call (client_connect IoT_Device_2) ;;
  call (subscribe IoT_Device_1 MQTT_IOT_DEVICE_SWITCH_ACT_TOPIC MQTT_QOS_1) ;;
  arrive [IoT_Device_1] (inbound_after_subscribe_1 inp) ;;
  call (subscribe IoT_Device_2 MQTT_IOT_DEVICE_SWITCH_ACT_TOPIC MQTT_QOS_1) ;;
  arrive both (inbound_after_subscribe_2 inp) ;;
  w <- get ;;
  call (update_shadow_state IoT_Device_1
          (state_json_str (value (iot_device_1_status w))) SHADOW_CALLBACK_TIMEOUT_s) ;;
  arrive both (inbound_after_shadow_1 inp) ;;
  w <- get ;;
  call (update_shadow_state IoT_Device_2
          (state_json_str (value (iot_device_2_status w))) SHADOW_CALLBACK_TIMEOUT_s) ;;
  emit (print (nl ++ "Edge Computing Initialized.")) ;;
  call (feature_add_listener IoT_Device_1 MQTT_IOT_DEVICE_SWITCH_SENSE_TOPIC) ;;
  call (feature_add_listener IoT_Device_2 MQTT_IOT_DEVICE_SWITCH_SENSE_TOPIC) ;;
  emit (print (nl ++ "Enabling Bluetooth notifications...")) ;;
  call (enable_notifications IoT_Device_1) ;;
  call (enable_notifications IoT_Device_2) ;;
  emit (print (nl ++ "Demo running (" ++ Py.q ++ "CTRL+C" ++ Py.q ++ " to quit)..." ++ nl)).

(** ... and the loop. *)
Definition main_try (inp : Inputs) : M MainEnd :=
  start_up inp ;;
  loop (ticks inp).

(** The [except] clauses of [main]. *)
Definition main_except (e : Exn) : option (M MainEnd) :=
  match e with
  | InvalidOperationException =>
      Some (emit (print_exception e) ;; ret Finished)
  | BTLEException | WrongInstantiationException =>
      Some (emit (print_exception e) ;;
            emit (print ("Exiting..." ++ nl)) ;;
            raise (SystemExit 0))
  | KeyboardInterrupt =>
      Some (emit (print (nl ++ "Exiting..." ++ nl)) ;; raise (os_exit 0))
  | _ => None
  end.

(** [main]. *)
Definition main (argv : list string) (inp : Inputs) : M MainEnd :=
  modify (set_status IoT_Device_1 OFF) ;;
  modify (set_status IoT_Device_2 OFF) ;;
  modify (set_act_flag IoT_Device_1 false) ;;
  modify (set_act_flag IoT_Device_2 false) ;;
  print_intro ;;
  read_input argv ;;
  try_except (main_try inp) main_except.

(** The [if __name__ == "__main__":] block, run in a world [w]. *)
Definition program (argv : list string) (inp : Inputs) (w : World)
  : Outcome * World :=
  match main argv inp w with
  | (Returned StillRunning, w') => (Running, w')
  | (Returned Finished, w') => (Exited 0, w')
  | (Raised (SystemExit code), w') => (Exited code, w')
  | (Raised (os_exit code), w') => (Exited code, w')
  | (Raised KeyboardInterrupt, w') => (Exited 0, w')
  | (Raised e, w') => (Crashed e, w')
  end.

End Bridge.

(** The world a fresh process starts from: nothing called, [endpoint],
    [root_ca_path] and the two nodes unbound.  The four device globals are
    unbound too; [main] assigns them before anything reads them, so the
    record may hold any [s1 s2 f1 f2] in their place. *)
Definition process_start (s1 s2 : SwitchStatus) (f1 f2 : bool) : World :=
  mkWorld None None false false s1 s2 f1 f2 [].

(** Modelled from the spec: [feature_switch.FeatureSwitch.FEATURE_DATA_NAME]
    belongs to the BlueST SDK, which is not part of this repository; the
    spec's literal act payload names the field [switch_status_value]. *)
Definition spec_FEATURE_DATA_NAME : string := "switch_status_value".

(** An SDK in which no call raises, with the reader and writer of the
    [Json] module. *)
Definition quiet_sdk : Sdk :=
  mkSdk spec_FEATURE_DATA_NAME Json.loads (fun _ => ValueError) Json.dumps
    (fun _ => spec_FEATURE_DATA_NAME)
    client_id
    (fun _ _ => None).

(** * Properties *)

(** ** Weakest preconditions for the monad *)

(** [wp m Q E w]: run from [w], [m] either returns [a] in a world with
    [Q a], or raises [e] in a world with [E e]. *)
Definition wp {A} (m : M A) (Q : A -> World -> Prop) (E : Exn -> World -> Prop)
  (w : World) : Prop :=
  match m w with
  | (Returned a, w') => Q a w'
  | (Raised e, w') => E e w'
  end.

(** The world with more calls recorded. *)
Definition logged (cs : list Call) (w : World) : World :=
  set_trace (trace w ++ cs) w.

Lemma wp_ret {A} (a : A) Q E w : Q a w -> wp (ret a) Q E w.
Proof. intro H; exact H. Qed.

Lemma wp_raise {A} (e : Exn) (Q : A -> World -> Prop) E w :
  E e w -> wp (raise e) Q E w.
Proof. intro H; exact H. Qed.

Lemma wp_bind {A B} (m : M A) (k : A -> M B) Q E w :
  wp m (fun a w' => wp (k a) Q E w') E w -> wp (bind m k) Q E w.
Proof.
  unfold wp, bind. destruct (m w) as [[a | e] w']; intro H; exact H.
Qed.

Lemma wp_get Q E w : Q w w -> wp get Q E w.
Proof. intro H; exact H. Qed.

Lemma wp_modify f Q E w : Q tt (f w) -> wp (modify f) Q E w.
Proof. intro H; exact H. Qed.

Lemma wp_emit c Q E w : Q tt (logged [c] w) -> wp (emit c) Q E w.
Proof. intro H; exact H. Qed.

Lemma wp_call sdk c Q E w :
  Q tt (logged [c] w) -> (forall e, E e (logged [c] w)) -> wp (call sdk c) Q E w.
Proof.
  intros HQ HE. unfold wp, call.
  destruct (raises sdk (trace w) c); [apply HE | apply HQ].
Qed.

Lemma wp_try {A} (body : M A) handlers Q E w :
  wp body Q
     (fun e w' =>
        match handlers e with
        | Some h => wp h Q E w'
        | None => E e w'
        end) w ->
  wp (try_except body handlers) Q E w.
Proof.
  unfold wp, try_except.
  destruct (body w) as [[a | e] w']; [intro H; exact H |].
  destruct (handlers e); intro H; exact H.
Qed.

Lemma wp_weaken {A} (m : M A) (Q Q' : A -> World -> Prop) (E E' : Exn -> World -> Prop) w :
  wp m Q E w ->
  (forall a w', Q a w' -> Q' a w') ->
  (forall e w', E e w' -> E' e w') ->
  wp m Q' E' w.
Proof.
  unfold wp. destruct (m w) as [[a | e] w']; intros H HQ HE; auto.
Qed.

(** A loop over a list keeps an invariant its body keeps. *)
Lemma wp_for_each {A} (xs : list A) (body : A -> M unit)
  (I : World -> Prop) (E : Exn -> World -> Prop) :
  (forall x w, In x xs -> I w -> wp (body x) (fun _ w' => I w') E w) ->
  forall w, I w -> wp (for_each xs body) (fun _ w' => I w') E w.
Proof.
  induction xs as [| x rest IH]; intros Hbody w Hw.
  - exact Hw.
  - simpl. apply wp_bind.
    eapply wp_weaken.
    + apply Hbody; [left; reflexivity | exact Hw].
    + intros u w' Hw'. apply IH; [| exact Hw'].
      intros y w0 Hy. apply Hbody. right; exact Hy.
    + auto.
Qed.

(** ** The message callbacks *)

Section Callbacks.

Variable sdk : Sdk.

(** [payload] is an act message in the bridge's schema: it holds the
    feature field, decodes to an object whose feature member is a string,
    and that string has the three space-separated parts. *)
Definition act_message (payload ts cid tok : string) : Prop :=
  Py.contains (FEATURE_DATA_NAME sdk) payload = true
  /\ exists members field,
      json_loads sdk payload = Some (JObject members)
      /\ dict_get (FEATURE_DATA_NAME sdk) members = Some (JString field)
      /\ Py.split " " field = [ts; cid; tok].

(** What a callback leaves when it takes an act for [d]. *)
Definition record_act (d : Device) (v : SwitchStatus) (w : World) : World :=
  set_act_flag d true (set_status d v w).

Lemma callback_1_without_field payload w :
  Py.contains (FEATURE_DATA_NAME sdk) payload = false ->
  iot_device_1_callback sdk payload w = (Raised UnboundLocalError, w).
Proof.
  intro H. unfold iot_device_1_callback, bind. rewrite H. reflexivity.
Qed.

Lemma callback_2_without_field payload w :
  Py.contains (FEATURE_DATA_NAME sdk) payload = false ->
  iot_device_2_callback sdk payload w = (Raised UnboundLocalError, w).
Proof.
  intro H. unfold iot_device_2_callback, bind. rewrite H. reflexivity.
Qed.

Lemma callback_1_act payload ts cid tok w :
  act_message payload ts cid tok ->
  iot_device_1_callback sdk payload w =
  (Returned tt,
   if String.eqb cid IOT_DEVICE_1_NAME
   then record_act IoT_Device_1 (if String.eqb tok "0" then OFF else ON) w
   else w).
Proof.
  intros (Hin & members & field & Hloads & Hget & Hsplit).
  unfold iot_device_1_callback, bind, loads, subscript, split_space.
  rewrite Hin, Hloads. cbn. rewrite Hget. cbn. rewrite Hsplit. cbn.
  destruct (String.eqb cid IOT_DEVICE_1_NAME); [| reflexivity].
  destruct (String.eqb tok "0"); reflexivity.
Qed.

Lemma callback_2_act payload ts cid tok w :
  act_message payload ts cid tok ->
  iot_device_2_callback sdk payload w =
  (Returned tt,
   if String.eqb cid IOT_DEVICE_2_NAME
   then record_act IoT_Device_2 (if String.eqb tok "0" then OFF else ON) w
   else w).
Proof.
  intros (Hin & members & field & Hloads & Hget & Hsplit).
  unfold iot_device_2_callback, bind, loads, subscript, split_space.
  rewrite Hin, Hloads. cbn. rewrite Hget. cbn. rewrite Hsplit. cbn.
  destruct (String.eqb cid IOT_DEVICE_2_NAME); [| reflexivity].
  destruct (String.eqb tok "0"); reflexivity.
Qed.

(** An act message addressed to [d] is taken by [d]'s callback and left
    alone by the other one. *)
Lemma callback_of_act d d' payload ts tok w :
  act_message payload ts (client_id d) tok ->
  callback_of sdk d' payload w =
  (Returned tt,
   if Device_eqb d d'
   then record_act d (if String.eqb tok "0" then OFF else ON) w
   else w).
Proof.
  intro H. destruct d, d'; simpl callback_of.
  - rewrite (callback_1_act _ _ _ _ _ H). reflexivity.
  - rewrite (callback_2_act _ _ _ _ _ H). reflexivity.
  - rewrite (callback_1_act _ _ _ _ _ H). reflexivity.
  - rewrite (callback_2_act _ _ _ _ _ H). reflexivity.
Qed.

(** A callback makes no SDK call, whatever it ends in. *)
Lemma callback_trace d payload w :
  trace (snd (callback_of sdk d payload w)) = trace w.
Proof.
  destruct d; simpl;
    [unfold iot_device_1_callback | unfold iot_device_2_callback];
    unfold bind, loads, subscript, split_space, unpack3, ret, raise, modify;
    destruct (Py.contains _ payload); try reflexivity;
    destruct (json_loads sdk payload) as [[| | | | |members] |]; try reflexivity;
    destruct (dict_get _ members) as [[| | |field | |] |]; try reflexivity;
    destruct (Py.split " " field) as [| a [| b [| c [| ? ?]]]]; try reflexivity;
    match goal with |- context [String.eqb b ?n] => destruct (String.eqb b n) end;
    reflexivity.
Qed.

End Callbacks.

(** ** Arrival of act messages *)

Section Arrival.

Variable sdk : Sdk.

(** Whatever the payload, a callback leaves the world as it was or records
    an act for its own device. *)
Lemma callback_effect d payload w :
  snd (callback_of sdk d payload w) = w
  \/ exists v, snd (callback_of sdk d payload w) = record_act d v w.
Proof.
  destruct d; simpl;
    [unfold iot_device_1_callback | unfold iot_device_2_callback];
    unfold bind, loads, subscript, split_space, unpack3, ret, raise, modify;
    destruct (Py.contains _ payload); try (left; reflexivity);
    destruct (json_loads sdk payload) as [[| | | | |members] |]; try (left; reflexivity);
    destruct (dict_get _ members) as [[| | |field | |] |]; try (left; reflexivity);
    destruct (Py.split " " field) as [| a [| b [| c [| ? ?]]]]; try (left; reflexivity);
    match goal with |- context [String.eqb b ?n] => destruct (String.eqb b n) end;
    try (left; reflexivity);
    right; eexists; reflexivity.
Qed.

(** A property of worlds that recording an act keeps is kept by every
    arrival. *)
Lemma deliver_keeps (P : World -> Prop) subscribed payload :
  (forall d v w, P w -> P (record_act d v w)) ->
  forall w, P w -> P (snd (deliver sdk subscribed payload w)).
Proof.
  intro Hrec. unfold deliver.
  induction subscribed as [| d rest IH]; intros w Hw; [exact Hw |].
  simpl. unfold bind at 1. simpl. apply IH.
  destruct (callback_effect d payload w) as [-> | [v ->]]; auto.
Qed.

Lemma deliver_returns subscribed payload w :
  fst (deliver sdk subscribed payload w) = Returned tt.
Proof.
  unfold deliver. revert w.
  induction subscribed as [| d rest IH]; intro w; [reflexivity |].
  simpl. unfold bind at 1. simpl. apply IH.
Qed.

Lemma arrive_keeps (P : World -> Prop) subscribed payloads :
  (forall d v w, P w -> P (record_act d v w)) ->
  forall w, P w -> P (snd (arrive sdk subscribed payloads w)).
Proof.
  intro Hrec. unfold arrive.
  induction payloads as [| p rest IH]; intros w Hw; [exact Hw |].
  simpl. unfold bind at 1.
  pose proof (deliver_returns subscribed p w) as Hr.
  pose proof (deliver_keeps P subscribed p Hrec w Hw) as Hk.
  destruct (deliver sdk subscribed p w) as [r w1]. simpl in Hr, Hk. subst r.
  apply IH. exact Hk.
Qed.

Lemma arrive_returns subscribed payloads w :
  fst (arrive sdk subscribed payloads w) = Returned tt.
Proof.
  unfold arrive. revert w.
  induction payloads as [| p rest IH]; intro w; [reflexivity |].
  simpl. unfold bind at 1.
  pose proof (deliver_returns subscribed p w) as Hr.
  destruct (deliver sdk subscribed p w) as [r w1]. simpl in Hr. subst r.
  apply IH.
Qed.

Lemma arrive_eq subscribed payloads w :
  arrive sdk subscribed payloads w =
  (Returned tt, snd (arrive sdk subscribed payloads w)).
Proof.
  pose proof (arrive_returns subscribed payloads w) as H.
  destruct (arrive sdk subscribed payloads w) as [r w']. simpl in *. now subst.
Qed.

Lemma arrive_trace subscribed payloads w :
  trace (snd (arrive sdk subscribed payloads w)) = trace w.
Proof.
  apply (arrive_keeps (fun w' => trace w' = trace w)); [| reflexivity].
  intros d v w0 H. destruct d; exact H.
Qed.

(** Arrivals set act flags, they never clear one. *)
Lemma arrive_flag_stays d subscribed payloads w :
  act_flag_of d w = true ->
  act_flag_of d (snd (arrive sdk subscribed payloads w)) = true.
Proof.
  apply (arrive_keeps (fun w' => act_flag_of d w' = true)).
  intros d' v w0 H. destruct d, d'; simpl; auto.
Qed.

Lemma wp_arrive subscribed payloads (Q : unit -> World -> Prop) E w :
  Q tt (snd (arrive sdk subscribed payloads w)) ->
  wp (arrive sdk subscribed payloads) Q E w.
Proof.
  intro H. unfold wp. rewrite arrive_eq. exact H.
Qed.

(** An act message for [d] reaching both clients records the act for [d]
    and nothing else. *)
Lemma deliver_act d payload ts tok w :
  act_message sdk payload ts (client_id d) tok ->
  deliver sdk both payload w =
  (Returned tt, record_act d (if String.eqb tok "0" then OFF else ON) w).
Proof.
  intro H. unfold deliver, both. cbn [for_each]. unfold bind, ret.
  rewrite (callback_of_act sdk d IoT_Device_1 payload ts tok w H). cbn [snd].
  rewrite (callback_of_act sdk d IoT_Device_2 payload ts tok _ H). cbn [snd].
  destruct d; reflexivity.
Qed.

End Arrival.

(** ** One pass of the loop when no SDK call raises *)

(** The calls of one [iot_device_act]. *)
Definition act_calls (d : Device) (s : SwitchStatus) : list Call :=
  [disable_notifications d;
   write_switch_status d (value s);
   enable_notifications d;
   update_shadow_state d (state_json_str (value s)) SHADOW_CALLBACK_TIMEOUT_s].

(** The publication [on_update] makes for a sample of [d]. *)
Definition sense_call (sdk : Sdk) (d : Device) (sample : Sample) : Call :=
  publish d MQTT_IOT_DEVICE_SWITCH_SENSE_TOPIC
    (json_dumps sdk
       (JObject
          [(get_fields_description_0_get_name sdk d,
            JString ("(" ++ Py.str (get_timestamp sample) ++ ") "
                     ++ client_id d ++ " " ++ Py.str (get_switch_status sample)))]))
    MQTT_QOS_0.

(** The physical writes among some calls, in order. *)
Fixpoint writes (cs : list Call) : list (Device * Z) :=
  match cs with
  | [] => []
  | write_switch_status d v :: rest => (d, v) :: writes rest
  | _ :: rest => writes rest
  end.

(** The pass meets a notification: device 1 has one at hand, or else
    device 2 has. *)
Definition has_notification (t : Tick) : bool :=
  match notification_1 t, notification_2 t with
  | None, None => false
  | _, _ => true
  end.

(** The calls of the two polls of a pass, with what they publish. *)
Definition poll_calls (sdk : Sdk) (t : Tick) : list Call :=
  match notification_1 t, notification_2 t with
  | Some s, _ => [wait_for_notifications IoT_Device_1; sense_call sdk IoT_Device_1 s]
  | None, Some s =>
      [wait_for_notifications IoT_Device_1; wait_for_notifications IoT_Device_2;
       sense_call sdk IoT_Device_2 s]
  | None, None =>
      [wait_for_notifications IoT_Device_1; wait_for_notifications IoT_Device_2]
  end.

Lemma logged_logged a b w : logged b (logged a w) = logged (a ++ b) w.
Proof.
  unfold logged, set_trace. simpl. now rewrite <- app_assoc.
Qed.

Lemma logged_nil w : logged [] w = w.
Proof.
  destruct w. unfold logged, set_trace. simpl. now rewrite app_nil_r.
Qed.

Lemma trace_logged cs w : trace (logged cs w) = (trace w ++ cs)%list.
Proof. reflexivity. Qed.

Lemma writes_app a b : writes (a ++ b) = (writes a ++ writes b)%list.
Proof.
  induction a as [| c a IH]; [reflexivity |].
  destruct c; simpl; rewrite IH; reflexivity.
Qed.

Section Quiet.

Variable sdk : Sdk.
Hypothesis quiet : forall tr c, raises sdk tr c = None.

Lemma call_quiet c w : call sdk c w = (Returned tt, logged [c] w).
Proof. unfold call. now rewrite quiet. Qed.

Lemma iot_device_act_quiet d s w :
  iot_device_act sdk d d s d w = (Returned tt, logged (act_calls d s) w).
Proof.
  unfold iot_device_act, bind. rewrite !call_quiet, !logged_logged. reflexivity.
Qed.

Lemma wait_quiet d n w :
  wait sdk d n w =
  match n with
  | Some s => (Returned true, logged [wait_for_notifications d; sense_call sdk d s] w)
  | None => (Returned false, logged [wait_for_notifications d] w)
  end.
Proof.
  unfold wait, bind, on_update. rewrite call_quiet.
  destruct n as [s |]; [| reflexivity].
  rewrite call_quiet, logged_logged. reflexivity.
Qed.

(** The pass, written out. *)
Lemma loop_body_quiet t w :
  let w0 := snd (arrive sdk both (inbound t) w) in
  let polled := logged (poll_calls sdk t) w0 in
  loop_body sdk t w =
  (Returned tt,
   if has_notification t then polled
   else if iot_device_1_act_flag w0 then
     set_act_flag IoT_Device_1 false
       (snd (arrive sdk both (inbound_during_act t)
               (logged (act_calls IoT_Device_1 (iot_device_1_status w0)) polled)))
   else if iot_device_2_act_flag w0 then
     set_act_flag IoT_Device_2 false
       (snd (arrive sdk both (inbound_during_act t)
               (logged (act_calls IoT_Device_2 (iot_device_2_status w0)) polled)))
   else polled).
Proof.
  intros w0 polled. subst polled. unfold loop_body, has_notification, poll_calls.
  unfold bind. rewrite arrive_eq. fold w0. cbv beta iota.
  rewrite wait_quiet.
  destruct (notification_1 t) as [s1 |]; [reflexivity |].
  rewrite wait_quiet.
  destruct (notification_2 t) as [s2 |].
  { cbv beta iota. rewrite logged_logged. reflexivity. }
  cbv beta iota. rewrite logged_logged. cbn [app]. unfold get. cbv beta iota.
  change (iot_device_1_act_flag (logged ?c w0)) with (iot_device_1_act_flag w0).
  change (iot_device_2_act_flag (logged ?c w0)) with (iot_device_2_act_flag w0).
  change (iot_device_1_status (logged ?c w0)) with (iot_device_1_status w0).
  change (iot_device_2_status (logged ?c w0)) with (iot_device_2_status w0).
  destruct (iot_device_1_act_flag w0).
  { cbv beta iota. rewrite iot_device_act_quiet, arrive_eq. reflexivity. }
  destruct (iot_device_2_act_flag w0).
  { cbv beta iota. rewrite iot_device_act_quiet, arrive_eq. reflexivity. }
  reflexivity.
Qed.

End Quiet.

(** ** Which pending act a pass services *)

(** The calls a computation adds to the trace. *)
Definition calls_during {A} (m : M A) (w : World) : list Call :=
  skipn (List.length (trace w)) (trace (snd (m w))).

(** The reading of the loop in which every pass drains every pending act,
    whatever else the pass meets. *)
Definition drains_every_pending_act (sdk : Sdk) : Prop :=
  forall t w d,
    act_flag_of d (snd (arrive sdk both (inbound t) w)) = true ->
    exists v, In (d, v) (writes (calls_during (loop_body sdk t) w)).

(** The device a pass services, given the world [w0] it polls in: none
    when a notification is met, else device 1 when its act is pending, else
    device 2 when its act is pending. *)
Definition serviced (t : Tick) (w0 : World) : option Device :=
  if has_notification t then None
  else if iot_device_1_act_flag w0 then Some IoT_Device_1
  else if iot_device_2_act_flag w0 then Some IoT_Device_2
  else None.

(** A pass that meets no message at all. *)
Definition silent (t : Tick) : Prop :=
  inbound t = [] /\ inbound_during_act t = [].

Definition both_pending : World :=
  mkWorld (Some "a.example") (Some "ca.pem") true true ON ON true true [].

Definition idle_tick : Tick := mkTick [] None None [].

Lemma quiet_sdk_quiet : forall tr c, raises quiet_sdk tr c = None.
Proof. reflexivity. Qed.

Lemma writes_poll_calls sdk t : writes (poll_calls sdk t) = [].
Proof.
  unfold poll_calls, sense_call.
  destruct (notification_1 t), (notification_2 t); reflexivity.
Qed.

Lemma act_flag_logged d cs w : act_flag_of d (logged cs w) = act_flag_of d w.
Proof. destruct d; reflexivity. Qed.

Lemma act_flag_set_other d d' b w :
  d <> d' -> act_flag_of d (set_act_flag d' b w) = act_flag_of d w.
Proof. destruct d, d'; intro H; try reflexivity; contradiction. Qed.

Lemma act_flag_set_same d b w : act_flag_of d (set_act_flag d b w) = b.
Proof. destruct d; reflexivity. Qed.

Lemma trace_set_act_flag d b w : trace (set_act_flag d b w) = trace w.
Proof. destruct d; reflexivity. Qed.

(** C3, as the code has it: when no SDK call raises, a pass of the loop
    returns and applies at most one pending act.  If a notification is met
    (device 1 has one, or else device 2 has) the pass ends at its
    [continue]: nothing is written and both act flags stay as they were.
    Otherwise device 1's pending act is applied, or, only when device 1
    has none pending, device 2's; the act applied has its flag cleared and
    an act that was pending and not applied stays pending. *)
Theorem pass_services_one_device sdk t w :
  (forall tr c, raises sdk tr c = None) ->
  let w0 := snd (arrive sdk both (inbound t) w) in
  exists calls w',
    loop_body sdk t w = (Returned tt, w')
    /\ trace w' = (trace w ++ calls)%list
    /\ writes calls =
         match serviced t w0 with
         | Some d => [(d, value (status_of d w0))]
         | None => []
         end
    /\ (forall d, serviced t w0 = Some d -> act_flag_of d w' = false)
    /\ (forall d, act_flag_of d w0 = true -> serviced t w0 <> Some d ->
                  act_flag_of d w' = true)
    /\ (has_notification t = true ->
        forall d, act_flag_of d w' = act_flag_of d w0).
Proof.
  intros quiet w0.
  pose proof (loop_body_quiet sdk quiet t w) as Hpass. cbv zeta in Hpass.
  fold w0 in Hpass. unfold serviced.
  assert (Htr0 : trace w0 = trace w) by apply arrive_trace.
  destruct (has_notification t) eqn:Hn.
  - exists (poll_calls sdk t), (logged (poll_calls sdk t) w0).
    split; [exact Hpass |]. rewrite trace_logged, Htr0, writes_poll_calls.
    repeat split; try discriminate.
    intros d Hd _. now rewrite act_flag_logged.
  - destruct (iot_device_1_act_flag w0) eqn:F1;
      [| destruct (iot_device_2_act_flag w0) eqn:F2].
    + eexists (poll_calls sdk t ++ act_calls IoT_Device_1 (iot_device_1_status w0))%list, _.
      split; [exact Hpass |].
      rewrite trace_set_act_flag, arrive_trace, !trace_logged, Htr0, <- app_assoc.
      rewrite writes_app, writes_poll_calls.
      repeat split; try discriminate.
      * intros d [= <-]. reflexivity.
      * intros d Hd Hne. destruct d; [congruence |].
        cbn [act_flag_of set_act_flag iot_device_2_act_flag].
        apply (arrive_flag_stays sdk IoT_Device_2). exact Hd.
    + eexists (poll_calls sdk t ++ act_calls IoT_Device_2 (iot_device_2_status w0))%list, _.
      split; [exact Hpass |].
      rewrite trace_set_act_flag, arrive_trace, !trace_logged, Htr0, <- app_assoc.
      rewrite writes_app, writes_poll_calls.
      repeat split; try discriminate.
      * intros d [= <-]. reflexivity.
      * intros d Hd Hne. destruct d; [| congruence].
        simpl in Hd. congruence.
    + exists (poll_calls sdk t), (logged (poll_calls sdk t) w0).
      split; [exact Hpass |]. rewrite trace_logged, Htr0, writes_poll_calls.
      repeat split; try discriminate.
      intros d Hd _. destruct d; simpl in Hd; congruence.
Qed.

Lemma pass_services_one_device_witness :
  (forall tr c, raises quiet_sdk tr c = None)
  /\ exists calls w',
      loop_body quiet_sdk idle_tick both_pending = (Returned tt, w')
      /\ trace w' = (trace both_pending ++ calls)%list
      /\ writes calls = [(IoT_Device_1, 1)]
      /\ iot_device_1_act_flag w' = false
      /\ iot_device_2_act_flag w' = true.
Proof.
  split; [exact quiet_sdk_quiet |].
  destruct (pass_services_one_device quiet_sdk idle_tick both_pending quiet_sdk_quiet)
    as (calls & w' & Hrun & Htr & Hw & Hclr & Hstay & _).
  exists calls, w'. repeat split; try assumption.
  - apply (Hclr IoT_Device_1). reflexivity.
  - apply (Hstay IoT_Device_2); [reflexivity | discriminate].
Defined.

(** C3, the claim as worded, fails: with an act pending for both devices
    and no notification, a pass applies device 1's act only and device 2's
    stays pending. *)
Lemma pending_act_of_device_2_is_deferred :
  ~ drains_every_pending_act quiet_sdk.
Proof.
  intro H.
  destruct (H idle_tick both_pending IoT_Device_2 eq_refl) as [v Hin].
  vm_compute in Hin.
  destruct Hin as [Heq | []]. discriminate Heq.
Qed.

(** The other deferral: a notification met by the pass leaves a pending
    act unapplied. *)
Example notification_defers_pending_act :
  let t := mkTick [] (Some (mkSample 1000 1)) None [] in
  writes (calls_during (loop_body quiet_sdk t) both_pending) = []
  /\ iot_device_1_act_flag (snd (loop_body quiet_sdk t both_pending)) = true.
Proof. vm_compute. split; reflexivity. Qed.

(** ** One pending act per device *)

Lemma arrive_nil sdk subscribed w :
  arrive sdk subscribed [] w = (Returned tt, w).
Proof. reflexivity. Qed.

Lemma arrive_two_acts sdk d p' ts' tok' p ts tok w :
  act_message sdk p' ts' (client_id d) tok' ->
  act_message sdk p ts (client_id d) tok ->
  arrive sdk both [p'; p] w =
  (Returned tt, record_act d (if String.eqb tok "0" then OFF else ON) w).
Proof.
  intros H' H. unfold arrive. cbn [for_each]. unfold bind.
  rewrite (deliver_act sdk d p' ts' tok' w H').
  rewrite (deliver_act sdk d p ts tok _ H).
  destruct d, w; reflexivity.
Qed.

(** While no message arrives, a device with no act pending is not written
    to, however many passes go by and whatever they are notified of. *)
Lemma no_act_without_message sdk d :
  (forall tr c, raises sdk tr c = None) ->
  forall passes w,
    Forall silent passes ->
    act_flag_of d w = false ->
    exists calls w',
      loop sdk passes w = (Returned StillRunning, w')
      /\ trace w' = (trace w ++ calls)%list
      /\ (forall v, ~ In (d, v) (writes calls))
      /\ act_flag_of d w' = false.
Proof.
  intro quiet.
  induction passes as [| t rest IH]; intros w Hsilent Hflag.
  - exists [], w. repeat split; auto. now rewrite app_nil_r.
  - inversion Hsilent as [| ? ? [Hin Hduring] Hrest]; subst.
    pose proof (loop_body_quiet sdk quiet t w) as Hpass. cbv zeta in Hpass.
    rewrite Hin, Hduring in Hpass. rewrite !arrive_nil in Hpass. cbn [snd] in Hpass.
    assert (Hstep : exists calls1 w1,
               loop_body sdk t w = (Returned tt, w1)
               /\ trace w1 = (trace w ++ calls1)%list
               /\ (forall v, ~ In (d, v) (writes calls1))
               /\ act_flag_of d w1 = false).
    { destruct (has_notification t).
      - eexists (poll_calls sdk t), _. split; [exact Hpass |].
        rewrite trace_logged, writes_poll_calls, act_flag_logged. auto.
      - destruct (iot_device_1_act_flag w) eqn:F1;
          [| destruct (iot_device_2_act_flag w) eqn:F2].
        + destruct d; [simpl in Hflag; congruence |].
          eexists (poll_calls sdk t ++ act_calls IoT_Device_1 (iot_device_1_status w))%list, _.
          split; [exact Hpass |].
          rewrite trace_set_act_flag, !trace_logged, <- app_assoc.
          rewrite writes_app, writes_poll_calls.
          repeat split; auto.
          intros v [Heq | []]. discriminate Heq.
        + destruct d; [| simpl in Hflag; congruence].
          eexists (poll_calls sdk t ++ act_calls IoT_Device_2 (iot_device_2_status w))%list, _.
          split; [exact Hpass |].
          rewrite trace_set_act_flag, !trace_logged, <- app_assoc.
          rewrite writes_app, writes_poll_calls.
          repeat split; auto.
          intros v [Heq | []]. discriminate Heq.
        + eexists (poll_calls sdk t), _. split; [exact Hpass |].
          rewrite trace_logged, writes_poll_calls, act_flag_logged. auto. }
    destruct Hstep as (calls1 & w1 & Hrun1 & Htr1 & Hw1 & Hf1).
    destruct (IH w1 Hrest Hf1) as (calls2 & w2 & Hrun2 & Htr2 & Hw2 & Hf2).
    exists (calls1 ++ calls2)%list, w2.
    cbn [loop]. unfold bind. rewrite Hrun1, Hrun2.
    rewrite Htr2, Htr1, <- app_assoc, writes_app.
    repeat split; auto.
    intros v Hv. apply in_app_or in Hv. destruct Hv as [Hv | Hv].
    + exact (Hw1 v Hv).
    + exact (Hw2 v Hv).
Qed.

(** C6: an act message for device [d] delivered twice in a row, then one
    pass of the loop that reaches [d]'s act handling (no notification met,
    no SDK call raising and, for device 2, no act pending for device 1):
    the pass applies the decoded value [v] to [d] exactly once, the calls
    being the two polls followed by one [iot_device_act] for [d] with [v],
    and clears [d]'s flag.  More generally an act that arrives after an
    unapplied one for [d] replaces it: only the later value is applied.
    After that nothing is left queued: passes that meet no new message
    make no further write to [d]. *)
Theorem duplicate_act_applied_once sdk d p' ts' tok' p ts tok w :
  (forall tr c, raises sdk tr c = None) ->
  act_message sdk p' ts' (client_id d) tok' ->
  act_message sdk p ts (client_id d) tok ->
  (d = IoT_Device_2 -> iot_device_1_act_flag w = false) ->
  let v := if String.eqb tok "0" then OFF else ON in
  let polls := [wait_for_notifications IoT_Device_1;
                wait_for_notifications IoT_Device_2] in
  (exists w',
      loop_body sdk (mkTick [p; p] None None []) w = (Returned tt, w')
      /\ trace w' = (trace w ++ polls ++ act_calls d v)%list
      /\ act_flag_of d w' = false)
  /\ exists w',
      loop_body sdk (mkTick [p'; p] None None []) w = (Returned tt, w')
      /\ trace w' = (trace w ++ polls ++ act_calls d v)%list
      /\ act_flag_of d w' = false
      /\ forall passes, Forall silent passes ->
           exists calls w'',
             loop sdk passes w' = (Returned StillRunning, w'')
             /\ trace w'' = (trace w' ++ calls)%list
             /\ forall v', ~ In (d, v') (writes calls).
Proof.
  intros quiet H' H Hfree v polls.
  assert (Hpass : forall q tsq tokq,
             act_message sdk q tsq (client_id d) tokq ->
             exists w',
               loop_body sdk (mkTick [q; p] None None []) w = (Returned tt, w')
               /\ trace w' = (trace w ++ polls ++ act_calls d v)%list
               /\ act_flag_of d w' = false).
  { intros q tsq tokq Hq.
    pose proof (loop_body_quiet sdk quiet (mkTick [q; p] None None []) w) as Hrun.
    cbv zeta in Hrun. cbn [inbound inbound_during_act] in Hrun.
    rewrite (arrive_two_acts sdk d q tsq tokq p ts tok w Hq H) in Hrun.
    fold v in Hrun. cbn [snd] in Hrun. rewrite !arrive_nil in Hrun.
    cbn [snd] in Hrun.
    change (has_notification (mkTick [q; p] None None [])) with false in Hrun.
    change (poll_calls sdk (mkTick [q; p] None None [])) with polls in Hrun.
    cbv iota in Hrun.
    destruct d.
    - eexists. split; [exact Hrun |].
      split; [cbn; now rewrite <- app_assoc | reflexivity].
    - assert (F1 : iot_device_1_act_flag (record_act IoT_Device_2 v w) = false)
        by (simpl; auto).
      rewrite F1 in Hrun.
      eexists. split; [exact Hrun |].
      split; [cbn; now rewrite <- app_assoc | reflexivity]. }
  split.
  - exact (Hpass p ts tok H).
  - destruct (Hpass p' ts' tok' H') as (w' & Hrun & Htr & Hflag).
    exists w'. repeat split; try assumption.
    intros passes Hsilent.
    destruct (no_act_without_message sdk d quiet passes w' Hsilent Hflag)
      as (calls & w'' & Hloop & Htr' & Hno & _).
    exists calls, w''. auto.
Qed.

(** ** Concrete payloads *)

(** The literal act payload of the spec's router test. *)
Definition literal_payload : string :=
  "{" ++ Py.q ++ "switch_status_value" ++ Py.q ++ ":"
  ++ Py.q ++ "(1000) IoT_Device_1 1" ++ Py.q ++ "}".

(** A sense message as [json.dumps] writes it, with the identifier the
    relay swapped in. *)
Definition relayed_payload (cid tok : string) : string :=
  "{" ++ Py.q ++ "switch_status_value" ++ Py.q ++ ": "
  ++ Py.q ++ "(1553000000) " ++ cid ++ " " ++ tok ++ Py.q ++ "}".

Lemma literal_payload_loads :
  Json.loads literal_payload
  = Some (JObject [("switch_status_value", JString "(1000) IoT_Device_1 1")]).
Proof. vm_compute. reflexivity. Qed.

Lemma literal_payload_is_act :
  act_message quiet_sdk literal_payload "(1000)" "IoT_Device_1" "1".
Proof.
  split; [vm_compute; reflexivity |].
  exists [("switch_status_value", JString "(1000) IoT_Device_1 1")],
         "(1000) IoT_Device_1 1".
  repeat split; vm_compute; reflexivity.
Qed.

Lemma relayed_off_is_act :
  act_message quiet_sdk (relayed_payload "IoT_Device_2" "0")
    "(1553000000)" "IoT_Device_2" "0".
Proof.
  split; [vm_compute; reflexivity |].
  exists [("switch_status_value", JString "(1553000000) IoT_Device_2 0")],
         "(1553000000) IoT_Device_2 0".
  repeat split; vm_compute; reflexivity.
Qed.

Lemma relayed_on_is_act :
  act_message quiet_sdk (relayed_payload "IoT_Device_2" "1")
    "(1553000000)" "IoT_Device_2" "1".
Proof.
  split; [vm_compute; reflexivity |].
  exists [("switch_status_value", JString "(1553000000) IoT_Device_2 1")],
         "(1553000000) IoT_Device_2 1".
  repeat split; vm_compute; reflexivity.
Qed.

Definition running_world : World :=
  mkWorld (Some "a.example") (Some "ca.pem") true true OFF OFF false false [].

Lemma duplicate_act_applied_once_witness :
  (forall tr c, raises quiet_sdk tr c = None)
  /\ act_message quiet_sdk (relayed_payload "IoT_Device_2" "0")
       "(1553000000)" (client_id IoT_Device_2) "0"
  /\ act_message quiet_sdk (relayed_payload "IoT_Device_2" "1")
       "(1553000000)" (client_id IoT_Device_2) "1"
  /\ (IoT_Device_2 = IoT_Device_2 -> iot_device_1_act_flag running_world = false)
  /\ exists w',
      loop_body quiet_sdk
        (mkTick [relayed_payload "IoT_Device_2" "1"; relayed_payload "IoT_Device_2" "1"]
           None None []) running_world = (Returned tt, w')
      /\ writes (trace w') = [(IoT_Device_2, 1)]
      /\ act_flag_of IoT_Device_2 w' = false.
Proof.
  split; [exact quiet_sdk_quiet |].
  split; [exact relayed_off_is_act |].
  split; [exact relayed_on_is_act |].
  split; [reflexivity |].
  destruct (duplicate_act_applied_once quiet_sdk IoT_Device_2
              (relayed_payload "IoT_Device_2" "0") "(1553000000)" "0"
              (relayed_payload "IoT_Device_2" "1") "(1553000000)" "1"
              running_world quiet_sdk_quiet relayed_off_is_act relayed_on_is_act
              (fun _ => eq_refl))
    as [(w' & Hrun & Htr & Hflag) _].
  exists w'. split; [exact Hrun |]. split; [| exact Hflag].
  rewrite Htr. reflexivity.
Defined.

(** ** Decoding and routing of act messages *)

(** C1, at the failing input: a payload without the feature field makes
    both callbacks raise [UnboundLocalError] to their caller; the world is
    left as it was. *)
Theorem missing_field_raises_in_callbacks w :
  iot_device_1_callback quiet_sdk "{}" w = (Raised UnboundLocalError, w)
  /\ iot_device_2_callback quiet_sdk "{}" w = (Raised UnboundLocalError, w).
Proof.
  split.
  - apply callback_1_without_field. reflexivity.
  - apply callback_2_without_field. reflexivity.
Qed.

(** C4: for an act message that holds the feature field and is addressed
    to device [d], the callback of [d] returns, stores OFF as [d]'s status
    when the token is the string 0 and ON for any other token, and marks
    [d]'s act pending. *)
Theorem act_token_decoded_non_strictly sdk d payload ts tok w :
  act_message sdk payload ts (client_id d) tok ->
  exists w',
    callback_of sdk d payload w = (Returned tt, w')
    /\ status_of d w' = (if String.eqb tok "0" then OFF else ON)
    /\ act_flag_of d w' = true
    /\ w' = record_act d (status_of d w') w.
Proof.
  intro H. eexists. split.
  - rewrite (callback_of_act sdk d d payload ts tok w H).
    destruct d; reflexivity.
  - destruct d; repeat split; reflexivity.
Qed.

Lemma act_token_decoded_non_strictly_witness :
  act_message quiet_sdk (relayed_payload "IoT_Device_2" "0")
    "(1553000000)" (client_id IoT_Device_2) "0"
  /\ exists w',
      iot_device_2_callback quiet_sdk (relayed_payload "IoT_Device_2" "0") both_pending
      = (Returned tt, w')
      /\ iot_device_2_status w' = OFF
      /\ iot_device_2_act_flag w' = true.
Proof.
  split; [exact relayed_off_is_act |].
  destruct (act_token_decoded_non_strictly quiet_sdk IoT_Device_2
              (relayed_payload "IoT_Device_2" "0") "(1553000000)" "0"
              both_pending relayed_off_is_act)
    as (w' & Hrun & Hst & Hfl & _).
  exists w'. auto.
Defined.

(** Any token but the string 0 is ON, the token OFF among them. *)
Example token_OFF_is_decoded_as_ON :
  iot_device_1_status
    (snd (iot_device_1_callback quiet_sdk
            ("{" ++ Py.q ++ "switch_status_value" ++ Py.q ++ ": "
             ++ Py.q ++ "(7) IoT_Device_1 OFF" ++ Py.q ++ "}") running_world))
  = ON.
Proof. vm_compute. reflexivity. Qed.

(** C5: the literal payload, the feature field being named as in the
    spec, is an act for device 1 with state ON: device 1's callback
    returns with its status ON and its act pending, and nothing of device 2
    changes, neither by that callback nor by device 2's own, which
    receives the payload too and leaves the world as it is. *)
Theorem literal_payload_routed_to_device_1 w :
  iot_device_1_callback quiet_sdk literal_payload w
  = (Returned tt, record_act IoT_Device_1 ON w)
  /\ iot_device_1_status (record_act IoT_Device_1 ON w) = ON
  /\ iot_device_1_act_flag (record_act IoT_Device_1 ON w) = true
  /\ iot_device_2_status (record_act IoT_Device_1 ON w) = iot_device_2_status w
  /\ iot_device_2_act_flag (record_act IoT_Device_1 ON w) = iot_device_2_act_flag w
  /\ iot_device_2_callback quiet_sdk literal_payload w = (Returned tt, w).
Proof.
  split.
  - rewrite (callback_1_act quiet_sdk _ _ _ _ w literal_payload_is_act). reflexivity.
  - repeat (split; [reflexivity |]).
    rewrite (callback_2_act quiet_sdk _ _ _ _ w literal_payload_is_act). reflexivity.
Qed.

(** ** A write that fails *)

(** An SDK in which every physical write raises [e]. *)
Definition failing_write_sdk (e : Exn) : Sdk :=
  mkSdk spec_FEATURE_DATA_NAME Json.loads (fun _ => ValueError) Json.dumps
    (fun _ => spec_FEATURE_DATA_NAME)
    client_id
    (fun _ c => match c with write_switch_status _ _ => Some e | _ => None end).

Lemma status_of_logged d cs w : status_of d (logged cs w) = status_of d w.
Proof. destruct d; reflexivity. Qed.

Lemma bind_returned {A B} (m : M A) (k : A -> M B) w a w' :
  m w = (Returned a, w') -> bind m k w = k a w'.
Proof. unfold bind. now intros ->. Qed.

Lemma bind_raised {A B} (m : M A) (k : A -> M B) w e w' :
  m w = (Raised e, w') -> bind m k w = (Raised e, w').
Proof. unfold bind. now intros ->. Qed.

Lemma call_returns sdk c w :
  raises sdk (trace w) c = None -> call sdk c w = (Returned tt, logged [c] w).
Proof. unfold call. now intros ->. Qed.

Lemma call_raises sdk c w e :
  raises sdk (trace w) c = Some e -> call sdk c w = (Raised e, logged [c] w).
Proof. unfold call. now intros ->. Qed.

Lemma wait_none_returns sdk d w :
  raises sdk (trace w) (wait_for_notifications d) = None ->
  wait sdk d None w = (Returned false, logged [wait_for_notifications d] w).
Proof.
  intro H. unfold wait. now rewrite (bind_returned _ _ _ _ _ (call_returns _ _ _ H)).
Qed.

(** [iot_device_act] when the disabling returns and the write raises. *)
Lemma iot_device_act_write_raises sdk d s w e :
  raises sdk (trace w) (disable_notifications d) = None ->
  raises sdk (trace w ++ [disable_notifications d])
    (write_switch_status d (value s)) = Some e ->
  iot_device_act sdk d d s d w
  = (Raised e, logged [disable_notifications d; write_switch_status d (value s)] w).
Proof.
  intros H1 H2. unfold iot_device_act.
  rewrite (bind_returned _ _ _ _ _ (call_returns _ _ _ H1)).
  rewrite (bind_raised _ _ _ _ _
             (call_raises sdk _ (logged [disable_notifications d] w) e H2)).
  now rewrite logged_logged.
Qed.

(** A pass that polls in vain and then applies the act of [d]: up to the
    return of [iot_device_act]. *)
Lemma loop_body_reaches_act sdk d t w :
  let w0 := snd (arrive sdk both (inbound t) w) in
  let polls := [wait_for_notifications IoT_Device_1;
                wait_for_notifications IoT_Device_2] in
  notification_1 t = None ->
  notification_2 t = None ->
  act_flag_of d w0 = true ->
  (d = IoT_Device_2 -> iot_device_1_act_flag w0 = false) ->
  raises sdk (trace w) (wait_for_notifications IoT_Device_1) = None ->
  raises sdk (trace w ++ [wait_for_notifications IoT_Device_1])
    (wait_for_notifications IoT_Device_2) = None ->
  loop_body sdk t w
  = bind (iot_device_act sdk d d (status_of d w0) d)
      (fun _ => bind (arrive sdk both (inbound_during_act t))
                  (fun _ => modify (set_act_flag d false)))
      (logged polls w0).
Proof.
  intros w0 polls Hn1 Hn2 Hflag Hfree R1 R2.
  assert (Htr0 : trace w0 = trace w) by apply arrive_trace.
  unfold loop_body.
  rewrite (bind_returned _ _ _ _ _ (arrive_eq sdk both (inbound t) w)). fold w0.
  rewrite Hn1, Hn2.
  rewrite <- Htr0 in R1, R2.
  rewrite (bind_returned _ _ _ _ _ (wait_none_returns sdk _ w0 R1)). cbv iota.
  rewrite (bind_returned _ _ _ _ _ (wait_none_returns sdk _ (logged _ w0) R2)).
  rewrite logged_logged. cbn [app]. fold polls.
  cbv iota.
  rewrite (bind_returned _ _ _ _ _ (eq_refl : get (logged polls w0) = (Returned (logged polls w0), logged polls w0))).
  destruct d; cbn [act_flag_of status_of] in *.
  - change (iot_device_1_act_flag (logged polls w0)) with (iot_device_1_act_flag w0).
    rewrite Hflag. reflexivity.
  - change (iot_device_1_act_flag (logged polls w0)) with (iot_device_1_act_flag w0).
    change (iot_device_2_act_flag (logged polls w0)) with (iot_device_2_act_flag w0).
    rewrite (Hfree eq_refl), Hflag. reflexivity.
Qed.

(** C7: a pass reaches the act of device [d] (no notification met, [d]'s
    act pending, the polls and the disabling returning) and the physical
    write raises [e], one of the two exceptions the BlueST SDK raises there.
    The exception leaves the loop for the [except] clauses of [main], which
    print it: the run ends (status 0) with the calls below and no other,
    whatever passes [rest] would have followed, so the write is not tried
    again; no shadow update is made, and the status of [d] is as it was
    when the pass polled. *)
Theorem failed_write_reported_not_retried sdk d t rest w e :
  let w0 := snd (arrive sdk both (inbound t) w) in
  let v := value (status_of d w0) in
  let polls := [wait_for_notifications IoT_Device_1;
                wait_for_notifications IoT_Device_2] in
  notification_1 t = None ->
  notification_2 t = None ->
  act_flag_of d w0 = true ->
  (d = IoT_Device_2 -> iot_device_1_act_flag w0 = false) ->
  raises sdk (trace w) (wait_for_notifications IoT_Device_1) = None ->
  raises sdk (trace w ++ [wait_for_notifications IoT_Device_1])
    (wait_for_notifications IoT_Device_2) = None ->
  raises sdk (trace w ++ polls) (disable_notifications d) = None ->
  raises sdk (trace w ++ polls ++ [disable_notifications d])
    (write_switch_status d v) = Some e ->
  e = BTLEException \/ e = InvalidOperationException ->
  exists w',
    try_except (loop sdk (t :: rest)) main_except w
    = (match e with
       | InvalidOperationException => Returned Finished
       | _ => Raised (SystemExit 0)
       end, w')
    /\ trace w'
       = (trace w ++ polls
          ++ [disable_notifications d; write_switch_status d v; print_exception e]
          ++ match e with
             | InvalidOperationException => []
             | _ => [print ("Exiting..." ++ nl)]
             end)%list
    /\ status_of d w' = status_of d w0
    /\ (forall doc tmo, ~ In (update_shadow_state d doc tmo)
                          (skipn (List.length (trace w)) (trace w'))).
Proof.
  intros w0 v polls Hn1 Hn2 Hflag Hfree R1 R2 R3 R4 He.
  assert (Htr0 : trace w0 = trace w) by apply arrive_trace.
  assert (Hbody : loop_body sdk t w
                  = (Raised e,
                     logged (polls ++ [disable_notifications d;
                                       write_switch_status d v]) w0)).
  { rewrite (loop_body_reaches_act sdk d t w Hn1 Hn2 Hflag Hfree R1 R2).
    fold w0 polls.
    rewrite <- Htr0 in R3, R4. rewrite app_assoc in R4.
    rewrite (bind_raised _ _ _ _ _
               (iot_device_act_write_raises sdk d (status_of d w0) (logged polls w0) e R3 R4)).
    now rewrite logged_logged. }
  unfold try_except. cbn [loop]. unfold bind at 1. rewrite Hbody.
  destruct He as [-> | ->]; cbn [main_except].
  - eexists. split; [reflexivity |]. cbn.
    rewrite Htr0, <- !app_assoc. cbn [app].
    split; [reflexivity |]. split; [destruct d; reflexivity |].
    intros doc tmo. rewrite skipn_app, skipn_all, Nat.sub_diag. cbn.
    intuition discriminate.
  - eexists. split; [reflexivity |]. cbn.
    rewrite Htr0, <- !app_assoc. cbn [app].
    split; [reflexivity |]. split; [destruct d; reflexivity |].
    intros doc tmo. rewrite skipn_app, skipn_all, Nat.sub_diag. cbn.
    intuition discriminate.
Qed.

Lemma failed_write_reported_not_retried_witness :
  let sdk := failing_write_sdk BTLEException in
  let polls := [wait_for_notifications IoT_Device_1;
                wait_for_notifications IoT_Device_2] in
  notification_1 idle_tick = None
  /\ notification_2 idle_tick = None
  /\ act_flag_of IoT_Device_1 (snd (arrive sdk both (inbound idle_tick) both_pending)) = true
  /\ raises sdk (trace both_pending) (wait_for_notifications IoT_Device_1) = None
  /\ raises sdk (trace both_pending ++ [wait_for_notifications IoT_Device_1])
       (wait_for_notifications IoT_Device_2) = None
  /\ raises sdk (trace both_pending ++ polls) (disable_notifications IoT_Device_1) = None
  /\ raises sdk (trace both_pending ++ polls ++ [disable_notifications IoT_Device_1])
       (write_switch_status IoT_Device_1 1) = Some BTLEException
  /\ exists w',
      try_except (loop sdk [idle_tick; idle_tick]) main_except both_pending
      = (Raised (SystemExit 0), w')
      /\ trace w'
         = [wait_for_notifications IoT_Device_1;
            wait_for_notifications IoT_Device_2;
            disable_notifications IoT_Device_1;
            write_switch_status IoT_Device_1 1;
            print_exception BTLEException;
            print ("Exiting..." ++ nl)]
      /\ iot_device_1_status w' = ON.
Proof.
  cbv zeta. repeat (split; [reflexivity |]).
  destruct (failed_write_reported_not_retried (failing_write_sdk BTLEException)
              IoT_Device_1 idle_tick [idle_tick] both_pending BTLEException
              eq_refl eq_refl eq_refl
              (fun H : IoT_Device_1 = IoT_Device_2 =>
                 match H in _ = y
                       return match y with
                              | IoT_Device_1 => True
                              | IoT_Device_2 => _
                              end
                 with eq_refl => I end)
              eq_refl eq_refl eq_refl eq_refl (or_introl eq_refl))
    as (w' & Hrun & Htr & Hst & _).
  exists w'. repeat split; assumption.
Defined.

(** ** Start-up parameters *)

(** C8, at the failing input: the command line gives the endpoint and no
    root CA path.  [read_input] then reads the global [root_ca_path], which
    nothing has assigned: the run dies of an uncaught [NameError] right
    after the banner, before the message about the missing parameter and
    before [exit(2)]. *)
Theorem missing_root_ca_ends_in_NameError inp s1 s2 f1 f2 :
  program quiet_sdk ["-e"; "a.example"] inp (process_start s1 s2 f1 f2)
  = (Crashed NameError,
     mkWorld (Some "a.example") None false false OFF OFF false false
       [print (nl ++ INTRO ++ nl)]).
Proof. reflexivity. Qed.

(** The same with the root CA path given and the endpoint left out: it is
    the read of [endpoint] that fails. *)
Example missing_endpoint_ends_in_NameError inp s1 s2 f1 f2 :
  program quiet_sdk ["-r"; "ca.pem"] inp (process_start s1 s2 f1 f2)
  = (Crashed NameError,
     mkWorld None (Some "ca.pem") false false OFF OFF false false
       [print (nl ++ INTRO ++ nl)]).
Proof. reflexivity. Qed.

(** The message and [exit(2)] are reached only when both options are given
    and one of them is the empty string. *)
Example empty_endpoint_is_reported inp s1 s2 f1 f2 :
  program quiet_sdk ["-e"; EmptyString; "-r"; "ca.pem"] inp (process_start s1 s2 f1 f2)
  = (Exited 2,
     mkWorld (Some EmptyString) (Some "ca.pem") false false OFF OFF false false
       [print (nl ++ INTRO ++ nl); print "Missing '-e' or '--endpoint'"]).
Proof. reflexivity. Qed.

(** No option at all: the usage text and status 1. *)
Example no_option_prints_usage inp s1 s2 f1 f2 :
  program quiet_sdk [] inp (process_start s1 s2 f1 f2)
  = (Exited 1,
     mkWorld None None false false OFF OFF false false
       [print (nl ++ INTRO ++ nl); print USAGE]).
Proof. reflexivity. Qed.

(** ** Monitors: safety properties of the trace *)

Section Monitor.

Variable St : Type.
Variable step : St -> Call -> option St.

(** The state a monitor reaches over a trace, [None] once it has refused
    a call. *)
Fixpoint run_monitor (s : St) (tr : list Call) : option St :=
  match tr with
  | [] => Some s
  | c :: rest =>
      match step s c with
      | Some s' => run_monitor s' rest
      | None => None
      end
  end.

Definition accepts (s : St) (tr : list Call) : bool :=
  match run_monitor s tr with
  | Some _ => true
  | None => false
  end.

Lemma run_monitor_app s a b :
  run_monitor s (a ++ b) =
  match run_monitor s a with
  | Some s' => run_monitor s' b
  | None => None
  end.
Proof.
  revert s. induction a as [| c a IH]; intro s; [reflexivity |].
  simpl. destruct (step s c); [apply IH | reflexivity].
Qed.

Lemma accepts_of_state s tr s' : run_monitor s tr = Some s' -> accepts s tr = true.
Proof. unfold accepts. now intros ->. Qed.

End Monitor.

Arguments run_monitor {St} step s tr.
Arguments accepts {St} step s tr.

(** C10's monitor: a physical write carries 0 or 1, a shadow update one
    of the two documents built from 0 and 1. *)
Definition binary_step (s : unit) (c : Call) : option unit :=
  match c with
  | write_switch_status _ v =>
      if (v =? 0) || (v =? 1) then Some tt else None
  | update_shadow_state _ doc _ =>
      if String.eqb doc (state_json_str 0) || String.eqb doc (state_json_str 1)
      then Some tt else None
  | _ => Some tt
  end.

Definition only_binary_values (tr : list Call) : bool := accepts binary_step tt tr.

(** ** Walking through the script *)

(** One step of symbolic execution of a [wp] goal. *)
Ltac wp_step :=
  lazymatch goal with
  | |- wp (bind _ _) _ _ _ => apply wp_bind
  | |- wp (call _ _) _ _ _ => apply wp_call; [ | intro ]
  | |- wp (emit _) _ _ _ => apply wp_emit
  | |- wp (modify _) _ _ _ => apply wp_modify
  | |- wp get _ _ _ => apply wp_get
  | |- wp (ret _) _ _ _ => apply wp_ret
  | |- wp (raise _) _ _ _ => apply wp_raise
  | |- wp (arrive _ _ _) _ _ _ => apply wp_arrive
  | |- wp (read_global _) _ _ _ => unfold read_global
  | |- wp (read_node _) _ _ _ => unfold read_node
  | |- wp print_intro _ _ _ => unfold print_intro
  | |- wp (wait _ _ _) _ _ _ => unfold wait
  | |- wp (on_update _ _ _ _) _ _ _ => unfold on_update
  | |- wp (iot_device_act _ _ _ _ _) _ _ _ => unfold iot_device_act
  | |- wp (read_input_option _) _ _ _ => unfold read_input_option
  | |- wp (if ?b then _ else _) _ _ _ => destruct b eqn:?
  | |- wp (match ?x with _ => _ end) _ _ _ => destruct x eqn:?
  | |- (fun _ => _) _ => cbv beta
  | |- (fun _ => _) _ _ => cbv beta
  end.

Ltac wp_walk := repeat wp_step.

(** The trace of a world built by the steps above, as its base trace
    followed by the calls made since. *)
Ltac trace_normalize :=
  repeat (cbn [trace logged set_trace set_status set_act_flag set_endpoint
                 set_root_ca_path set_bound];
          rewrite ?arrive_trace);
  rewrite <- ?app_assoc; cbn [app].

(** What [check_discovered] can change is which nodes are bound. *)
Definition same_but_bound (w w' : World) : Prop :=
  trace w' = trace w
  /\ endpoint w' = endpoint w
  /\ root_ca_path w' = root_ca_path w
  /\ iot_device_1_status w' = iot_device_1_status w
  /\ iot_device_2_status w' = iot_device_2_status w
  /\ iot_device_1_act_flag w' = iot_device_1_act_flag w
  /\ iot_device_2_act_flag w' = iot_device_2_act_flag w.

Lemma same_but_bound_refl w : same_but_bound w w.
Proof. repeat split. Qed.

Lemma wp_check_discovered tags devices (Q : list Device -> World -> Prop) E w :
  (forall ds w', same_but_bound w w' -> Q ds w') ->
  wp (check_discovered tags devices) Q E w.
Proof.
  revert devices w.
  induction tags as [| tag rest IH]; intros devices w HQ.
  - apply wp_ret. apply HQ, same_but_bound_refl.
  - cbn [check_discovered]. wp_walk; try (apply HQ; repeat split).
    all: apply IH; intros ds w' Hs; apply HQ;
      destruct w, Hs as (? & ? & ? & ? & ? & ? & ?); repeat split; assumption.
Qed.

(** C10 along the script. *)
Definition binary_so_far (w : World) : Prop :=
  run_monitor binary_step tt (trace w) = Some tt.

Lemma binary_step_write d s : binary_step tt (write_switch_status d (value s)) = Some tt.
Proof. destruct s; reflexivity. Qed.

Lemma binary_step_shadow d s t :
  binary_step tt (update_shadow_state d (state_json_str (value s)) t) = Some tt.
Proof. destruct s; reflexivity. Qed.

Ltac binary_leaf H :=
  unfold binary_so_far in *; trace_normalize;
  rewrite ?run_monitor_app, ?H;
  repeat match goal with
         | |- context [value ?s] =>
             lazymatch s with
             | OFF => fail
             | ON => fail
             | _ => destruct s
             end
         end;
  reflexivity.

Lemma binary_loop_body sdk t w :
  binary_so_far w ->
  wp (loop_body sdk t) (fun _ w' => binary_so_far w') (fun _ w' => binary_so_far w') w.
Proof.
  intro H. unfold loop_body, wait, on_update, iot_device_act.
  wp_walk. 
  all: binary_leaf H.
Qed.

Lemma wp_invariant_snd {A} (m : M A) (I : World -> Prop) w :
  wp m (fun _ w' => I w') (fun _ w' => I w') w -> I (snd (m w)).
Proof. unfold wp. destruct (m w) as [[a | e] w']; auto. Qed.

Lemma program_world sdk argv inp w :
  snd (program sdk argv inp w) = snd (main sdk argv inp w).
Proof.
  unfold program. destruct (main sdk argv inp w) as [[[|] | e] w']; try reflexivity.
  destruct e; reflexivity.
Qed.

Lemma binary_loop sdk ts w :
  binary_so_far w ->
  wp (loop sdk ts) (fun _ w' => binary_so_far w') (fun _ w' => binary_so_far w') w.
Proof.
  revert w. induction ts as [| t rest IH]; intros w H.
  - exact H.
  - cbn [loop]. apply wp_bind.
    eapply wp_weaken; [apply binary_loop_body; exact H | | auto].
    intros u w' H'. apply IH, H'.
Qed.

Lemma binary_start_up sdk inp w :
  binary_so_far w ->
  wp (start_up sdk inp) (fun _ w' => binary_so_far w') (fun _ w' => binary_so_far w') w.
Proof.
  intro H. unfold start_up.
  wp_walk. all: try solve [binary_leaf H].
  apply wp_check_discovered. intros ds w1 Hs.
  assert (H1 : binary_so_far w1).
  { destruct Hs as [Htr _]. unfold binary_so_far. rewrite Htr. binary_leaf H. }
  clear H Hs.
  wp_walk. all: try solve [binary_leaf H1].
  eapply wp_weaken;
    [apply (wp_for_each _ _ binary_so_far (fun _ w' => binary_so_far w')); [| exact H1] | | auto].
  - intros d w2 _ H2. wp_walk. all: binary_leaf H2.
  - intros u w2 H2. wp_walk. all: binary_leaf H2.
Qed.

Lemma binary_read_input argv w :
  binary_so_far w ->
  wp (read_input argv) (fun _ w' => binary_so_far w') (fun _ w' => binary_so_far w') w.
Proof.
  intro H. unfold read_input. apply wp_bind. apply wp_try.
  eapply wp_weaken with (Q := fun _ w' => binary_so_far w')
                        (E := fun _ w' => binary_so_far w').
  - destruct (Getopt.getopt argv read_input_shortopts read_input_longopts)
      as [[opts args] |]; [| exact H].
    destruct (Nat.eqb (List.length opts) 0); [exact H |].
    apply (wp_for_each _ _ binary_so_far (fun _ w' => binary_so_far w')); [| exact H].
    intros o w1 _ H1. wp_walk. all: binary_leaf H1.
  - intros u w1 H1. wp_walk. all: binary_leaf H1.
  - intros e w1 H1. destruct e; try exact H1. wp_walk. binary_leaf H1.
Qed.

Lemma binary_main sdk argv inp w :
  binary_so_far w ->
  wp (main sdk argv inp) (fun _ w' => binary_so_far w') (fun _ w' => binary_so_far w') w.
Proof.
  intro H. unfold main. wp_walk.
  eapply wp_weaken; [apply binary_read_input; binary_leaf H | | auto].
  intros u w1 H1. apply wp_try. unfold main_try. apply wp_bind.
  eapply wp_weaken with (Q := fun _ w' => binary_so_far w')
                        (E := fun _ w' => binary_so_far w').
  - apply binary_start_up, H1.
  - intros v w2 H2. eapply wp_weaken; [apply binary_loop, H2 | auto |].
    intros e w3 H3. destruct e; cbn [main_except]; try exact H3.
    all: wp_walk; binary_leaf H3.
  - intros e w2 H2. destruct e; cbn [main_except]; try exact H2.
    all: wp_walk; binary_leaf H2.
Qed.

(** C10: the status globals hold [OFF] or [ON] and nothing else (they are
    assigned enum members only, at the start of [main] and in the two
    callbacks), so in every run, whatever the command line, the devices
    found, the messages, the notifications and the failures of SDK calls,
    every physical write carries 0 or 1 and every shadow update carries
    the document built from 0 or from 1. *)
Theorem writes_and_shadows_carry_0_or_1 sdk argv inp s1 s2 f1 f2 :
  only_binary_values
    (trace (snd (program sdk argv inp (process_start s1 s2 f1 f2)))) = true.
Proof.
  rewrite program_world. apply (accepts_of_state _ binary_step tt _ tt).
  apply (wp_invariant_snd (main sdk argv inp) binary_so_far).
  apply binary_main. reflexivity.
Qed.


(** ** Notifications are off around the write *)

(** C2's monitor.  Its state says, for each device, whether the trace is
    between a [disable_notifications] and the next [enable_notifications]
    of that device; there it refuses a poll of the device and a
    publication by its listener, the two calls through which a sense event
    of the device is taken. *)
Definition mute_step (s : bool * bool) (c : Call) : option (bool * bool) :=
  match c with
  | disable_notifications IoT_Device_1 => Some (true, snd s)
  | disable_notifications IoT_Device_2 => Some (fst s, true)
  | enable_notifications IoT_Device_1 => Some (false, snd s)
  | enable_notifications IoT_Device_2 => Some (fst s, false)
  | wait_for_notifications IoT_Device_1 | publish IoT_Device_1 _ _ _ =>
      if fst s then None else Some s
  | wait_for_notifications IoT_Device_2 | publish IoT_Device_2 _ _ _ =>
      if snd s then None else Some s
  | _ => Some s
  end.

Definition no_sense_while_muted (tr : list Call) : bool :=
  accepts mute_step (false, false) tr.

Definition unmuted (w : World) : Prop :=
  run_monitor mute_step (false, false) (trace w) = Some (false, false).

Definition never_sensed_muted (w : World) : Prop :=
  no_sense_while_muted (trace w) = true.

Lemma unmuted_never_sensed w : unmuted w -> never_sensed_muted w.
Proof. apply accepts_of_state. Qed.

Ltac mute_leaf H :=
  unfold never_sensed_muted, no_sense_while_muted, accepts, unmuted in *;
  trace_normalize;
  rewrite ?run_monitor_app, ?H;
  repeat match goal with
         | d : Device |- _ => destruct d
         end;
  reflexivity.

Lemma mute_loop_body sdk t w :
  unmuted w ->
  wp (loop_body sdk t) (fun _ w' => unmuted w') (fun _ w' => never_sensed_muted w') w.
Proof.
  intro H. unfold loop_body. wp_walk. all: mute_leaf H.
Qed.

Lemma mute_loop sdk ts w :
  unmuted w ->
  wp (loop sdk ts) (fun _ w' => unmuted w') (fun _ w' => never_sensed_muted w') w.
Proof.
  revert w. induction ts as [| t rest IH]; intros w H.
  - exact H.
  - cbn [loop]. apply wp_bind.
    eapply wp_weaken; [apply mute_loop_body; exact H | | auto].
    intros u w' H'. apply IH, H'.
Qed.

Lemma mute_start_up sdk inp w :
  unmuted w ->
  wp (start_up sdk inp) (fun _ w' => unmuted w') (fun _ w' => never_sensed_muted w') w.
Proof.
  intro H. unfold start_up.
  wp_walk. all: try solve [mute_leaf H].
  apply wp_check_discovered. intros ds w1 Hs.
  assert (H1 : unmuted w1).
  { destruct Hs as [Htr _]. unfold unmuted. rewrite Htr. mute_leaf H. }
  clear H Hs.
  wp_walk. all: try solve [mute_leaf H1].
  eapply wp_weaken;
    [apply (wp_for_each _ _ unmuted (fun _ w' => never_sensed_muted w')); [| exact H1] | | auto].
  - intros d w2 _ H2. wp_walk. all: mute_leaf H2.
  - intros u w2 H2. wp_walk. all: mute_leaf H2.
Qed.

Lemma mute_read_input argv w :
  unmuted w ->
  wp (read_input argv) (fun _ w' => unmuted w') (fun _ w' => never_sensed_muted w') w.
Proof.
  intro H. unfold read_input. apply wp_bind. apply wp_try.
  eapply wp_weaken with (Q := fun _ w' => unmuted w')
                        (E := fun _ w' => unmuted w').
  - destruct (Getopt.getopt argv read_input_shortopts read_input_longopts)
      as [[opts args] |]; [| exact H].
    destruct (Nat.eqb (List.length opts) 0); [exact H |].
    apply (wp_for_each _ _ unmuted (fun _ w' => unmuted w')); [| exact H].
    intros o w1 _ H1. wp_walk. all: mute_leaf H1.
  - intros u w1 H1. wp_walk. all: mute_leaf H1.
  - intros e w1 H1. destruct e; try (apply unmuted_never_sensed, H1).
    wp_walk. mute_leaf H1.
Qed.

Lemma mute_except e w :
  never_sensed_muted w ->
  match main_except e with
  | Some h => wp h (fun _ w' => never_sensed_muted w') (fun _ w' => never_sensed_muted w') w
  | None => never_sensed_muted w
  end.
Proof.
  intro H. unfold never_sensed_muted, no_sense_while_muted, accepts in H.
  destruct (run_monitor mute_step (false, false) (trace w)) as [s |] eqn:Hs;
    [| discriminate].
  destruct e; cbn [main_except]; try (mute_leaf Hs).
  all: wp_walk; mute_leaf Hs.
Qed.

Lemma mute_main sdk argv inp w :
  unmuted w ->
  wp (main sdk argv inp) (fun _ w' => never_sensed_muted w')
     (fun _ w' => never_sensed_muted w') w.
Proof.
  intro H. unfold main. wp_walk.
  eapply wp_weaken; [apply mute_read_input; mute_leaf H | | auto].
  intros u w1 H1. apply wp_try. unfold main_try. apply wp_bind.
  eapply wp_weaken with (Q := fun _ w' => unmuted w')
                        (E := fun _ w' => never_sensed_muted w').
  - apply mute_start_up, H1.
  - intros v w2 H2.
    eapply wp_weaken; [apply mute_loop, H2 | |].
    + intros a w3 H3. apply unmuted_never_sensed, H3.
    + intros e w3 H3. apply mute_except, H3.
  - intros e w2 H2. apply mute_except, H2.
Qed.

(** The calls of [iot_device_act], whatever raises: the first [n] of the
    four, all four when it returns. *)
Lemma iot_device_act_calls sdk d s w :
  exists n,
    (1 <= n <= 4)%nat
    /\ trace (snd (iot_device_act sdk d d s d w))
       = (trace w ++ firstn n (act_calls d s))%list
    /\ (fst (iot_device_act sdk d d s d w) = Returned tt -> n = 4%nat).
Proof.
  unfold iot_device_act, bind, call.
  destruct (raises sdk (trace w) (disable_notifications d)).
  { exists 1%nat. repeat split; [lia | lia | discriminate]. }
  cbn [trace set_trace].
  destruct (raises sdk _ (write_switch_status d (value s))).
  { exists 2%nat. cbn. rewrite <- app_assoc. repeat split; [lia | lia | discriminate]. }
  cbn [trace set_trace].
  destruct (raises sdk _ (enable_notifications d)).
  { exists 3%nat. cbn. rewrite <- !app_assoc. repeat split; [lia | lia | discriminate]. }
  cbn [trace set_trace].
  exists 4%nat.
  destruct (raises sdk _ (update_shadow_state d _ _));
    cbn; rewrite <- !app_assoc; repeat split; lia.
Qed.

(** C2: applying an act calls, on the device, [disable_notifications],
    [write_switch_status] and [enable_notifications], in that order and
    nothing between them, and then updates the shadow; a call that raises
    cuts the sequence there.  In every run of the program, whatever the
    inputs and the failures, no poll of a device and no publication by its
    listener falls between a disable and the next enable of that device. *)
Theorem act_is_disable_write_enable sdk :
  (forall d s w,
      exists n,
        (1 <= n <= 4)%nat
        /\ trace (snd (iot_device_act sdk d d s d w))
           = (trace w ++ firstn n (act_calls d s))%list
        /\ (fst (iot_device_act sdk d d s d w) = Returned tt -> n = 4%nat))
  /\ forall argv inp s1 s2 f1 f2,
      no_sense_while_muted
        (trace (snd (program sdk argv inp (process_start s1 s2 f1 f2)))) = true.
Proof.
  split; [apply iot_device_act_calls |].
  intros. rewrite program_world.
  apply (wp_invariant_snd (main sdk argv inp) never_sensed_muted).
  apply mute_main. reflexivity.
Qed.

(** The monitor does refuse a poll inside the window. *)
Example sense_inside_window_is_refused :
  no_sense_while_muted
    [disable_notifications IoT_Device_1;
     wait_for_notifications IoT_Device_1;
     enable_notifications IoT_Device_1] = false.
Proof. reflexivity. Qed.

(** ** The order of the start-up *)

(** What the start-up has done so far. *)
Record StartupState : Type := mkStartup {
  switch_1_reset : bool;
  switch_2_reset : bool;
  subscribed_1 : bool;
  subscribed_2 : bool;
  shadow_1_set : bool;
  shadow_2_set : bool;
  enabled : bool
}.

Definition startup_init : StartupState :=
  mkStartup false false false false false false false.

Definition startup_end : StartupState :=
  mkStartup true true true true true true true.

(** C9's monitor.  Before any subscription a physical write must carry 0;
    a subscription needs both switches written; before notifications are
    enabled a shadow is updated only once both clients have subscribed,
    and the document must be the one built from the value of [expected]
    for that device; notifications are enabled only after both shadows
    were updated; polls, publications and the disabling that opens an act
    come only after notifications were enabled. *)
Definition startup_step (expected : Device -> SwitchStatus) (s : StartupState)
  (c : Call) : option StartupState :=
  match c with
  | write_switch_status d v =>
      if subscribed_1 s || subscribed_2 s then Some s
      else if v =? 0 then
        Some match d with
             | IoT_Device_1 =>
                 mkStartup true (switch_2_reset s) (subscribed_1 s) (subscribed_2 s)
                   (shadow_1_set s) (shadow_2_set s) (enabled s)
             | IoT_Device_2 =>
                 mkStartup (switch_1_reset s) true (subscribed_1 s) (subscribed_2 s)
                   (shadow_1_set s) (shadow_2_set s) (enabled s)
             end
      else None
  | subscribe d _ _ =>
      if switch_1_reset s && switch_2_reset s then
        Some match d with
             | IoT_Device_1 =>
                 mkStartup (switch_1_reset s) (switch_2_reset s) true (subscribed_2 s)
                   (shadow_1_set s) (shadow_2_set s) (enabled s)
             | IoT_Device_2 =>
                 mkStartup (switch_1_reset s) (switch_2_reset s) (subscribed_1 s) true
                   (shadow_1_set s) (shadow_2_set s) (enabled s)
             end
      else None
  | update_shadow_state d doc _ =>
      if enabled s then Some s
      else if subscribed_1 s && subscribed_2 s
              && String.eqb doc (state_json_str (value (expected d))) then
        Some match d with
             | IoT_Device_1 =>
                 mkStartup (switch_1_reset s) (switch_2_reset s)
                   (subscribed_1 s) (subscribed_2 s) true (shadow_2_set s) (enabled s)
             | IoT_Device_2 =>
                 mkStartup (switch_1_reset s) (switch_2_reset s)
                   (subscribed_1 s) (subscribed_2 s) (shadow_1_set s) true (enabled s)
             end
      else None
  | enable_notifications _ =>
      if switch_1_reset s && switch_2_reset s && shadow_1_set s && shadow_2_set s then
        Some (mkStartup (switch_1_reset s) (switch_2_reset s)
                (subscribed_1 s) (subscribed_2 s)
                (shadow_1_set s) (shadow_2_set s) true)
      else None
  | disable_notifications _ | wait_for_notifications _ | publish _ _ _ _ =>
      if enabled s then Some s else None
  | _ => Some s
  end.

Definition startup_in_order (expected : Device -> SwitchStatus) (tr : list Call)
  : bool :=
  accepts (startup_step expected) startup_init tr.

(** The two statuses the callbacks leave when the [payloads] reach the
    [subscribed] clients while the statuses are [s]: the callbacks of the
    script run on them. *)
Definition statuses_after (sdk : Sdk) (subscribed : list Device)
  (payloads : list string) (s : SwitchStatus * SwitchStatus)
  : SwitchStatus * SwitchStatus :=
  let w := snd (arrive sdk subscribed payloads
                  (mkWorld None None false false (fst s) (snd s) false false [])) in
  (iot_device_1_status w, iot_device_2_status w).

(** The status a device's global holds when [main] builds the device's
    shadow document.  Both are OFF when the first client subscribes; what
    arrives after the first subscription reaches the callback of device 1,
    what arrives after the second one reaches both; device 2's document is
    built after the update of device 1's shadow. *)
Definition status_at_shadow_reset (sdk : Sdk) (inp : Inputs) (d : Device)
  : SwitchStatus :=
  let s1 := statuses_after sdk [IoT_Device_1] (inbound_after_subscribe_1 inp) (OFF, OFF) in
  let s2 := statuses_after sdk both (inbound_after_subscribe_2 inp) s1 in
  match d with
  | IoT_Device_1 => fst s2
  | IoT_Device_2 => snd (statuses_after sdk both (inbound_after_shadow_1 inp) s2)
  end.

(** Both statuses OFF, no act pending. *)
Definition all_off (w : World) : Prop :=
  iot_device_1_status w = OFF
  /\ iot_device_2_status w = OFF
  /\ iot_device_1_act_flag w = false
  /\ iot_device_2_act_flag w = false.

(** The reading of the start-up in which the shadows are always reset to
    0 before notifications are enabled. *)
Definition shadows_always_reset_to_0 (sdk : Sdk) : Prop :=
  forall argv inp s1 s2 f1 f2,
    startup_in_order (fun _ => OFF)
      (trace (snd (program sdk argv inp (process_start s1 s2 f1 f2)))) = true.

(** A run in which device 1 is sent an act right after it subscribed. *)
Definition early_act_inputs : Inputs :=
  mkInputs [IOT_DEVICE_1_MAC; IOT_DEVICE_2_MAC]
    [relayed_payload "IoT_Device_1" "1"] [] [] [].

Definition startup_at (expected : Device -> SwitchStatus) (s : StartupState) (w : World) : Prop :=
  run_monitor (startup_step expected) startup_init (trace w) = Some s.

Definition startup_fine (expected : Device -> SwitchStatus) (w : World) : Prop :=
  startup_in_order expected (trace w) = true.

Lemma startup_at_fine expected s w : startup_at expected s w -> startup_fine expected w.
Proof. apply accepts_of_state. Qed.

Ltac startup_leaf :=
  unfold startup_fine, startup_in_order, accepts, startup_at, all_off in *;
  repeat match goal with H : _ /\ _ |- _ => destruct H end;
  trace_normalize;
  cbn [iot_device_1_status iot_device_2_status iot_device_1_act_flag
         iot_device_2_act_flag logged set_trace set_status set_act_flag
         set_endpoint set_root_ca_path set_bound arrive for_each ret snd];
  repeat match goal with
         | |- _ /\ _ => split
         | |- _ -> _ => intro
         end;
  rewrite ?run_monitor_app;
  repeat match goal with
         | H : run_monitor _ _ (trace ?w) = Some _ |- context [run_monitor _ _ (trace ?w)] =>
             rewrite H
         | H : iot_device_1_status ?w = _ |- context [iot_device_1_status ?w] => rewrite H
         | H : iot_device_2_status ?w = _ |- context [iot_device_2_status ?w] => rewrite H
         end;
  repeat match goal with
         | d : Device |- _ => destruct d
         end;
  first [reflexivity | assumption | discriminate].

(** Up to the start-up proper nothing but printing happens and the device
    globals keep their initial values. *)
Definition untouched (expected : Device -> SwitchStatus) (w : World) : Prop :=
  startup_at expected startup_init w /\ all_off w.

Lemma startup_read_input expected argv w :
  untouched expected w ->
  wp (read_input argv) (fun _ w' => untouched expected w')
     (fun _ w' => untouched expected w') w.
Proof.
  intro H. unfold read_input. apply wp_bind. apply wp_try.
  eapply wp_weaken with (Q := fun _ w' => untouched expected w')
                        (E := fun _ w' => untouched expected w').
  - destruct (Getopt.getopt argv read_input_shortopts read_input_longopts)
      as [[opts args] |]; [| exact H].
    destruct (Nat.eqb (List.length opts) 0); [exact H |].
    apply (wp_for_each _ _ (untouched expected) (fun _ w' => untouched expected w'));
      [| exact H].
    intros o w1 _ H1. unfold untouched in *. wp_walk. all: startup_leaf.
  - intros u w1 H1. unfold untouched in *. wp_walk. all: startup_leaf.
  - intros e w1 H1. destruct e; try exact H1.
    unfold untouched in *. wp_walk. startup_leaf.
Qed.

(** From the end state on, the monitor takes every call. *)
Lemma startup_end_absorbs expected c :
  startup_step expected startup_end c = Some startup_end.
Proof.
  destruct c; try reflexivity;
    match goal with d : Device |- _ => destruct d end; reflexivity.
Qed.

Lemma startup_end_run expected cs :
  run_monitor (startup_step expected) startup_end cs = Some startup_end.
Proof.
  induction cs as [| c cs IH]; [reflexivity |].
  cbn [run_monitor]. now rewrite startup_end_absorbs.
Qed.

Ltac end_leaf H :=
  unfold startup_at in *; trace_normalize;
  rewrite ?run_monitor_app, ?H;
  first [apply startup_end_run | reflexivity].

Lemma startup_loop sdk expected ts w :
  startup_at expected startup_end w ->
  wp (loop sdk ts) (fun _ w' => startup_at expected startup_end w')
     (fun _ w' => startup_at expected startup_end w') w.
Proof.
  revert w. induction ts as [| t rest IH]; intros w H.
  - exact H.
  - cbn [loop]. apply wp_bind.
    eapply wp_weaken with (Q := fun _ w' => startup_at expected startup_end w')
                          (E := fun _ w' => startup_at expected startup_end w');
      [| intros u w' H'; apply IH, H' | auto].
    unfold loop_body. wp_walk. all: end_leaf H.
Qed.

Lemma startup_except e w (P : World -> Prop) :
  (forall s w', P w' -> P (logged [print s] w')) ->
  (forall x w', P w' -> P (logged [print_exception x] w')) ->
  P w ->
  match main_except e with
  | Some h => wp h (fun _ w' => P w') (fun _ w' => P w') w
  | None => P w
  end.
Proof.
  intros Hp Hx H.
  destruct e; cbn [main_except]; try exact H.
  all: wp_walk; repeat first [apply Hp | apply Hx]; exact H.
Qed.

Lemma startup_fine_print expected s w :
  startup_fine expected w -> startup_fine expected (logged [print s] w).
Proof.
  unfold startup_fine, startup_in_order, accepts. cbn [trace logged set_trace].
  rewrite run_monitor_app.
  destruct (run_monitor (startup_step expected) startup_init (trace w)); auto.
Qed.

Lemma startup_fine_print_exception expected x w :
  startup_fine expected w -> startup_fine expected (logged [print_exception x] w).
Proof.
  unfold startup_fine, startup_in_order, accepts. cbn [trace logged set_trace].
  rewrite run_monitor_app.
  destruct (run_monitor (startup_step expected) startup_init (trace w)); auto.
Qed.

(** *** The statuses through the arrivals *)

(** What a callback does to the world does not depend on the world: it
    leaves every world alone, or records the same act in every world. *)
Lemma callback_uniform sdk d payload :
  (forall w, snd (callback_of sdk d payload w) = w)
  \/ exists v, forall w, snd (callback_of sdk d payload w) = record_act d v w.
Proof.
  destruct d; simpl;
    [unfold iot_device_1_callback | unfold iot_device_2_callback];
    unfold bind, loads, subscript, split_space, unpack3, ret, raise, modify;
    destruct (Py.contains _ payload); try (left; reflexivity);
    destruct (json_loads sdk payload) as [[| | | | |members] |]; try (left; reflexivity);
    destruct (dict_get _ members) as [[| | |field | |] |]; try (left; reflexivity);
    destruct (Py.split " " field) as [| a [| b [| c [| ? ?]]]]; try (left; reflexivity);
    match goal with |- context [String.eqb b ?n] => destruct (String.eqb b n) end;
    try (left; reflexivity);
    right; exists (if negb (String.eqb c "0") then ON else OFF); reflexivity.
Qed.

Definition same_statuses (w w' : World) : Prop :=
  iot_device_1_status w = iot_device_1_status w'
  /\ iot_device_2_status w = iot_device_2_status w'.

Lemma deliver_same_statuses sdk subscribed payload :
  forall w w',
    same_statuses w w' ->
    same_statuses (snd (deliver sdk subscribed payload w))
      (snd (deliver sdk subscribed payload w')).
Proof.
  unfold deliver.
  induction subscribed as [| d rest IH]; intros w w' H; [exact H |].
  cbn [for_each]. unfold bind. cbv beta iota. apply IH.
  destruct H as [H1 H2].
  destruct (callback_uniform sdk d payload) as [Hid | [v Hrec]].
  - rewrite !Hid. split; assumption.
  - rewrite !Hrec. destruct d; split; cbn; auto.
Qed.

Lemma arrive_same_statuses sdk subscribed payloads :
  forall w w',
    same_statuses w w' ->
    same_statuses (snd (arrive sdk subscribed payloads w))
      (snd (arrive sdk subscribed payloads w')).
Proof.
  unfold arrive.
  induction payloads as [| p rest IH]; intros w w' H; [exact H |].
  cbn [for_each]. unfold bind.
  pose proof (deliver_returns sdk subscribed p w) as Hr.
  pose proof (deliver_returns sdk subscribed p w') as Hr'.
  pose proof (deliver_same_statuses sdk subscribed p w w' H) as Hs.
  destruct (deliver sdk subscribed p w) as [r w1].
  destruct (deliver sdk subscribed p w') as [r' w1'].
  cbn [fst snd] in *. subst r r'. apply IH, Hs.
Qed.

(** The statuses after an arrival, from the statuses before it. *)
Lemma statuses_arrive sdk subscribed payloads w :
  (iot_device_1_status (snd (arrive sdk subscribed payloads w)),
   iot_device_2_status (snd (arrive sdk subscribed payloads w)))
  = statuses_after sdk subscribed payloads
      (iot_device_1_status w, iot_device_2_status w).
Proof.
  unfold statuses_after. cbn [fst snd].
  destruct (arrive_same_statuses sdk subscribed payloads w
              (mkWorld None None false false (iot_device_1_status w)
                 (iot_device_2_status w) false false []))
    as [H1 H2]; [split; reflexivity |].
  now rewrite H1, H2.
Qed.

Lemma status_1_arrive sdk subscribed payloads w :
  iot_device_1_status (snd (arrive sdk subscribed payloads w))
  = fst (statuses_after sdk subscribed payloads
           (iot_device_1_status w, iot_device_2_status w)).
Proof. now rewrite <- statuses_arrive. Qed.

Lemma status_2_arrive sdk subscribed payloads w :
  iot_device_2_status (snd (arrive sdk subscribed payloads w))
  = snd (statuses_after sdk subscribed payloads
           (iot_device_1_status w, iot_device_2_status w)).
Proof. now rewrite <- statuses_arrive. Qed.

Lemma statuses_after_nil sdk subscribed s : statuses_after sdk subscribed [] s = s.
Proof. destruct s. reflexivity. Qed.

(** The statuses of the worlds of a walk, down to those of the world the
    walk started from. *)
Ltac statuses_normalize :=
  repeat (cbn [iot_device_1_status iot_device_2_status logged set_trace
                 set_status set_act_flag set_endpoint set_root_ca_path set_bound];
          rewrite ?status_1_arrive, ?status_2_arrive);
  rewrite <- ?surjective_pairing.

(** The monitor looks at [expected] at the two devices only. *)
Lemma startup_run_ext expected expected' :
  (forall d, expected d = expected' d) ->
  forall cs s,
    run_monitor (startup_step expected) s cs
    = run_monitor (startup_step expected') s cs.
Proof.
  intro Hext. induction cs as [| c cs IH]; intro s; [reflexivity |].
  cbn [run_monitor].
  assert (Hstep : startup_step expected s c = startup_step expected' s c).
  { destruct c; try reflexivity. cbn [startup_step]. now rewrite Hext. }
  rewrite Hstep. destruct (startup_step expected' s c); [apply IH | reflexivity].
Qed.

Ltac pinned_leaf expected He1 He2 :=
  unfold startup_fine, startup_in_order, accepts, startup_at, all_off in *;
  repeat match goal with H : _ /\ _ |- _ => destruct H end;
  trace_normalize;
  statuses_normalize;
  repeat match goal with
         | H : iot_device_1_status ?w = _ |- context [iot_device_1_status ?w] => rewrite H
         | H : iot_device_2_status ?w = _ |- context [iot_device_2_status ?w] => rewrite H
         end;
  rewrite ?He1, ?He2;
  rewrite ?run_monitor_app;
  repeat match goal with
         | H : run_monitor _ _ (trace ?w) = Some _ |- context [run_monitor _ _ (trace ?w)] =>
             rewrite H
         end;
  rewrite (startup_run_ext expected
             (fun d => match d with
                       | IoT_Device_1 => expected IoT_Device_1
                       | IoT_Device_2 => expected IoT_Device_2
                       end))
    by (intros []; reflexivity);
  destruct (expected IoT_Device_1), (expected IoT_Device_2);
  reflexivity.

(** The start-up, whatever arrives meanwhile: the documents of the two
    shadow updates are built from [expected], once [expected] is what the
    arrivals leave in the status globals. *)
Lemma startup_start_up_any sdk inp expected w :
  fst (statuses_after sdk both (inbound_after_subscribe_2 inp)
         (statuses_after sdk [IoT_Device_1] (inbound_after_subscribe_1 inp) (OFF, OFF)))
  = expected IoT_Device_1 ->
  snd (statuses_after sdk both (inbound_after_shadow_1 inp)
         (statuses_after sdk both (inbound_after_subscribe_2 inp)
            (statuses_after sdk [IoT_Device_1] (inbound_after_subscribe_1 inp)
               (OFF, OFF))))
  = expected IoT_Device_2 ->
  untouched expected w ->
  wp (start_up sdk inp) (fun _ w' => startup_at expected startup_end w')
     (fun _ w' => startup_fine expected w') w.
Proof.
  intros He1 He2 H. unfold untouched in H. unfold start_up.
  wp_walk. all: try solve [startup_leaf].
  apply wp_check_discovered. intros ds w1 Hs.
  assert (H1 : untouched expected w1).
  { unfold untouched, same_but_bound, all_off, startup_at in *.
    destruct Hs as (-> & _ & _ & -> & -> & -> & ->). startup_leaf. }
  clear H Hs. unfold untouched in H1.
  wp_walk. all: try solve [startup_leaf].
  eapply wp_weaken;
    [apply (wp_for_each _ _ (untouched expected) (fun _ w' => startup_fine expected w'));
     [| exact H1] | | auto].
  - intros d w2 _ H2. unfold untouched in *. wp_walk. all: startup_leaf.
  - intros u w2 H2. unfold untouched in *. wp_walk.
    all: pinned_leaf expected He1 He2.
Qed.

(** The start-up when no act message arrives during it. *)
Lemma startup_start_up_strict sdk inp w :
  inbound_after_subscribe_1 inp = [] ->
  inbound_after_subscribe_2 inp = [] ->
  inbound_after_shadow_1 inp = [] ->
  untouched (fun _ => OFF) w ->
  wp (start_up sdk inp)
     (fun _ w' => startup_at (fun _ => OFF) startup_end w' /\ all_off w')
     (fun _ w' => startup_fine (fun _ => OFF) w' /\ all_off w') w.
Proof.
  intros L1 L2 L3 H. unfold untouched in H. unfold start_up.
  rewrite L1, L2, L3.
  wp_walk. all: try solve [startup_leaf].
  apply wp_check_discovered. intros ds w1 Hs.
  assert (H1 : untouched (fun _ => OFF) w1).
  { unfold untouched, same_but_bound, all_off, startup_at in *.
    destruct Hs as (-> & _ & _ & -> & -> & -> & ->). startup_leaf. }
  clear H Hs. unfold untouched in H1.
  wp_walk. all: try solve [startup_leaf].
  eapply wp_weaken;
    [apply (wp_for_each _ _ (untouched (fun _ => OFF))
              (fun _ w' => startup_fine (fun _ => OFF) w' /\ all_off w'));
     [| exact H1] | | auto].
  - intros d w2 _ H2. unfold untouched in *. wp_walk. all: startup_leaf.
  - intros u w2 H2. unfold untouched in *. wp_walk. all: startup_leaf.
Qed.

Lemma untouched_after_assignments expected s1 s2 f1 f2 :
  untouched expected
    (logged [print (nl ++ INTRO ++ nl)]
       (set_act_flag IoT_Device_2 false
          (set_act_flag IoT_Device_1 false
             (set_status IoT_Device_2 OFF
                (set_status IoT_Device_1 OFF (process_start s1 s2 f1 f2)))))).
Proof. repeat split. Qed.

Lemma startup_main_any sdk argv inp s1 s2 f1 f2 :
  let expected := status_at_shadow_reset sdk inp in
  wp (main sdk argv inp) (fun _ w' => startup_fine expected w')
     (fun _ w' => startup_fine expected w') (process_start s1 s2 f1 f2).
Proof.
  intro expected. unfold main. wp_walk.
  eapply wp_weaken;
    [apply (startup_read_input expected), untouched_after_assignments | |].
  2: { intros e w1 [H1 _]. apply (startup_at_fine _ _ _ H1). }
  intros u w1 H1. apply wp_try. unfold main_try. apply wp_bind.
  eapply wp_weaken with (Q := fun _ w' => startup_at expected startup_end w')
                        (E := fun _ w' => startup_fine expected w').
  - apply startup_start_up_any; [reflexivity | reflexivity | exact H1].
  - intros v w2 H2.
    eapply wp_weaken; [apply startup_loop, H2 | |].
    + intros a w3 H3. apply (startup_at_fine _ _ _ H3).
    + intros e w3 H3.
      apply startup_except;
        [apply startup_fine_print | apply startup_fine_print_exception
        | apply (startup_at_fine _ _ _ H3)].
  - intros e w2 H2.
    apply startup_except;
      [apply startup_fine_print | apply startup_fine_print_exception | exact H2].
Qed.

Lemma all_off_logged cs w : all_off w -> all_off (logged cs w).
Proof. intro H. exact H. Qed.

Lemma startup_main_strict sdk argv inp s1 s2 f1 f2 :
  inbound_after_subscribe_1 inp = [] ->
  inbound_after_subscribe_2 inp = [] ->
  inbound_after_shadow_1 inp = [] ->
  let expected := fun _ : Device => OFF in
  wp (main sdk argv inp)
     (fun _ w' => startup_fine expected w' /\ (ticks inp = [] -> all_off w'))
     (fun _ w' => startup_fine expected w' /\ (ticks inp = [] -> all_off w'))
     (process_start s1 s2 f1 f2).
Proof.
  intros L1 L2 L3 expected. unfold main. wp_walk.
  eapply wp_weaken;
    [apply (startup_read_input expected), untouched_after_assignments | |].
  2: { intros e w1 [H1 Hoff]. split; [apply (startup_at_fine _ _ _ H1) | auto]. }
  intros u w1 H1. apply wp_try. unfold main_try. apply wp_bind.
  eapply wp_weaken with (Q := fun _ w' => startup_at expected startup_end w' /\ all_off w')
                        (E := fun _ w' => startup_fine expected w' /\ all_off w').
  - apply startup_start_up_strict; assumption.
  - intros v w2 [H2 Hoff].
    destruct (ticks inp) as [| t rest] eqn:Hticks.
    + cbn [loop]. apply wp_ret. split; [apply (startup_at_fine _ _ _ H2) | auto].
    + eapply wp_weaken; [apply startup_loop, H2 | |].
      * intros a w3 H3. split; [apply (startup_at_fine _ _ _ H3) | discriminate].
      * intros e w3 H3.
        apply (startup_except e w3
                 (fun w' => startup_fine expected w' /\ (t :: rest = [] -> all_off w'))).
        -- intros s w' [Hf _]. split; [apply startup_fine_print, Hf | discriminate].
        -- intros x w' [Hf _]. split; [apply startup_fine_print_exception, Hf | discriminate].
        -- split; [apply (startup_at_fine _ _ _ H3) | discriminate].
  - intros e w2 [H2 Hoff].
    apply (startup_except e w2
             (fun w' => startup_fine expected w' /\ (ticks inp = [] -> all_off w'))).
    + intros s w' [Hf Ho]. split; [apply startup_fine_print, Hf | exact Ho].
    + intros x w' [Hf Ho]. split; [apply startup_fine_print_exception, Hf | exact Ho].
    + split; [exact H2 | auto].
Qed.

(** C9, as the code has it.  In every run OFF is written to both physical
    switches before either client subscribes to the act topic; both
    clients subscribe before either shadow is updated, both shadows are
    updated before notifications are enabled, and nothing is polled,
    published or applied before notifications are enabled.  The document
    of each of these two shadow updates is the one built from the status
    the device's global holds at that moment, which is what the callbacks
    left there on the messages that arrived since the subscriptions
    ([status_at_shadow_reset]).  When no act message arrives between the
    first subscription and the second shadow update, both documents are
    the one built from 0, and, the loop apart, both statuses are still OFF
    and no act is pending. *)
Theorem start_up_resets_before_enabling sdk argv inp s1 s2 f1 f2 :
  let w := snd (program sdk argv inp (process_start s1 s2 f1 f2)) in
  startup_in_order (status_at_shadow_reset sdk inp) (trace w) = true
  /\ (inbound_after_subscribe_1 inp = [] ->
      inbound_after_subscribe_2 inp = [] ->
      inbound_after_shadow_1 inp = [] ->
      startup_in_order (fun _ => OFF) (trace w) = true
      /\ (ticks inp = [] -> all_off w)).
Proof.
  cbv zeta. rewrite program_world. split.
  - apply (wp_invariant_snd (main sdk argv inp)
             (startup_fine (status_at_shadow_reset sdk inp))).
    apply startup_main_any.
  - intros L1 L2 L3.
    apply (wp_invariant_snd (main sdk argv inp)
             (fun w' => startup_fine (fun _ => OFF) w' /\ (ticks inp = [] -> all_off w'))).
    apply startup_main_strict; assumption.
Qed.

Definition orderly_inputs : Inputs :=
  mkInputs [IOT_DEVICE_1_MAC; IOT_DEVICE_2_MAC] [] [] [] [].

Lemma start_up_resets_before_enabling_witness :
  let w := snd (program quiet_sdk ["-e"; "a.example"; "-r"; "ca.pem"]
                  orderly_inputs (process_start ON ON true true)) in
  inbound_after_subscribe_1 orderly_inputs = []
  /\ inbound_after_subscribe_2 orderly_inputs = []
  /\ inbound_after_shadow_1 orderly_inputs = []
  /\ ticks orderly_inputs = []
  /\ startup_in_order (status_at_shadow_reset quiet_sdk orderly_inputs) (trace w) = true
  /\ startup_in_order (fun _ => OFF) (trace w) = true
  /\ all_off w
  /\ writes (trace w) = [(IoT_Device_1, 0); (IoT_Device_2, 0)].
Proof.
  cbv zeta. do 4 (split; [reflexivity |]).
  destruct (start_up_resets_before_enabling quiet_sdk
              ["-e"; "a.example"; "-r"; "ca.pem"] orderly_inputs ON ON true true)
    as [Hp H].
  destruct (H eq_refl eq_refl eq_refl) as [Hs Hoff].
  split; [exact Hp |]. split; [exact Hs |]. split; [exact (Hoff eq_refl) |].
  vm_compute. reflexivity.
Defined.

(** C9, the claim as worded, fails: an act for device 1 that arrives
    right after device 1 subscribed is taken by its callback before the
    shadows are reset, and the shadow of device 1 is then set to 1. *)
Lemma early_act_sets_shadow_to_1 :
  ~ shadows_always_reset_to_0 quiet_sdk.
Proof.
  intro H.
  specialize (H ["-e"; "a.example"; "-r"; "ca.pem"] early_act_inputs OFF OFF false false).
  vm_compute in H. discriminate H.
Qed.

Example early_act_shadow_documents :
  filter (fun c => match c with update_shadow_state _ _ _ => true | _ => false end)
    (trace (snd (program quiet_sdk ["-e"; "a.example"; "-r"; "ca.pem"]
                   early_act_inputs (process_start OFF OFF false false))))
  = [update_shadow_state IoT_Device_1 (state_json_str 1) SHADOW_CALLBACK_TIMEOUT_s;
     update_shadow_state IoT_Device_2 (state_json_str 0) SHADOW_CALLBACK_TIMEOUT_s].
Proof. vm_compute. reflexivity. Qed.

(** The monitor refuses a shadow document built from the other device's
    status, and a shadow update that comes before the subscriptions. *)
Example shadow_of_other_status_is_refused :
  status_at_shadow_reset quiet_sdk early_act_inputs IoT_Device_1 = ON
  /\ status_at_shadow_reset quiet_sdk early_act_inputs IoT_Device_2 = OFF
  /\ run_monitor (startup_step (status_at_shadow_reset quiet_sdk early_act_inputs))
       (mkStartup true true true true true false false)
       [update_shadow_state IoT_Device_2 (state_json_str 1) SHADOW_CALLBACK_TIMEOUT_s]
     = None
  /\ run_monitor (startup_step (status_at_shadow_reset quiet_sdk early_act_inputs))
       (mkStartup true true false false false false false)
       [update_shadow_state IoT_Device_1 (state_json_str 1) SHADOW_CALLBACK_TIMEOUT_s]
     = None.
Proof. vm_compute. repeat split. Qed.

(** * Further properties of the script *)

(** ** What a callback can end in *)

(** The exceptions the statements of a message callback raise themselves:
    the read of a local that was never bound, the subscript, the call of
    [split] and the unpacking. *)
Definition callback_exception (e : Exn) : bool :=
  match e with
  | UnboundLocalError | ValueError | KeyError | TypeError | AttributeError => true
  | _ => false
  end.

(** Whatever the payload, a callback either returns, having left the
    world alone or recorded an act for its own device, or raises with the
    world exactly as it was; what it raises is what [json.loads] raised
    on a payload that has the field name in it, or else one of the five
    exceptions of its own statements. *)
Theorem callback_raises_without_effect sdk d payload w :
  match callback_of sdk d payload w with
  | (Returned _, w') => w' = w \/ exists v, w' = record_act d v w
  | (Raised e, w') =>
      w' = w
      /\ ((Py.contains (FEATURE_DATA_NAME sdk) payload = true
           /\ json_loads sdk payload = None
           /\ e = json_loads_error sdk payload)
          \/ callback_exception e = true)
  end.
Proof.
  destruct d; simpl;
    [unfold iot_device_1_callback | unfold iot_device_2_callback];
    unfold bind, loads, subscript, split_space, unpack3, ret, raise, modify;
    destruct (Py.contains _ payload) eqn:Hin;
    try (split; [reflexivity | right; reflexivity]);
    destruct (json_loads sdk payload) as [[| | | | |members] |] eqn:Hloads;
    try (split; [reflexivity | right; reflexivity]);
    try (split; [reflexivity | left; repeat split; reflexivity]);
    destruct (dict_get _ members) as [[| | |field | |] |];
    try (split; [reflexivity | right; reflexivity]);
    destruct (Py.split " " field) as [| a [| b [| c [| ? ?]]]];
    try (split; [reflexivity | right; reflexivity]);
    match goal with |- context [String.eqb b ?n] => destruct (String.eqb b n) end;
    try (left; reflexivity);
    right; eexists; reflexivity.
Qed.

(** A payload nested too deeply for [json.loads]: the callback ends in
    the decoder's [RecursionError], which is none of the five. *)
Example callback_passes_on_decoder_exception :
  let sdk :=
    mkSdk spec_FEATURE_DATA_NAME (fun _ => None)
      (fun _ => OtherException "RecursionError") Json.dumps
      (fun _ => spec_FEATURE_DATA_NAME) client_id (fun _ _ => None) in
  forall w,
    iot_device_1_callback sdk ("[[[[" ++ spec_FEATURE_DATA_NAME) w
    = (Raised (OtherException "RecursionError"), w).
Proof. reflexivity. Qed.

(** An act message whose identifier is neither device's name is dropped
    by both callbacks: they return and nothing changes. *)
Theorem foreign_identifier_is_ignored sdk payload ts cid tok w :
  act_message sdk payload ts cid tok ->
  cid <> IOT_DEVICE_1_NAME ->
  cid <> IOT_DEVICE_2_NAME ->
  iot_device_1_callback sdk payload w = (Returned tt, w)
  /\ iot_device_2_callback sdk payload w = (Returned tt, w)
  /\ deliver sdk both payload w = (Returned tt, w).
Proof.
  intros H N1 N2.
  apply String.eqb_neq in N1. apply String.eqb_neq in N2.
  assert (H1 : iot_device_1_callback sdk payload w = (Returned tt, w))
    by (rewrite (callback_1_act sdk payload ts cid tok w H), N1; reflexivity).
  assert (H2 : iot_device_2_callback sdk payload w = (Returned tt, w))
    by (rewrite (callback_2_act sdk payload ts cid tok w H), N2; reflexivity).
  repeat split; try assumption.
  unfold deliver, both. cbn [for_each callback_of]. unfold bind, ret.
  rewrite H1. cbn [snd]. rewrite H2. reflexivity.
Qed.

Lemma relayed_foreign_is_act :
  act_message quiet_sdk (relayed_payload "IoT_Device_3" "1")
    "(1553000000)" "IoT_Device_3" "1".
Proof.
  split; [vm_compute; reflexivity |].
  exists [("switch_status_value", JString "(1553000000) IoT_Device_3 1")],
         "(1553000000) IoT_Device_3 1".
  repeat split; vm_compute; reflexivity.
Qed.

Lemma foreign_identifier_is_ignored_witness :
  act_message quiet_sdk (relayed_payload "IoT_Device_3" "1")
    "(1553000000)" "IoT_Device_3" "1"
  /\ "IoT_Device_3" <> IOT_DEVICE_1_NAME
  /\ "IoT_Device_3" <> IOT_DEVICE_2_NAME
  /\ deliver quiet_sdk both (relayed_payload "IoT_Device_3" "1") running_world
     = (Returned tt, running_world).
Proof.
  split; [exact relayed_foreign_is_act |].
  split; [discriminate |]. split; [discriminate |].
  apply (foreign_identifier_is_ignored quiet_sdk
           (relayed_payload "IoT_Device_3" "1") "(1553000000)" "IoT_Device_3" "1"
           running_world relayed_foreign_is_act);
    discriminate.
Defined.

(** ** Passes of the loop *)

(** With an act pending for both devices and nothing else happening, two
    passes apply both, device 1's first. *)
Theorem two_passes_apply_both_acts sdk w :
  (forall tr c, raises sdk tr c = None) ->
  iot_device_1_act_flag w = true ->
  iot_device_2_act_flag w = true ->
  let polls := [wait_for_notifications IoT_Device_1;
                wait_for_notifications IoT_Device_2] in
  exists w',
    loop sdk [idle_tick; idle_tick] w = (Returned StillRunning, w')
    /\ trace w'
       = (trace w ++ polls ++ act_calls IoT_Device_1 (iot_device_1_status w)
          ++ polls ++ act_calls IoT_Device_2 (iot_device_2_status w))%list
    /\ iot_device_1_act_flag w' = false
    /\ iot_device_2_act_flag w' = false
    /\ iot_device_1_status w' = iot_device_1_status w
    /\ iot_device_2_status w' = iot_device_2_status w.
Proof.
  intros quiet F1 F2 polls.
  cbn [loop]. unfold bind.
  rewrite (loop_body_quiet sdk quiet idle_tick w).
  cbn [inbound inbound_during_act idle_tick]. rewrite !arrive_nil. cbn [snd].
  change (has_notification idle_tick) with false. cbv iota. rewrite F1.
  rewrite (loop_body_quiet sdk quiet idle_tick).
  cbn [inbound inbound_during_act idle_tick]. rewrite !arrive_nil. cbn [snd].
  change (has_notification idle_tick) with false. cbv iota.
  change (poll_calls sdk idle_tick) with polls.
  cbn [iot_device_1_act_flag iot_device_2_act_flag set_act_flag logged set_trace
         iot_device_1_status iot_device_2_status].
  rewrite F2.
  eexists. split; [reflexivity |].
  cbn [trace set_act_flag logged set_trace iot_device_1_act_flag
         iot_device_2_act_flag iot_device_1_status iot_device_2_status].
  rewrite <- !app_assoc. repeat split.
Qed.

Lemma two_passes_apply_both_acts_witness :
  (forall tr c, raises quiet_sdk tr c = None)
  /\ iot_device_1_act_flag both_pending = true
  /\ iot_device_2_act_flag both_pending = true
  /\ exists w',
      loop quiet_sdk [idle_tick; idle_tick] both_pending = (Returned StillRunning, w')
      /\ writes (trace w') = [(IoT_Device_1, 1); (IoT_Device_2, 1)].
Proof.
  split; [exact quiet_sdk_quiet |]. split; [reflexivity |]. split; [reflexivity |].
  destruct (two_passes_apply_both_acts quiet_sdk both_pending quiet_sdk_quiet
              eq_refl eq_refl) as (w' & Hrun & Htr & _).
  exists w'. split; [exact Hrun |]. rewrite Htr. reflexivity.
Defined.

(** A pass in which device 1 hands over a notification. *)
Definition notified_by_1 (t : Tick) : Prop :=
  exists s, notification_1 t = Some s.

(** As long as device 1 hands over a notification at every pass, no act
    is applied and device 2 is not even polled, however many passes go by:
    every pass is the poll of device 1 and the publication of its sample,
    and acts that are pending stay pending. *)
Theorem notifications_starve_acts sdk :
  (forall tr c, raises sdk tr c = None) ->
  forall passes w,
    Forall notified_by_1 passes ->
    exists calls w',
      loop sdk passes w = (Returned StillRunning, w')
      /\ trace w' = (trace w ++ calls)%list
      /\ writes calls = []
      /\ ~ In (wait_for_notifications IoT_Device_2) calls
      /\ List.length calls = (2 * List.length passes)%nat
      /\ forall d, act_flag_of d w = true -> act_flag_of d w' = true.
Proof.
  intro quiet.
  induction passes as [| t rest IH]; intros w Hall.
  - exists [], w. rewrite app_nil_r. repeat split; auto.
  - inversion Hall as [| ? ? [s Hs] Hrest]; subst.
    pose proof (loop_body_quiet sdk quiet t w) as Hpass. cbv zeta in Hpass.
    unfold has_notification, poll_calls in Hpass. rewrite Hs in Hpass.
    set (w0 := snd (arrive sdk both (inbound t) w)) in *.
    set (w1 := logged [wait_for_notifications IoT_Device_1;
                       sense_call sdk IoT_Device_1 s] w0) in *.
    destruct (IH w1 Hrest) as (calls & w' & Hrun & Htr & Hw & Hno & Hlen & Hflag).
    exists ([wait_for_notifications IoT_Device_1; sense_call sdk IoT_Device_1 s]
            ++ calls)%list, w'.
    cbn [loop]. unfold bind. rewrite Hpass, Hrun.
    split; [reflexivity |].
    split.
    { rewrite Htr. unfold w1. rewrite trace_logged. unfold w0.
      rewrite arrive_trace. now rewrite <- app_assoc. }
    split; [cbn; exact Hw |].
    split.
    { cbn [app]. intros [H | [H | H]]; [discriminate H | discriminate H | auto]. }
    split.
    { cbn [app List.length]. rewrite Hlen. lia. }
    intros d Hd. apply Hflag. unfold w1. rewrite act_flag_logged.
    apply arrive_flag_stays, Hd.
Qed.

Lemma notifications_starve_acts_witness :
  let t := mkTick [] (Some (mkSample 1000 1)) None [] in
  (forall tr c, raises quiet_sdk tr c = None)
  /\ Forall notified_by_1 [t; t; t]
  /\ exists calls w',
      loop quiet_sdk [t; t; t] both_pending = (Returned StillRunning, w')
      /\ trace w' = (trace both_pending ++ calls)%list
      /\ writes calls = []
      /\ iot_device_1_act_flag w' = true
      /\ iot_device_2_act_flag w' = true.
Proof.
  cbv zeta.
  assert (Hall : Forall notified_by_1
                   [mkTick [] (Some (mkSample 1000 1)) None [];
                    mkTick [] (Some (mkSample 1000 1)) None [];
                    mkTick [] (Some (mkSample 1000 1)) None []])
    by (repeat constructor; eexists; reflexivity).
  split; [exact quiet_sdk_quiet |]. split; [exact Hall |].
  destruct (notifications_starve_acts quiet_sdk quiet_sdk_quiet _ both_pending Hall)
    as (calls & w' & Hrun & Htr & Hw & _ & _ & Hflag).
  exists calls, w'. repeat split; try assumption.
  - apply (Hflag IoT_Device_1). reflexivity.
  - apply (Hflag IoT_Device_2). reflexivity.
Defined.

(** An act that arrives while an act of the same device is being applied
    is lost: the pass writes the earlier value, the callback stores the
    later one, the pass then clears the flag the callback had just set,
    and while no further message arrives the later value is never
    written. *)
Theorem act_arriving_during_apply_is_lost sdk d p ts tok w :
  (forall tr c, raises sdk tr c = None) ->
  act_message sdk p ts (client_id d) tok ->
  act_flag_of d w = true ->
  (d = IoT_Device_2 -> iot_device_1_act_flag w = false) ->
  let polls := [wait_for_notifications IoT_Device_1;
                wait_for_notifications IoT_Device_2] in
  exists w',
    loop_body sdk (mkTick [] None None [p]) w = (Returned tt, w')
    /\ trace w' = (trace w ++ polls ++ act_calls d (status_of d w))%list
    /\ status_of d w' = (if String.eqb tok "0" then OFF else ON)
    /\ act_flag_of d w' = false
    /\ forall passes, Forall silent passes ->
         exists calls w'',
           loop sdk passes w' = (Returned StillRunning, w'')
           /\ trace w'' = (trace w' ++ calls)%list
           /\ forall v, ~ In (d, v) (writes calls).
Proof.
  intros quiet H Hflag Hfree polls.
  pose proof (loop_body_quiet sdk quiet (mkTick [] None None [p]) w) as Hrun.
  cbv zeta in Hrun. cbn [inbound inbound_during_act] in Hrun.
  rewrite arrive_nil in Hrun. cbn [snd] in Hrun.
  change (has_notification (mkTick [] None None [p])) with false in Hrun.
  change (poll_calls sdk (mkTick [] None None [p])) with polls in Hrun.
  cbv iota in Hrun.
  assert (Harr : forall w0, arrive sdk both [p] w0
                 = (Returned tt, record_act d (if String.eqb tok "0" then OFF else ON) w0)).
  { intro w0. unfold arrive. cbn [for_each]. unfold bind.
    rewrite (deliver_act sdk d p ts tok w0 H). reflexivity. }
  rewrite !Harr in Hrun. cbn [snd] in Hrun.
  assert (Hw' : exists w',
             loop_body sdk (mkTick [] None None [p]) w = (Returned tt, w')
             /\ trace w' = (trace w ++ polls ++ act_calls d (status_of d w))%list
             /\ status_of d w' = (if String.eqb tok "0" then OFF else ON)
             /\ act_flag_of d w' = false).
  { destruct d; cbn [act_flag_of status_of] in *.
    - rewrite Hflag in Hrun. eexists. split; [exact Hrun |].
      split; [cbn; now rewrite <- app_assoc |]. split; reflexivity.
    - rewrite (Hfree eq_refl), Hflag in Hrun. eexists. split; [exact Hrun |].
      split; [cbn; now rewrite <- app_assoc |]. split; reflexivity. }
  destruct Hw' as (w' & Hbody & Htr & Hst & Hfl).
  exists w'. repeat split; try assumption.
  intros passes Hsilent.
  destruct (no_act_without_message sdk d quiet passes w' Hsilent Hfl)
    as (calls & w'' & Hloop & Htr' & Hno & _).
  exists calls, w''. auto.
Qed.

Lemma act_arriving_during_apply_is_lost_witness :
  let w := set_act_flag IoT_Device_2 true running_world in
  (forall tr c, raises quiet_sdk tr c = None)
  /\ act_message quiet_sdk (relayed_payload "IoT_Device_2" "1")
       "(1553000000)" (client_id IoT_Device_2) "1"
  /\ act_flag_of IoT_Device_2 w = true
  /\ exists w',
      loop_body quiet_sdk (mkTick [] None None [relayed_payload "IoT_Device_2" "1"]) w
      = (Returned tt, w')
      /\ writes (trace w') = [(IoT_Device_2, 0)]
      /\ iot_device_2_status w' = ON
      /\ iot_device_2_act_flag w' = false.
Proof.
  cbv zeta.
  split; [exact quiet_sdk_quiet |]. split; [exact relayed_on_is_act |].
  split; [reflexivity |].
  destruct (act_arriving_during_apply_is_lost quiet_sdk IoT_Device_2
              (relayed_payload "IoT_Device_2" "1") "(1553000000)" "1"
              (set_act_flag IoT_Device_2 true running_world)
              quiet_sdk_quiet relayed_on_is_act eq_refl (fun _ => eq_refl))
    as (w' & Hrun & Htr & Hst & Hfl & _).
  exists w'. split; [exact Hrun |]. split; [rewrite Htr; reflexivity |].
  split; assumption.
Defined.

(** ** The command line *)

(** What [exit(1)] after the usage text leaves. *)
Definition usage_exit (w : World) : Result unit * World :=
  (Raised (SystemExit 1), logged [print USAGE] w).

(** A command line that yields no option, because it is empty or because
    its first argument is not an option (it does not start with a dash, or
    is a lone dash or a double dash), gets the usage text and status 1,
    whatever follows that first argument. *)
Theorem no_leading_option_prints_usage w :
  read_input [] w = usage_exit w
  /\ forall a rest,
      String.prefix "-" a = false \/ a = "-" \/ a = "--" ->
      read_input (a :: rest) w = usage_exit w.
Proof.
  split; [reflexivity |].
  intros a rest [H | [-> | ->]]; [| reflexivity | reflexivity].
  unfold read_input, Getopt.getopt. cbn [Getopt.getopt_loop List.length].
  rewrite H. reflexivity.
Qed.

Lemma no_leading_option_prints_usage_witness :
  (String.prefix "-" "a.example" = false \/ "a.example" = "-" \/ "a.example" = "--")
  /\ read_input ["a.example"; "-e"; "a.example"; "-r"; "ca.pem"] running_world
     = usage_exit running_world.
Proof.
  split; [left; reflexivity |].
  apply (proj2 (no_leading_option_prints_usage running_world)).
  left; reflexivity.
Defined.

(** The long forms that the help text advertises are not recognised:
    [--endpoint] and [--rootCA], with the value as the next argument or
    after an equals sign, end in the usage text and status 1.  (The long
    options are passed to [getopt] as one string literal.) *)
Theorem long_options_are_rejected v rest w :
  read_input ("--endpoint" :: rest) w = usage_exit w
  /\ read_input (("--endpoint=" ++ v) :: rest) w = usage_exit w
  /\ read_input ("--rootCA" :: rest) w = usage_exit w
  /\ read_input (("--rootCA=" ++ v) :: rest) w = usage_exit w.
Proof. repeat split. Qed.

(** The options [read_input] takes its two values from. *)
Fixpoint option_value (short long : string) (opts : list (string * string))
  (before : option string) : option string :=
  match opts with
  | [] => before
  | (opt, arg) :: rest =>
      option_value short long rest (if in2 opt short long then Some arg else before)
  end.

Definition asks_help (o : string * string) : bool := in2 (fst o) "-h" "--help".

Lemma read_options_without_help opts :
  forallb (fun o => negb (asks_help o)) opts = true ->
  forall w,
    for_each opts read_input_option w
    = (Returned tt,
       mkWorld (option_value "-e" "--endpoint" opts (endpoint w))
         (option_value "-r" "--rootCA" opts (root_ca_path w))
         (iot_device_1_bound w) (iot_device_2_bound w)
         (iot_device_1_status w) (iot_device_2_status w)
         (iot_device_1_act_flag w) (iot_device_2_act_flag w) (trace w)).
Proof.
  induction opts as [| [opt arg] rest IH]; intros Hno w.
  - destruct w; reflexivity.
  - cbn [forallb] in Hno. apply andb_prop in Hno. destruct Hno as [Hh Hrest].
    unfold asks_help in Hh. cbn [fst] in Hh. apply negb_true_iff in Hh.
    cbn [for_each]. unfold bind at 1. unfold read_input_option.
    rewrite Hh. unfold bind, ret, modify.
    cbn [option_value].
    destruct (in2 opt "-e" "--endpoint"), (in2 opt "-r" "--rootCA");
      rewrite (IH Hrest); reflexivity.
Qed.

(** When the command line parses into options, none of them asking for
    help, [read_input] keeps for each of the two parameters the value of
    the last option that gives it; with both values present and not empty
    it returns, having printed nothing. *)
Theorem read_input_keeps_last_values argv opts args e r w :
  Getopt.getopt argv read_input_shortopts read_input_longopts = Some (opts, args) ->
  opts <> [] ->
  forallb (fun o => negb (asks_help o)) opts = true ->
  option_value "-e" "--endpoint" opts (endpoint w) = Some e ->
  option_value "-r" "--rootCA" opts (root_ca_path w) = Some r ->
  e <> EmptyString ->
  r <> EmptyString ->
  read_input argv w
  = (Returned tt,
     mkWorld (Some e) (Some r)
       (iot_device_1_bound w) (iot_device_2_bound w)
       (iot_device_1_status w) (iot_device_2_status w)
       (iot_device_1_act_flag w) (iot_device_2_act_flag w) (trace w)).
Proof.
  intros Hget Hne Hno He Hr Ee Er.
  unfold read_input. rewrite Hget.
  destruct opts as [| o opts']; [contradiction |].
  cbn [List.length Nat.eqb].
  unfold bind at 1. unfold try_except.
  rewrite (read_options_without_help _ Hno w), He, Hr.
  unfold read_global, bind, get, ret. cbn [endpoint root_ca_path].
  unfold not_.
  apply String.eqb_neq in Ee. apply String.eqb_neq in Er.
  rewrite Ee. cbv beta iota. cbn [root_ca_path]. rewrite Er. reflexivity.
Qed.

Lemma read_input_keeps_last_values_witness :
  let argv := ["-e"; "old.example"; "-w"; "-ea.example"; "-r"; "ca.pem"] in
  let opts := [("-e", "old.example"); ("-w", EmptyString);
               ("-e", "a.example"); ("-r", "ca.pem")] in
  Getopt.getopt argv read_input_shortopts read_input_longopts = Some (opts, [])
  /\ opts <> []
  /\ read_input argv (process_start OFF OFF false false)
     = (Returned tt,
        mkWorld (Some "a.example") (Some "ca.pem") false false OFF OFF false false []).
Proof.
  cbv zeta. split; [reflexivity |]. split; [discriminate |].
  apply (read_input_keeps_last_values
           ["-e"; "old.example"; "-w"; "-ea.example"; "-r"; "ca.pem"]
           [("-e", "old.example"); ("-w", EmptyString);
            ("-e", "a.example"); ("-r", "ca.pem")]
           [] "a.example" "ca.pem" (process_start OFF OFF false false));
    try reflexivity; discriminate.
Defined.


(** When the options parse, none asks for help, and one of the two
    parameters is given by no option, [read_input] does not reach its
    message about the missing parameter: reading the global that was never
    assigned raises [NameError], for the endpoint at once and for the root
    CA path after the check of the endpoint. *)
Theorem absent_parameter_raises_NameError argv opts args w :
  Getopt.getopt argv read_input_shortopts read_input_longopts = Some (opts, args) ->
  opts <> [] ->
  forallb (fun o => negb (asks_help o)) opts = true ->
  endpoint w = None ->
  root_ca_path w = None ->
  (option_value "-e" "--endpoint" opts None = None
   \/ exists e, option_value "-e" "--endpoint" opts None = Some e
                /\ e <> EmptyString
                /\ option_value "-r" "--rootCA" opts None = None) ->
  exists w',
    read_input argv w = (Raised NameError, w')
    /\ trace w' = trace w.
Proof.
  intros Hget Hne Hno We Wr Hmiss.
  unfold read_input. rewrite Hget.
  destruct opts as [| o opts']; [contradiction |].
  cbn [List.length Nat.eqb].
  unfold bind at 1. unfold try_except.
  rewrite (read_options_without_help _ Hno w), We, Wr.
  unfold read_global, bind, get, ret. cbn [endpoint root_ca_path].
  destruct Hmiss as [He | (e & He & Ee & Hr)].
  - rewrite He. eexists. split; reflexivity.
  - rewrite He. unfold not_. apply String.eqb_neq in Ee. rewrite Ee.
    cbv beta iota. cbn [root_ca_path]. rewrite Hr.
    eexists. split; reflexivity.
Qed.

Lemma absent_parameter_raises_NameError_witness :
  let argv := ["-e"; "a.example"; "-k"; "key.pem"] in
  let opts := [("-e", "a.example"); ("-k", "key.pem")] in
  Getopt.getopt argv read_input_shortopts read_input_longopts = Some (opts, [])
  /\ opts <> []
  /\ option_value "-r" "--rootCA" opts None = None
  /\ exists w',
      read_input argv (process_start OFF OFF false false) = (Raised NameError, w')
      /\ trace w' = [].
Proof.
  cbv zeta. split; [reflexivity |]. split; [discriminate |]. split; [reflexivity |].
  apply (absent_parameter_raises_NameError
           ["-e"; "a.example"; "-k"; "key.pem"]
           [("-e", "a.example"); ("-k", "key.pem")] []
           (process_start OFF OFF false false));
    try reflexivity; try discriminate.
  right. exists "a.example". repeat split. discriminate.
Defined.

(** ** No SDK call before the two parameters are set *)

Definition is_print (c : Call) : bool :=
  match c with
  | print _ | print_exception _ => true
  | _ => false
  end.

Definition only_prints (w : World) : Prop := forallb is_print (trace w) = true.

(** Both parameters are bound, to strings that are not empty. *)
Definition configured (w : World) : Prop :=
  exists e r,
    endpoint w = Some e /\ root_ca_path w = Some r
    /\ e <> EmptyString /\ r <> EmptyString.

Lemma only_prints_logged_print s w :
  only_prints w -> only_prints (logged [print s] w).
Proof.
  unfold only_prints. cbn [trace logged set_trace]. rewrite forallb_app.
  intros ->. reflexivity.
Qed.

Lemma configured_same w w' :
  endpoint w' = endpoint w -> root_ca_path w' = root_ca_path w ->
  configured w -> configured w'.
Proof.
  intros He Hr (e & r & H1 & H2 & H3 & H4). exists e, r.
  rewrite He, Hr. auto.
Qed.

Lemma configured_arrive sdk ds ps w :
  configured w -> configured (snd (arrive sdk ds ps w)).
Proof.
  apply (arrive_keeps sdk configured).
  intros d v w0. apply configured_same; destruct d; reflexivity.
Qed.

Lemma configured_logged cs w : configured w -> configured (logged cs w).
Proof. intro H. exact H. Qed.

Lemma configured_set_act_flag d b w : configured w -> configured (set_act_flag d b w).
Proof. destruct d; intro H; exact H. Qed.

Lemma configured_set_bound d w : configured w -> configured (set_bound d w).
Proof. destruct d; intro H; exact H. Qed.

Ltac configured_leaf H :=
  lazymatch goal with
  | |- configured (snd (arrive _ _ _ _)) =>
      apply configured_arrive; configured_leaf H
  | |- configured (logged _ _) =>
      apply configured_logged; configured_leaf H
  | |- configured (set_act_flag _ _ _) =>
      apply configured_set_act_flag; configured_leaf H
  | |- configured (set_bound _ _) =>
      apply configured_set_bound; configured_leaf H
  | |- configured _ => exact H
  end.

Lemma configured_loop_body sdk t w :
  configured w ->
  wp (loop_body sdk t) (fun _ w' => configured w') (fun _ w' => configured w') w.
Proof.
  intro H. unfold loop_body. wp_walk. all: configured_leaf H.
Qed.

Lemma configured_loop sdk ts w :
  configured w ->
  wp (loop sdk ts) (fun _ w' => configured w') (fun _ w' => configured w') w.
Proof.
  revert w. induction ts as [| t rest IH]; intros w H.
  - exact H.
  - cbn [loop]. apply wp_bind.
    eapply wp_weaken; [apply configured_loop_body; exact H | | auto].
    intros u w' H'. apply IH, H'.
Qed.

Lemma configured_start_up sdk inp w :
  configured w ->
  wp (start_up sdk inp) (fun _ w' => configured w') (fun _ w' => configured w') w.
Proof.
  intro H. unfold start_up.
  wp_walk. all: try solve [configured_leaf H].
  apply wp_check_discovered. intros ds w1 Hs.
  assert (H1 : configured w1).
  { destruct Hs as (_ & He & Hr & _).
    apply (configured_same _ _ He Hr). configured_leaf H. }
  clear H Hs.
  wp_walk. all: try solve [configured_leaf H1].
  eapply wp_weaken;
    [apply (wp_for_each _ _ configured (fun _ w' => configured w')); [| exact H1] | | auto].
  - intros d w2 _ H2. wp_walk. all: configured_leaf H2.
  - intros u w2 H2. wp_walk. all: configured_leaf H2.
Qed.

(** [read_input] returns only with both parameters set and not empty;
    until then it does nothing but print. *)
Lemma configured_read_input argv w :
  only_prints w ->
  wp (read_input argv) (fun _ w' => configured w') (fun _ w' => only_prints w') w.
Proof.
  intro H. unfold read_input. apply wp_bind. apply wp_try.
  eapply wp_weaken with (Q := fun _ w' => only_prints w')
                        (E := fun _ w' => only_prints w').
  - destruct (Getopt.getopt argv read_input_shortopts read_input_longopts)
      as [[opts args] |]; [| exact H].
    destruct (Nat.eqb (List.length opts) 0); [exact H |].
    apply (wp_for_each _ _ only_prints (fun _ w' => only_prints w')); [| exact H].
    intros o w1 _ H1. wp_walk.
    all: repeat apply only_prints_logged_print; exact H1.
  - intros u w1 H1. wp_walk.
    all: try solve [repeat apply only_prints_logged_print; exact H1].
    unfold configured, not_ in *.
    match goal with
    | He : endpoint _ = Some ?e, Hr : root_ca_path _ = Some ?r |- _ =>
        exists e, r; repeat split; try assumption; apply String.eqb_neq; assumption
    end.
  - intros e w1 H1. destruct e; try exact H1.
    wp_walk. apply only_prints_logged_print, H1.
Qed.

Lemma configured_main sdk argv inp s1 s2 f1 f2 :
  wp (main sdk argv inp) (fun _ w' => configured w')
     (fun _ w' => only_prints w' \/ configured w') (process_start s1 s2 f1 f2).
Proof.
  unfold main. wp_walk.
  eapply wp_weaken; [apply configured_read_input; reflexivity | | auto].
  intros u w1 H1. apply wp_try. unfold main_try. apply wp_bind.
  assert (Hexc : forall e w2, configured w2 ->
            match main_except e with
            | Some h => wp h (fun _ w' => configured w')
                          (fun _ w' => only_prints w' \/ configured w') w2
            | None => only_prints w2 \/ configured w2
            end).
  { intros e w2 H2. destruct e; cbn [main_except]; auto.
    all: wp_walk; try right; configured_leaf H2. }
  eapply wp_weaken with (Q := fun _ w' => configured w')
                        (E := fun _ w' => configured w').
  - apply configured_start_up, H1.
  - intros v w2 H2.
    eapply wp_weaken; [apply configured_loop, H2 | auto |].
    intros e w3 H3. apply Hexc, H3.
  - intros e w2 H2. apply Hexc, H2.
Qed.

(** In every run, either both parameters are bound to strings that are
    not empty, or the program has ended having only printed: no call into
    the BlueST or EdgeST SDK is made on a command line that does not set
    both. *)
Theorem no_sdk_call_unless_configured sdk argv inp s1 s2 f1 f2 :
  let r := program sdk argv inp (process_start s1 s2 f1 f2) in
  (only_prints (snd r) /\ fst r <> Running) \/ configured (snd r).
Proof.
  cbv zeta. pose proof (configured_main sdk argv inp s1 s2 f1 f2) as H.
  unfold wp in H. unfold program.
  destruct (main sdk argv inp (process_start s1 s2 f1 f2)) as [[[|] | e] w'].
  - right. exact H.
  - right. exact H.
  - destruct H as [H | H]; [left | right; destruct e; exact H].
    destruct e; (split; [exact H | discriminate]).
Qed.

From Stdlib Require Import DecimalPos.

(** ** From a published sample to an act *)

Fixpoint all_chars (p : ascii -> bool) (s : string) : bool :=
  match s with
  | EmptyString => true
  | String c r => p c && all_chars p r
  end.

(** No control character. *)
Definition printable (c : ascii) : bool := negb (Nat.ltb (nat_of_ascii c) 32).

(** Printable, and written by the JSON writer as it is. *)
Definition plain (c : ascii) : bool :=
  printable c && negb (Ascii.eqb c Py.dquote) && negb (Ascii.eqb c Py.backslash).

(** Plain, and not the separator of the three parts. *)
Definition word (c : ascii) : bool := plain c && negb (Ascii.eqb c " ").

Lemma all_chars_app p a b :
  all_chars p (a ++ b) = all_chars p a && all_chars p b.
Proof.
  induction a as [| c a IH]; [reflexivity |].
  cbn [append all_chars]. now rewrite IH, andb_assoc.
Qed.

Lemma all_chars_weaken (p q : ascii -> bool) s :
  (forall c, p c = true -> q c = true) ->
  all_chars p s = true -> all_chars q s = true.
Proof.
  intro Hpq. induction s as [| c r IH]; [reflexivity |].
  cbn [all_chars]. intro H. apply andb_prop in H. destruct H as [Hc Hr].
  now rewrite (Hpq c Hc), (IH Hr).
Qed.

Lemma word_plain c : word c = true -> plain c = true.
Proof. unfold word. intro H. now apply andb_prop in H. Qed.

Lemma plain_printable c : plain c = true -> printable c = true.
Proof.
  unfold plain. intro H. apply andb_prop in H. destruct H as [H _].
  now apply andb_prop in H.
Qed.

Lemma append_assoc_string (a b c : string) : (a ++ b) ++ c = a ++ (b ++ c).
Proof.
  induction a as [| x a IH]; [reflexivity |]. cbn [append]. now rewrite IH.
Qed.

(** *** The writer and the reader agree on what the bridge writes *)

Lemma escape_plain s : all_chars plain s = true -> Json.escape s = s.
Proof.
  induction s as [| c r IH]; [reflexivity |].
  cbn [all_chars Json.escape]. intro H. apply andb_prop in H. destruct H as [Hc Hr].
  unfold plain in Hc. apply andb_prop in Hc. destruct Hc as [Hc Hb].
  apply andb_prop in Hc. destruct Hc as [_ Hq].
  apply negb_true_iff in Hq. apply negb_true_iff in Hb.
  rewrite Hq, Hb. cbn [orb]. now rewrite (IH Hr).
Qed.

Lemma string_body_escape s rest :
  all_chars printable s = true ->
  Json.string_body (Json.escape s ++ String Py.dquote rest) = Some (s, rest).
Proof.
  induction s as [| c r IH]; intro H.
  - cbn [Json.escape append Json.string_body]. 
    replace (Ascii.eqb Py.dquote Py.dquote) with true by reflexivity. reflexivity.
  - cbn [all_chars] in H. apply andb_prop in H. destruct H as [Hc Hr].
    specialize (IH Hr). cbn [Json.escape].
    destruct (Ascii.eqb c Py.dquote) eqn:Hq.
    { apply Ascii.eqb_eq in Hq. subst c. cbn [orb append Json.string_body].
      replace (Ascii.eqb Py.backslash Py.dquote) with false by reflexivity.
      replace (Ascii.eqb Py.backslash Py.backslash) with true by reflexivity.
      replace (Ascii.eqb Py.dquote "u") with false by reflexivity.
      replace (Json.simple_escape Py.dquote) with (Some Py.dquote) by reflexivity.
      now rewrite IH. }
    destruct (Ascii.eqb c Py.backslash) eqn:Hb.
    { apply Ascii.eqb_eq in Hb. subst c. cbn [orb append Json.string_body].
      replace (Ascii.eqb Py.backslash Py.dquote) with false by reflexivity.
      replace (Ascii.eqb Py.backslash Py.backslash) with true by reflexivity.
      replace (Ascii.eqb Py.backslash "u") with false by reflexivity.
      replace (Json.simple_escape Py.backslash) with (Some Py.backslash) by reflexivity.
      now rewrite IH. }
    cbn [orb append Json.string_body]. rewrite Hq, Hb.
    unfold printable in Hc. apply negb_true_iff in Hc. rewrite Hc.
    now rewrite IH.
Qed.

Lemma skip_ws_not_ws c r :
  Json.is_ws c = false -> Json.skip_ws (String c r) = String c r.
Proof. intro H. cbn [Json.skip_ws]. now rewrite H. Qed.

(** Comparisons of characters that are known are decided. *)
Ltac decide_chars :=
  repeat match goal with
         | |- context [Ascii.eqb ?a ?b] =>
             let v := eval vm_compute in (Ascii.eqb a b) in
             lazymatch v with
             | true => change (Ascii.eqb a b) with true
             | false => change (Ascii.eqb a b) with false
             end
         | |- context [Json.is_ws ?a] =>
             let v := eval vm_compute in (Json.is_ws a) in
             lazymatch v with
             | true => change (Json.is_ws a) with true
             | false => change (Json.is_ws a) with false
             end
         end;
  cbv iota.

Lemma value_of_escaped_string f s rest :
  all_chars printable s = true ->
  Json.value (S f) (String Py.dquote (Json.escape s ++ String Py.dquote rest))
  = Some (JString s, rest).
Proof.
  intro Hs. cbn [Json.value Json.skip_ws]. decide_chars.
  now rewrite (string_body_escape s rest Hs).
Qed.

(** Reading back an object with one string member, as written. *)
Lemma value_of_dumped_member n k s :
  all_chars printable k = true ->
  all_chars printable s = true ->
  Json.value (S (S (S n))) (Json.dumps (JObject [(k, JString s)]))
  = Some (JObject [(k, JString s)], EmptyString).
Proof.
  intros Hk Hs. unfold Json.dumps, Py.q.
  cbn [append].
  cbn [Json.value Json.skip_ws]. decide_chars.
  cbn [Json.skip_ws]. decide_chars.
  cbn [Json.members]. decide_chars.
  rewrite (string_body_escape k _ Hk).
  cbn [Json.skip_ws]. decide_chars.
  change (String " " (String Py.dquote ?r))
    with (String " " (String Py.dquote r)).
  assert (Hv : forall r,
             Json.value (S n) (String " " (String Py.dquote (Json.escape s ++ String Py.dquote r)))
             = Some (JString s, r)).
  { intro r. destruct n.
    - cbn [Json.value Json.skip_ws]. decide_chars. cbn [Json.skip_ws]. decide_chars.
      now rewrite (string_body_escape s r Hs).
    - cbn [Json.value Json.skip_ws]. decide_chars. cbn [Json.skip_ws]. decide_chars.
      now rewrite (string_body_escape s r Hs). }
  rewrite Hv. cbn [Json.skip_ws]. decide_chars. reflexivity.
Qed.

Lemma loads_dumps_member k s :
  all_chars printable k = true ->
  all_chars printable s = true ->
  Json.loads (Json.dumps (JObject [(k, JString s)]))
  = Some (JObject [(k, JString s)]).
Proof.
  intros Hk Hs. unfold Json.loads.
  assert (Hfuel : exists n,
             (2 * String.length (Json.dumps (JObject [(k, JString s)])) + 2 = S (S (S n)))%nat).
  { unfold Json.dumps. cbn [append String.length]. eexists. 
    rewrite Nat.mul_succ_r. rewrite Nat.add_comm. cbn [Nat.add]. reflexivity. }
  destruct Hfuel as [n ->].
  now rewrite (value_of_dumped_member n k s Hk Hs).
Qed.

(** *** Substrings and splitting *)

Lemma prefix_append p b : String.prefix p (p ++ b) = true.
Proof.
  induction p as [| c p IH]; [destruct b; reflexivity |].
  cbn [append String.prefix]. destruct (ascii_dec c c); [exact IH | contradiction].
Qed.

Lemma contains_append p a b : Py.contains p (a ++ p ++ b) = true.
Proof.
  induction a as [| c a IH].
  - cbn [append]. destruct (p ++ b) eqn:E.
    + cbn [Py.contains]. rewrite <- E, prefix_append. reflexivity.
    + cbn [Py.contains]. rewrite <- E, prefix_append. reflexivity.
  - cbn [append Py.contains]. rewrite IH. apply orb_true_r.
Qed.

Lemma split_word sep a :
  all_chars (fun c => negb (Ascii.eqb c sep)) a = true ->
  Py.split sep a = [a].
Proof.
  induction a as [| c a IH]; [reflexivity |].
  cbn [all_chars Py.split]. intro H. apply andb_prop in H. destruct H as [Hc Ha].
  apply negb_true_iff in Hc. rewrite Hc, (IH Ha). reflexivity.
Qed.

Lemma split_word_then sep a r :
  all_chars (fun c => negb (Ascii.eqb c sep)) a = true ->
  Py.split sep (a ++ String sep r) = a :: Py.split sep r.
Proof.
  induction a as [| c a IH].
  - intros _. cbn [append Py.split]. now rewrite Ascii.eqb_refl.
  - cbn [all_chars append Py.split]. intro H. apply andb_prop in H.
    destruct H as [Hc Ha]. apply negb_true_iff in Hc. rewrite Hc, (IH Ha). reflexivity.
Qed.

Lemma word_no_space s :
  all_chars word s = true ->
  all_chars (fun c => negb (Ascii.eqb c " ")) s = true.
Proof.
  apply all_chars_weaken. intros c H. unfold word in H.
  now apply andb_prop in H.
Qed.

(** *** [str] of an integer *)

Lemma digits_are_words d : all_chars word (NilEmpty.string_of_uint d) = true.
Proof.
  induction d; cbn [NilEmpty.string_of_uint all_chars]; try rewrite IHd; reflexivity.
Qed.

Lemma str_is_word z : all_chars word (Py.str z) = true.
Proof.
  unfold Py.str, NilZero.string_of_int.
  destruct (Z.to_int z) as [d | d].
  - unfold NilZero.string_of_uint. destruct d; try apply digits_are_words. reflexivity.
  - cbn [all_chars]. unfold NilZero.string_of_uint.
    destruct d; try apply digits_are_words; reflexivity.
Qed.

Lemma string_of_uint_zero d :
  NilEmpty.string_of_uint d = "0" -> d = Decimal.D0 Decimal.Nil.
Proof.
  destruct d; cbn [NilEmpty.string_of_uint]; try discriminate.
  intros [= H]. destruct d; cbn [NilEmpty.string_of_uint] in H; try discriminate.
  reflexivity.
Qed.

(** [str(n)] is the string 0 for the integer 0 only. *)
Lemma str_is_zero z : String.eqb (Py.str z) "0" = (z =? 0).
Proof.
  destruct z as [| p | p].
  - reflexivity.
  - cbn [Z.eqb]. apply String.eqb_neq. unfold Py.str. cbn [Z.to_int].
    unfold NilZero.string_of_int, NilZero.string_of_uint.
    pose proof (Unsigned.to_uint_nonzero p) as Hnz.
    pose proof (Unsigned.to_uint_nonnil p) as Hnn.
    destruct (Pos.to_uint p) eqn:E; try contradiction;
      intro H; apply string_of_uint_zero in H; contradiction.
  - cbn [Z.eqb]. apply String.eqb_neq. unfold Py.str. cbn [Z.to_int].
    unfold NilZero.string_of_int. discriminate.
Qed.

(** *** The theorem *)

(** The text [on_update] puts under the feature field. *)
Definition sense_text (ts : Z) (cid : string) (st : Z) : string :=
  "(" ++ Py.str ts ++ ") " ++ cid ++ " " ++ Py.str st.

Lemma sense_text_parts ts cid st :
  all_chars word cid = true ->
  Py.split " " (sense_text ts cid st) = ["(" ++ Py.str ts ++ ")"; cid; Py.str st].
Proof.
  intro Hcid.
  assert (E : sense_text ts cid st
              = ("(" ++ Py.str ts ++ ")") ++ String " " (cid ++ String " " (Py.str st))).
  { unfold sense_text. cbn [append]. f_equal. now rewrite append_assoc_string. }
  rewrite E.
  rewrite split_word_then.
  - rewrite split_word_then by (apply word_no_space, Hcid).
    rewrite split_word by (apply word_no_space, str_is_word). reflexivity.
  - apply word_no_space. cbn [append all_chars].
    rewrite all_chars_app, str_is_word. reflexivity.
Qed.

Lemma sense_text_printable ts cid st :
  all_chars word cid = true ->
  all_chars printable (sense_text ts cid st) = true.
Proof.
  intro Hcid. apply (all_chars_weaken plain); [apply plain_printable |].
  assert (Hw : forall s, all_chars word s = true -> all_chars plain s = true)
    by (intro s; apply all_chars_weaken, word_plain).
  unfold sense_text. cbn [append all_chars].
  rewrite all_chars_app, (Hw _ (str_is_word ts)). cbn [append all_chars].
  rewrite all_chars_app, (Hw _ Hcid). cbn [all_chars].
  rewrite (Hw _ (str_is_word st)). reflexivity.
Qed.

Lemma client_id_is_word d : all_chars word (client_id d) = true.
Proof. destruct d; reflexivity. Qed.

(** What a listener publishes comes back as an act.  The [json] module
    being the one of the [Json] model, and the feature's first field
    bearing the name the callbacks look for, a name of plain characters:
    the message [on_update] publishes for a sample of device [d] has the
    text below under the feature field; the same message with the
    identifier of [d'] in place of that of [d], which is what the relay
    sends to the act topic, is an act message for [d'], and its delivery
    records for [d'] OFF when the sample's switch status is 0 and ON
    otherwise, and changes nothing else. *)
Theorem relayed_sample_becomes_act sdk d d' sample w :
  (forall s, json_loads sdk s = Json.loads s) ->
  (forall v, json_dumps sdk v = Json.dumps v) ->
  get_fields_description_0_get_name sdk d = FEATURE_DATA_NAME sdk ->
  all_chars plain (FEATURE_DATA_NAME sdk) = true ->
  let ts := get_timestamp sample in
  let st := get_switch_status sample in
  let message cid :=
    json_dumps sdk (JObject [(FEATURE_DATA_NAME sdk, JString (sense_text ts cid st))]) in
  sense_call sdk d sample
  = publish d MQTT_IOT_DEVICE_SWITCH_SENSE_TOPIC (message (client_id d)) MQTT_QOS_0
  /\ act_message sdk (message (client_id d')) ("(" ++ Py.str ts ++ ")")
       (client_id d') (Py.str st)
  /\ deliver sdk both (message (client_id d')) w
     = (Returned tt, record_act d' (if st =? 0 then OFF else ON) w).
Proof.
  intros Hloads Hdumps Hname Hplain ts st message.
  assert (Hact : act_message sdk (message (client_id d')) ("(" ++ Py.str ts ++ ")")
                   (client_id d') (Py.str st)).
  { split.
    - unfold message. rewrite Hdumps. unfold Json.dumps, Py.q.
      rewrite (escape_plain _ Hplain). cbn [append Py.contains].
      match goal with
      | |- context [Py.contains ?p (?p ++ ?b)] =>
          rewrite (contains_append p EmptyString b : Py.contains p (p ++ b) = true)
      end.
      now rewrite !orb_true_r.
    - exists [(FEATURE_DATA_NAME sdk, JString (sense_text ts (client_id d') st))],
             (sense_text ts (client_id d') st).
      split.
      + unfold message. rewrite Hloads, Hdumps.
        apply loads_dumps_member.
        * apply (all_chars_weaken plain); [apply plain_printable | exact Hplain].
        * apply sense_text_printable, client_id_is_word.
      + split.
        * cbn [dict_get]. now rewrite String.eqb_refl.
        * apply sense_text_parts, client_id_is_word. }
  split.
  - unfold sense_call, message, sense_text. now rewrite Hname.
  - split; [exact Hact |].
    rewrite (deliver_act sdk d' _ _ _ w Hact), str_is_zero. reflexivity.
Qed.

Lemma relayed_sample_becomes_act_witness :
  let sample := mkSample 1553000000 1 in
  (forall s, json_loads quiet_sdk s = Json.loads s)
  /\ (forall v, json_dumps quiet_sdk v = Json.dumps v)
  /\ get_fields_description_0_get_name quiet_sdk IoT_Device_1
     = FEATURE_DATA_NAME quiet_sdk
  /\ all_chars plain (FEATURE_DATA_NAME quiet_sdk) = true
  /\ deliver quiet_sdk both (relayed_payload "IoT_Device_2" "1") running_world
     = (Returned tt, record_act IoT_Device_2 ON running_world).
Proof.
  cbv zeta.
  split; [reflexivity |]. split; [reflexivity |].
  split; [reflexivity |]. split; [reflexivity |].
  exact (proj2 (proj2 (relayed_sample_becomes_act quiet_sdk IoT_Device_1 IoT_Device_2
                         (mkSample 1553000000 1) running_world
                         (fun _ => eq_refl) (fun _ => eq_refl) eq_refl eq_refl))).
Defined.

(** ** Discovery *)

(** The device a discovered tag belongs to. *)
Definition device_of_tag (tag : string) : list Device :=
  if String.eqb tag IOT_DEVICE_1_MAC then [IoT_Device_1]
  else if String.eqb tag IOT_DEVICE_2_MAC then [IoT_Device_2]
  else [].

(** The devices among the discovered tags, in the order of discovery. *)
Definition matching_devices (tags : list string) : list Device :=
  flat_map device_of_tag tags.

Definition bound_of (d : Device) (w : World) : bool :=
  match d with
  | IoT_Device_1 => iot_device_1_bound w
  | IoT_Device_2 => iot_device_2_bound w
  end.

Lemma check_discovered_from tags :
  forall devices w,
    (List.length devices < 2)%nat ->
    exists w',
      check_discovered tags devices w
      = (Returned (devices ++ firstn (2 - List.length devices) (matching_devices tags))%list,
         w')
      /\ same_but_bound w w'
      /\ forall d,
          bound_of d w'
          = bound_of d w
            || existsb (Device_eqb d)
                 (firstn (2 - List.length devices) (matching_devices tags)).
Proof.
  induction tags as [| tag rest IH]; intros devices w Hlen.
  - exists w. cbn [check_discovered matching_devices flat_map].
    rewrite firstn_nil, app_nil_r.
    repeat split. intro d. cbn [existsb]. now rewrite orb_false_r.
  - cbn [check_discovered matching_devices flat_map]. fold (matching_devices rest).
    unfold bind at 1.
    destruct (String.eqb tag IOT_DEVICE_1_MAC) eqn:E1;
      [| destruct (String.eqb tag IOT_DEVICE_2_MAC) eqn:E2].
    + assert (Hd : device_of_tag tag = [IoT_Device_1])
        by (unfold device_of_tag; now rewrite E1).
      rewrite Hd.
      unfold bind, modify, ret. rewrite length_app. cbn [List.length].
      destruct devices as [| d0 [| d1 ds]]; cbn [List.length] in *; try lia.
      * cbn [Nat.add Nat.eqb Nat.sub app].
        destruct (IH [IoT_Device_1] (set_bound IoT_Device_1 w))
          as (w' & Hrun & Hsame & Hb); [cbn; lia |].
        cbn [List.length Nat.sub] in Hrun, Hb.
        exists w'. cbn [app firstn]. split; [exact Hrun |].
        split; [exact Hsame |].
        intro d. rewrite Hb. cbn [existsb].
        destruct d; cbn;
          repeat match goal with
                 | |- context [existsb ?f ?l] => destruct (existsb f l)
                 end;
          destruct (iot_device_1_bound w), (iot_device_2_bound w); reflexivity.
      * cbn [Nat.add Nat.eqb Nat.sub app firstn].
        exists (set_bound IoT_Device_1 w). repeat split.
        intro d.
        destruct d; cbn; destruct (iot_device_1_bound w), (iot_device_2_bound w);
          reflexivity.
    + assert (Hd : device_of_tag tag = [IoT_Device_2])
        by (unfold device_of_tag; now rewrite E1, E2).
      rewrite Hd.
      unfold bind, modify, ret. rewrite length_app. cbn [List.length].
      destruct devices as [| d0 [| d1 ds]]; cbn [List.length] in *; try lia.
      * cbn [Nat.add Nat.eqb Nat.sub app].
        destruct (IH [IoT_Device_2] (set_bound IoT_Device_2 w))
          as (w' & Hrun & Hsame & Hb); [cbn; lia |].
        cbn [List.length Nat.sub] in Hrun, Hb.
        exists w'. cbn [app firstn]. split; [exact Hrun |].
        split; [exact Hsame |].
        intro d. rewrite Hb. cbn [existsb].
        destruct d; cbn;
          repeat match goal with
                 | |- context [existsb ?f ?l] => destruct (existsb f l)
                 end;
          destruct (iot_device_1_bound w), (iot_device_2_bound w); reflexivity.
      * cbn [Nat.add Nat.eqb Nat.sub app firstn].
        exists (set_bound IoT_Device_2 w). repeat split.
        intro d.
        destruct d; cbn; destruct (iot_device_1_bound w), (iot_device_2_bound w);
          reflexivity.
    + assert (Hd : device_of_tag tag = [])
        by (unfold device_of_tag; now rewrite E1, E2).
      rewrite Hd. unfold ret. cbn [app].
      destruct (Nat.eqb (List.length devices) 2) eqn:E; [apply Nat.eqb_eq in E; lia |].
      apply IH, Hlen.
Qed.

(** The loop over the discovered nodes keeps the first two that carry
    one of the two addresses, in the order of discovery, binds their
    globals and touches nothing else; it stops looking once it has two. *)
Theorem check_discovered_keeps_first_two tags w :
  exists w',
    check_discovered tags [] w
    = (Returned (firstn 2 (matching_devices tags)), w')
    /\ same_but_bound w w'
    /\ forall d,
        bound_of d w'
        = bound_of d w || existsb (Device_eqb d) (firstn 2 (matching_devices tags)).
Proof.
  destruct (check_discovered_from tags [] w) as (w' & H); [cbn; lia |].
  exists w'. exact H.
Qed.

(** When fewer than two of the discovered nodes carry one of the two
    addresses, the start-up stops after the scan: it prints that no device
    was found (nothing was discovered at all) or that the setup is
    incomplete, and leaves with [sys.exit(0)]; no node is connected to. *)
Theorem short_discovery_exits_before_connecting sdk inp w :
  (forall tr c, raises sdk tr c = None) ->
  (List.length (matching_devices (discovered_devices inp)) < 2)%nat ->
  exists w',
    start_up sdk inp w = (Raised (SystemExit 0), w')
    /\ trace w'
       = (trace w
          ++ [manager_add_listener;
              print ("Scanning Bluetooth devices..." ++ nl);
              start_discovery SCANNING_TIME_s;
              sleep SCANNING_TIME_s;
              stop_discovery;
              get_nodes;
              print (match discovered_devices inp with
                     | [] => nl ++ "No Bluetooth devices found. Exiting..." ++ nl
                     | _ :: _ => nl ++ "Bluetooth setup incomplete. Exiting..." ++ nl
                     end)])%list.
Proof.
  intros quiet Hshort. unfold start_up.
  rewrite (bind_returned _ _ _ _ _ (call_quiet sdk quiet _ _)).
  rewrite (bind_returned _ _ _ _ _
             (eq_refl : emit _ (logged _ w) = (Returned tt, logged [_] (logged _ w)))).
  rewrite (bind_returned _ _ _ _ _ (call_quiet sdk quiet _ _)).
  rewrite (bind_returned _ _ _ _ _ (call_quiet sdk quiet _ _)).
  rewrite (bind_returned _ _ _ _ _ (call_quiet sdk quiet _ _)).
  rewrite (bind_returned _ _ _ _ _ (call_quiet sdk quiet _ _)).
  rewrite !logged_logged. cbn [app].
  destruct (discovered_devices inp) as [| tag rest] eqn:Htags.
  - eexists. split; [reflexivity |]. cbn [trace logged set_trace].
    now rewrite <- app_assoc.
  - rewrite (bind_returned _ _ _ _ _ (eq_refl : ret tt _ = (Returned tt, _))).
    match goal with
    | |- context [bind (check_discovered ?tags []) _ ?w0] =>
        destruct (check_discovered_from tags [] w0) as (w1 & Hrun & Hsame & _);
          [cbn; lia |]
    end.
    change (([] : list Device) ++ firstn (2 - List.length ([] : list Device))
                                    (matching_devices (tag :: rest)))%list
      with (firstn 2 (matching_devices (tag :: rest))) in Hrun.
    rewrite (bind_returned _ _ _ _ _ Hrun).
    assert (Hlt : Nat.ltb (List.length (firstn 2 (matching_devices (tag :: rest)))) 2 = true).
    { apply Nat.ltb_lt. rewrite length_firstn. lia. }
    rewrite Hlt.
    eexists. split; [reflexivity |].
    destruct Hsame as [Htr _]. cbn [trace logged set_trace]. rewrite Htr.
    cbn [trace logged set_trace]. now rewrite <- app_assoc.
Qed.

Lemma short_discovery_exits_before_connecting_witness :
  let inp := mkInputs ["aa:bb:cc:dd:ee:ff"; IOT_DEVICE_2_MAC] [] [] [] [] in
  (forall tr c, raises quiet_sdk tr c = None)
  /\ (List.length (matching_devices (discovered_devices inp)) < 2)%nat
  /\ exists w',
      start_up quiet_sdk inp running_world = (Raised (SystemExit 0), w')
      /\ forallb (fun c => match c with connect _ => false | _ => true end)
           (trace w') = true.
Proof.
  cbv zeta. split; [exact quiet_sdk_quiet |].
  split; [cbn; lia |].
  destruct (short_discovery_exits_before_connecting quiet_sdk
              (mkInputs ["aa:bb:cc:dd:ee:ff"; IOT_DEVICE_2_MAC] [] [] [] [])
              running_world quiet_sdk_quiet)
    as (w' & Hrun & Htr); [cbn; lia |].
  exists w'. split; [exact Hrun |]. rewrite Htr. reflexivity.
Defined.

(** ** How a run can end *)

(** The exceptions [main] has an [except] clause for. *)
Definition caught (e : Exn) : bool :=
  match e with
  | InvalidOperationException | BTLEException | WrongInstantiationException
  | KeyboardInterrupt => true
  | _ => false
  end.

Lemma wp_call_raising sdk c (Q : unit -> World -> Prop) (E : Exn -> World -> Prop) w :
  Q tt (logged [c] w) ->
  (forall e, raises sdk (trace w) c = Some e -> E e (logged [c] w)) ->
  wp (call sdk c) Q E w.
Proof.
  intros HQ HE. unfold wp, call.
  destruct (raises sdk (trace w) c) as [e |]; [apply HE; reflexivity | apply HQ].
Qed.

(** The walk of [wp_walk], each raising call keeping what raised it. *)
Ltac wp_step_raising :=
  lazymatch goal with
  | |- wp (call _ _) _ _ _ => apply wp_call_raising; [ | intros ? ? ]
  | _ => wp_step
  end.

Ltac wp_walk_raising := repeat wp_step_raising.

(** The first two nodes that carry one of the two addresses are nodes of
    one and the same device: the global of the other device is then never
    assigned. *)
Definition same_device_twice (inp : Inputs) : bool :=
  match firstn 2 (matching_devices (discovered_devices inp)) with
  | [d; d'] => Device_eqb d d'
  | _ => false
  end.

Lemma absent_among_two_means_twice (ds : list Device) d :
  Nat.ltb (List.length (firstn 2 ds)) 2 = false ->
  existsb (Device_eqb d) (firstn 2 ds) = false ->
  match firstn 2 ds with
  | [a; b] => Device_eqb a b
  | _ => false
  end = true.
Proof.
  destruct ds as [| a [| b r]]; cbn; try discriminate.
  destruct d, a, b; cbn; intros; congruence.
Qed.

Lemma wp_check_discovered_first_two tags (Q : list Device -> World -> Prop) E w :
  (forall w',
      same_but_bound w w' ->
      (forall d,
          bound_of d w'
          = bound_of d w || existsb (Device_eqb d) (firstn 2 (matching_devices tags))) ->
      Q (firstn 2 (matching_devices tags)) w') ->
  wp (check_discovered tags []) Q E w.
Proof.
  intro H.
  destruct (check_discovered_from tags [] w) as (w' & Heq & Hs & Hb); [cbn; lia |].
  unfold wp. rewrite Heq. apply H; assumption.
Qed.

(** The world [main] calls [read_input] in. *)
Definition at_read_input (w : World) : World :=
  logged [print (nl ++ INTRO ++ nl)]
    (set_act_flag IoT_Device_2 false
       (set_act_flag IoT_Device_1 false
          (set_status IoT_Device_2 OFF (set_status IoT_Device_1 OFF w)))).

Lemma main_from_read_input sdk argv inp w :
  main sdk argv inp w
  = (read_input argv ;; try_except (main_try sdk inp) main_except) (at_read_input w).
Proof. reflexivity. Qed.

(** Neither node global is assigned. *)
Definition no_node_bound (w : World) : Prop :=
  iot_device_1_bound w = false /\ iot_device_2_bound w = false.

Lemma no_node_bound_read_input argv w :
  no_node_bound w ->
  wp (read_input argv) (fun _ w' => no_node_bound w') (fun _ _ => True) w.
Proof.
  intro H. unfold read_input. apply wp_bind. apply wp_try.
  eapply wp_weaken with (Q := fun _ w' => no_node_bound w')
                        (E := fun _ w' => no_node_bound w').
  - destruct (Getopt.getopt argv read_input_shortopts read_input_longopts)
      as [[opts args] |]; [| exact H].
    destruct (Nat.eqb (List.length opts) 0); [exact H |].
    apply (wp_for_each _ _ no_node_bound (fun _ w' => no_node_bound w')); [| exact H].
    intros o w1 _ H1. wp_walk. all: exact H1.
  - intros u w1 H1. wp_walk. all: first [exact I | exact H1].
  - intros e w1 H1. destruct e; exact I.
Qed.

Section Ends.

Variable sdk : Sdk.
Hypothesis only_caught : forall tr c e, raises sdk tr c = Some e -> caught e = true.
Variable inp : Inputs.

(** What can leave the [try] of [main]. *)
Definition leaves_try (e : Exn) : Prop :=
  caught e = true \/ e = SystemExit 0
  \/ (e = NameError /\ same_device_twice inp = true).

Ltac ends_leaf :=
  match goal with
  | H : raises sdk _ _ = Some _ |- _ => left; exact (only_caught _ _ _ H)
  | |- _ => first [ exact I | right; left; reflexivity ]
  end.

Lemma ends_loop ts w :
  wp (loop sdk ts) (fun _ _ => True) (fun e _ => leaves_try e) w.
Proof.
  revert w. induction ts as [| t rest IH]; intro w.
  - exact I.
  - cbn [loop]. apply wp_bind.
    eapply wp_weaken with (Q := fun _ _ => True) (E := fun e _ => leaves_try e);
      [| intros u w' _; apply IH | auto].
    unfold loop_body. wp_walk_raising. all: unfold leaves_try; ends_leaf.
Qed.

(** What the start-up keeps once the nodes were looked up. *)
Definition settled (w1 w : World) : Prop :=
  configured w
  /\ iot_device_1_bound w = iot_device_1_bound w1
  /\ iot_device_2_bound w = iot_device_2_bound w1.

Lemma ends_start_up w :
  configured w ->
  no_node_bound w ->
  wp (start_up sdk inp) (fun _ _ => True) (fun e _ => leaves_try e) w.
Proof.
  intros Hc [Hb1 Hb2]. unfold start_up.
  wp_walk_raising. all: try solve [unfold leaves_try; ends_leaf].
  apply wp_check_discovered_first_two. intros w1 Hs Hb.
  wp_walk_raising. all: try solve [unfold leaves_try; ends_leaf].
  eapply wp_weaken;
    [apply (wp_for_each _ _ (settled w1) (fun e _ => leaves_try e)) | | auto].
  - intros d w2 _ H2. wp_walk_raising.
    all: try solve [unfold leaves_try; ends_leaf]. exact H2.
  - destruct Hs as (_ & He & Hr & _).
    split; [| split; reflexivity].
    apply (configured_same _ _ He Hr). exact Hc.
  - intros u w2 (Hc2 & H21 & H22). wp_walk_raising.
    all: try solve [unfold leaves_try; ends_leaf].
    all: unfold leaves_try; right; right.
    all: repeat match goal with
                | H : iot_device_1_bound _ = _ |- _ =>
                    progress cbn [iot_device_1_bound logged set_trace] in H
                | H : iot_device_2_bound _ = _ |- _ =>
                    progress cbn [iot_device_2_bound logged set_trace] in H
                | H : endpoint _ = _ |- _ =>
                    progress cbn [endpoint logged set_trace] in H
                | H : root_ca_path _ = _ |- _ =>
                    progress cbn [root_ca_path logged set_trace] in H
                end.
    all: try (exfalso; destruct Hc2 as (e0 & r0 & He0 & Hr0 & _); congruence).
    all: split; [reflexivity |]; unfold same_device_twice; rewrite Heql.
    all: match goal with
         | H' : iot_device_1_bound ?x = iot_device_1_bound _,
           H : iot_device_1_bound ?x = false |- _ =>
             apply (absent_among_two_means_twice _ IoT_Device_1); [assumption |];
             pose proof (Hb IoT_Device_1) as Hd;
             cbn [bound_of iot_device_1_bound logged set_trace] in Hd;
             rewrite Hb1, <- H21, H in Hd
         | H' : iot_device_2_bound ?x = iot_device_2_bound _,
           H : iot_device_2_bound ?x = false |- _ =>
             apply (absent_among_two_means_twice _ IoT_Device_2); [assumption |];
             pose proof (Hb IoT_Device_2) as Hd;
             cbn [bound_of iot_device_2_bound logged set_trace] in Hd;
             rewrite Hb2, <- H22, H in Hd
         end.
    all: cbn [orb] in Hd; symmetry; exact Hd.
Qed.

(** What can leave [read_input]. *)
Definition leaves_read_input (e : Exn) : Prop :=
  e = SystemExit 0 \/ e = SystemExit 1 \/ e = SystemExit 2 \/ e = NameError.

Lemma ends_read_input argv w :
  wp (read_input argv) (fun _ _ => True) (fun e _ => leaves_read_input e) w.
Proof.
  unfold read_input. apply wp_bind. apply wp_try.
  eapply wp_weaken with (Q := fun _ _ => True)
                        (E := fun e _ => e = SystemExit 0 \/ e = GetoptError).
  - destruct (Getopt.getopt argv read_input_shortopts read_input_longopts)
      as [[opts args] |]; [| right; reflexivity].
    destruct (Nat.eqb (List.length opts) 0); [right; reflexivity |].
    apply (wp_for_each _ _ (fun _ => True)
             (fun e _ => e = SystemExit 0 \/ e = GetoptError)); [| exact I].
    intros o w1 _ _. wp_walk. all: first [exact I | left; reflexivity].
  - intros u w1 _. wp_walk. all: unfold leaves_read_input; intuition.
  - intros e w1 [-> | ->].
    + left. reflexivity.
    + wp_walk. right; left; reflexivity.
Qed.

(** What can leave the [try] statement of [main], handlers included. *)
Definition leaves_handlers (e : Exn) : Prop :=
  e = SystemExit 0 \/ e = os_exit 0
  \/ (e = NameError /\ same_device_twice inp = true).

Lemma ends_try w :
  configured w ->
  no_node_bound w ->
  wp (try_except (main_try sdk inp) main_except)
     (fun _ _ => True) (fun e _ => leaves_handlers e) w.
Proof.
  intros Hc Hb. apply wp_try. unfold main_try. apply wp_bind.
  assert (Hexc : forall e w2, leaves_try e ->
            match main_except e with
            | Some h => wp h (fun _ _ => True) (fun e' _ => leaves_handlers e') w2
            | None => leaves_handlers e
            end).
  { intros e w2 [H | [-> | [-> Htwice]]].
    - destruct e; try discriminate H; cbn [main_except]; wp_walk;
        unfold leaves_handlers; intuition.
    - left. reflexivity.
    - unfold leaves_handlers. cbn [main_except]. intuition. }
  eapply wp_weaken with (Q := fun _ _ => True) (E := fun e _ => leaves_try e).
  - apply ends_start_up; assumption.
  - intros v w2 _.
    eapply wp_weaken; [apply ends_loop | auto |].
    intros e w3 H. apply Hexc, H.
  - intros e w2 H. apply Hexc, H.
Qed.

End Ends.

(** When the SDK calls raise nothing but the exceptions [main] catches
    (the three of the SDKs, and the interrupt from the keyboard), the exit
    status tells of the command line only.  When [read_input] leaves, the
    run ends as [read_input] did: with status 0, 1 or 2, or of its
    [NameError].  When [read_input] returns, the run is still in its loop
    or has ended with status 0, whichever call of the SDKs failed and
    wherever; the one other end is the [NameError] of a node global that
    was never assigned, when the first two matching nodes are nodes of the
    same device. *)
Theorem caught_failures_exit_with_0 sdk argv inp s1 s2 f1 f2 :
  (forall tr c e, raises sdk tr c = Some e -> caught e = true) ->
  let w := process_start s1 s2 f1 f2 in
  let out := fst (program sdk argv inp w) in
  match fst (read_input argv (at_read_input w)) with
  | Returned _ =>
      out = Running \/ out = Exited 0
      \/ (out = Crashed NameError /\ same_device_twice inp = true)
  | Raised e =>
      (e = SystemExit 0 /\ out = Exited 0)
      \/ (e = SystemExit 1 /\ out = Exited 1)
      \/ (e = SystemExit 2 /\ out = Exited 2)
      \/ (e = NameError /\ out = Crashed NameError)
  end.
Proof.
  intros Honly. cbv zeta. unfold program. rewrite main_from_read_input.
  change ((read_input argv ;; try_except (main_try sdk inp) main_except)
            (at_read_input (process_start s1 s2 f1 f2)))
    with (match read_input argv (at_read_input (process_start s1 s2 f1 f2)) with
          | (Returned _, w') => try_except (main_try sdk inp) main_except w'
          | (Raised e, w') => (Raised e, w')
          end).
  pose proof (ends_read_input argv (at_read_input (process_start s1 s2 f1 f2))) as Hri.
  pose proof (configured_read_input argv (at_read_input (process_start s1 s2 f1 f2))
                eq_refl) as Hcf.
  pose proof (no_node_bound_read_input argv (at_read_input (process_start s1 s2 f1 f2))
                (conj eq_refl eq_refl)) as Hnb.
  unfold wp in Hri, Hcf, Hnb.
  destruct (read_input argv (at_read_input (process_start s1 s2 f1 f2)))
    as [[u | e] w1]; cbn [fst].
  - pose proof (ends_try sdk Honly inp w1 Hcf Hnb) as Ht. unfold wp in Ht.
    destruct (try_except (main_try sdk inp) main_except w1) as [[[|] | e] w2];
      cbn [fst]; auto.
    cbv beta iota in Ht. unfold leaves_handlers in Ht.
    destruct Ht as [-> | [-> | [-> Htwice]]]; cbn [fst]; auto.
  - cbv beta iota in Hri. unfold leaves_read_input in Hri.
    destruct Hri as [-> | [-> | [-> | ->]]]; cbn [fst]; auto 6.
Qed.

(** An SDK in which every call of the loop raises [e] when it polls. *)
Definition failing_poll_sdk (e : Exn) : Sdk :=
  mkSdk spec_FEATURE_DATA_NAME Json.loads (fun _ => ValueError) Json.dumps
    (fun _ => spec_FEATURE_DATA_NAME)
    client_id
    (fun _ c => match c with wait_for_notifications _ => Some e | _ => None end).

Lemma caught_failures_exit_with_0_witness :
  (forall tr c e, raises (failing_poll_sdk BTLEException) tr c = Some e -> caught e = true)
  /\ fst (read_input ["-e"; "a.example"; "-r"; "ca.pem"]
            (at_read_input (process_start OFF OFF false false)))
     = Returned tt
  /\ fst (program (failing_poll_sdk BTLEException) ["-e"; "a.example"; "-r"; "ca.pem"]
            (mkInputs [IOT_DEVICE_1_MAC; IOT_DEVICE_2_MAC] [] [] [] [idle_tick])
            (process_start OFF OFF false false))
     = Exited 0.
Proof.
  assert (H : forall tr c e,
             raises (failing_poll_sdk BTLEException) tr c = Some e -> caught e = true).
  { intros tr c e. destruct c; cbn; try discriminate. intros [= <-]. reflexivity. }
  split; [exact H |]. split; [reflexivity |].
  pose proof (caught_failures_exit_with_0 (failing_poll_sdk BTLEException)
                ["-e"; "a.example"; "-r"; "ca.pem"]
                (mkInputs [IOT_DEVICE_1_MAC; IOT_DEVICE_2_MAC] [] [] [] [idle_tick])
                OFF OFF false false H) as T.
  cbv zeta in T.
  change (fst (read_input ["-e"; "a.example"; "-r"; "ca.pem"]
                 (at_read_input (process_start OFF OFF false false))))
    with (@Returned unit tt) in T.
  cbv beta iota in T.
  destruct T as [E | [E | [E _]]];
    first [exact E | vm_compute in E; discriminate E].
Defined.

(** Two nodes of device 1 and none of device 2: the run dies of the
    [NameError] of [iot_device_2]. *)
Example same_device_twice_ends_in_NameError :
  let inp := mkInputs [IOT_DEVICE_1_MAC; IOT_DEVICE_1_MAC] [] [] [] [] in
  same_device_twice inp = true
  /\ fst (program quiet_sdk ["-e"; "a.example"; "-r"; "ca.pem"] inp
            (process_start OFF OFF false false))
     = Crashed NameError.
Proof. split; reflexivity. Qed.

(** ** The shape of an act in the trace *)

(** Where the trace stands with respect to acts: before the loop has
    polled, between acts, or inside the act of a device, after the
    disabling, the write of a value, or the re-enabling. *)
Inductive ActStage : Type :=
| BeforeLoop
| BetweenActs
| Disabled (d : Device)
| Written (d : Device) (v : Z)
| Reenabled (d : Device) (v : Z).

(** The monitor of acts.  Once the loop polls, a device is written to
    only right after its notifications were disabled, the write is
    followed by the re-enabling of the same device, and that by the update
    of the same device's shadow with the document built from the value
    just written; polls and publications fall between acts.  Printing is
    taken anywhere: an exception may cut an act short. *)
Definition act_step (s : ActStage) (c : Call) : option ActStage :=
  match c with
  | print _ | print_exception _ => Some s
  | _ =>
      match s with
      | BeforeLoop =>
          match c with
          | wait_for_notifications _ => Some BetweenActs
          | disable_notifications _ | publish _ _ _ _ => None
          | _ => Some BeforeLoop
          end
      | BetweenActs =>
          match c with
          | wait_for_notifications _ | publish _ _ _ _ => Some BetweenActs
          | disable_notifications d => Some (Disabled d)
          | _ => None
          end
      | Disabled d =>
          match c with
          | write_switch_status d' v =>
              if Device_eqb d d' then Some (Written d v) else None
          | _ => None
          end
      | Written d v =>
          match c with
          | enable_notifications d' =>
              if Device_eqb d d' then Some (Reenabled d v) else None
          | _ => None
          end
      | Reenabled d v =>
          match c with
          | update_shadow_state d' doc _ =>
              if Device_eqb d d' && String.eqb doc (state_json_str v)
              then Some BetweenActs else None
          | _ => None
          end
      end
  end.

Definition acts_well_formed (tr : list Call) : bool :=
  accepts act_step BeforeLoop tr.

Definition at_boundary (w : World) : Prop :=
  run_monitor act_step BeforeLoop (trace w) = Some BeforeLoop
  \/ run_monitor act_step BeforeLoop (trace w) = Some BetweenActs.

Definition acts_fine (w : World) : Prop := acts_well_formed (trace w) = true.

Lemma at_boundary_fine w : at_boundary w -> acts_fine w.
Proof.
  unfold at_boundary, acts_fine, acts_well_formed, accepts.
  intros [-> | ->]; reflexivity.
Qed.

Ltac act_leaf H :=
  unfold acts_fine, acts_well_formed, accepts, at_boundary in *;
  trace_normalize;
  rewrite ?run_monitor_app, ?H;
  repeat match goal with
         | d : Device |- _ => destruct d
         | |- context [value ?s] =>
             lazymatch s with
             | OFF => fail
             | ON => fail
             | _ => destruct s
             end
         end;
  first [reflexivity | left; reflexivity | right; reflexivity].

Lemma act_loop_body sdk t w :
  at_boundary w ->
  wp (loop_body sdk t) (fun _ w' => at_boundary w') (fun _ w' => acts_fine w') w.
Proof.
  intros [H | H]; unfold loop_body; wp_walk; act_leaf H.
Qed.

Lemma act_loop sdk ts w :
  at_boundary w ->
  wp (loop sdk ts) (fun _ w' => at_boundary w') (fun _ w' => acts_fine w') w.
Proof.
  revert w. induction ts as [| t rest IH]; intros w H.
  - exact H.
  - cbn [loop]. apply wp_bind.
    eapply wp_weaken; [apply act_loop_body; exact H | | auto].
    intros u w' H'. apply IH, H'.
Qed.

Definition not_looping (w : World) : Prop :=
  run_monitor act_step BeforeLoop (trace w) = Some BeforeLoop.

Lemma act_start_up sdk inp w :
  not_looping w ->
  wp (start_up sdk inp) (fun _ w' => not_looping w') (fun _ w' => not_looping w') w.
Proof.
  intro H. unfold not_looping in *. unfold start_up.
  wp_walk. all: try solve [act_leaf H].
  apply wp_check_discovered. intros ds w1 Hs.
  assert (H1 : run_monitor act_step BeforeLoop (trace w1) = Some BeforeLoop).
  { destruct Hs as [Htr _]. rewrite Htr. act_leaf H. }
  clear H Hs.
  wp_walk. all: try solve [act_leaf H1].
  eapply wp_weaken;
    [apply (wp_for_each _ _ not_looping (fun _ w' => not_looping w')); [| exact H1] | | auto].
  - intros d w2 _ H2. unfold not_looping in *. wp_walk. all: act_leaf H2.
  - intros u w2 H2. unfold not_looping in *. wp_walk. all: act_leaf H2.
Qed.

Lemma act_read_input argv w :
  not_looping w ->
  wp (read_input argv) (fun _ w' => not_looping w') (fun _ w' => not_looping w') w.
Proof.
  intro H. unfold read_input. apply wp_bind. apply wp_try.
  eapply wp_weaken with (Q := fun _ w' => not_looping w')
                        (E := fun _ w' => not_looping w').
  - destruct (Getopt.getopt argv read_input_shortopts read_input_longopts)
      as [[opts args] |]; [| exact H].
    destruct (Nat.eqb (List.length opts) 0); [exact H |].
    apply (wp_for_each _ _ not_looping (fun _ w' => not_looping w')); [| exact H].
    intros o w1 _ H1. unfold not_looping in *. wp_walk. all: act_leaf H1.
  - intros u w1 H1. unfold not_looping in *. wp_walk. all: act_leaf H1.
  - intros e w1 H1. destruct e; try exact H1.
    unfold not_looping in *. wp_walk. act_leaf H1.
Qed.

Lemma acts_fine_print s w : acts_fine w -> acts_fine (logged [print s] w).
Proof.
  unfold acts_fine, acts_well_formed, accepts. cbn [trace logged set_trace].
  rewrite run_monitor_app.
  destruct (run_monitor act_step BeforeLoop (trace w)); auto.
Qed.

Lemma acts_fine_print_exception x w :
  acts_fine w -> acts_fine (logged [print_exception x] w).
Proof.
  unfold acts_fine, acts_well_formed, accepts. cbn [trace logged set_trace].
  rewrite run_monitor_app.
  destruct (run_monitor act_step BeforeLoop (trace w)); auto.
Qed.

Lemma act_main sdk argv inp s1 s2 f1 f2 :
  wp (main sdk argv inp) (fun _ w' => acts_fine w') (fun _ w' => acts_fine w')
     (process_start s1 s2 f1 f2).
Proof.
  unfold main. wp_walk.
  eapply wp_weaken; [apply act_read_input; reflexivity | |].
  2: { intros e w1 H1. apply at_boundary_fine. left. exact H1. }
  intros u w1 H1. apply wp_try. unfold main_try. apply wp_bind.
  eapply wp_weaken with (Q := fun _ w' => not_looping w')
                        (E := fun _ w' => acts_fine w').
  - eapply wp_weaken; [apply act_start_up, H1 | auto |].
    intros e w2 H2. apply at_boundary_fine. left. exact H2.
  - intros v w2 H2.
    eapply wp_weaken; [apply act_loop; left; exact H2 | |].
    + intros a w3 H3. apply at_boundary_fine, H3.
    + intros e w3 H3.
      apply startup_except;
        [apply acts_fine_print | apply acts_fine_print_exception | exact H3].
  - intros e w2 H2.
    apply startup_except;
      [apply acts_fine_print | apply acts_fine_print_exception | exact H2].
Qed.

(** In every run, once the loop polls, the calls of each act come as
    disable, write, enable and shadow update of one and the same device,
    with nothing between them, and the shadow update carries the document
    built from the value that was just written to the switch. *)
Theorem shadow_follows_the_write sdk argv inp s1 s2 f1 f2 :
  acts_well_formed
    (trace (snd (program sdk argv inp (process_start s1 s2 f1 f2)))) = true.
Proof.
  rewrite program_world.
  apply (wp_invariant_snd (main sdk argv inp) acts_fine).
  apply act_main.
Qed.

(** The monitor refuses a shadow update that carries another value than
    the write before it. *)
Example shadow_with_other_value_is_refused :
  acts_well_formed
    [wait_for_notifications IoT_Device_1;
     wait_for_notifications IoT_Device_2;
     disable_notifications IoT_Device_1;
     write_switch_status IoT_Device_1 1;
     enable_notifications IoT_Device_1;
     update_shadow_state IoT_Device_1 (state_json_str 0) SHADOW_CALLBACK_TIMEOUT_s]
  = false.
Proof. reflexivity. Qed.

(** ** Device 1 first *)

(** A pass that meets one act message for device 1 and nothing else. *)
Definition brings_act_for_1 (sdk : Sdk) (t : Tick) : Prop :=
  notification_1 t = None
  /\ notification_2 t = None
  /\ inbound_during_act t = []
  /\ exists p ts tok,
      inbound t = [p] /\ act_message sdk p ts (client_id IoT_Device_1) tok.

(** As long as every pass brings an act for device 1, only device 1 is
    served: each pass writes to device 1, an act pending for device 2 stays
    pending and device 2 is never written to, however many passes go
    by. *)
Theorem acts_for_device_1_starve_device_2 sdk :
  (forall tr c, raises sdk tr c = None) ->
  forall passes w,
    Forall (brings_act_for_1 sdk) passes ->
    exists calls w',
      loop sdk passes w = (Returned StillRunning, w')
      /\ trace w' = (trace w ++ calls)%list
      /\ map fst (writes calls) = repeat IoT_Device_1 (List.length passes)
      /\ iot_device_2_act_flag w' = iot_device_2_act_flag w
      /\ iot_device_2_status w' = iot_device_2_status w.
Proof.
  intro quiet.
  induction passes as [| t rest IH]; intros w Hall.
  - exists [], w. rewrite app_nil_r. repeat split.
  - inversion Hall as [| ? ? (Hn1 & Hn2 & Hd & p & ts & tok & Hin & Hact) Hrest]; subst.
    pose proof (loop_body_quiet sdk quiet t w) as Hpass. cbv zeta in Hpass.
    unfold has_notification, poll_calls in Hpass.
    rewrite Hn1, Hn2, Hd, Hin in Hpass.
    assert (Harr : arrive sdk both [p] w
                   = (Returned tt,
                      record_act IoT_Device_1 (if String.eqb tok "0" then OFF else ON) w)).
    { unfold arrive. cbn [for_each]. unfold bind.
      rewrite (deliver_act sdk IoT_Device_1 p ts tok w Hact). reflexivity. }
    rewrite Harr in Hpass. rewrite arrive_nil in Hpass. cbn [snd] in Hpass.
    cbn [iot_device_1_act_flag record_act set_act_flag] in Hpass.
    match type of Hpass with
    | _ = (_, ?w1) =>
        destruct (IH w1 Hrest) as (calls & w' & Hrun & Htr & Hw & Hf & Hs)
    end.
    exists (([wait_for_notifications IoT_Device_1; wait_for_notifications IoT_Device_2]
             ++ act_calls IoT_Device_1 (if String.eqb tok "0" then OFF else ON))
            ++ calls)%list, w'.
    cbn [loop]. unfold bind. rewrite Hpass, Hrun.
    split; [reflexivity |].
    split.
    { rewrite Htr. cbn [trace logged set_trace set_act_flag record_act set_status].
      now rewrite <- !app_assoc. }
    split.
    { rewrite writes_app, map_app, Hw. reflexivity. }
    split; [rewrite Hf; reflexivity | rewrite Hs; reflexivity].
Qed.

Lemma acts_for_device_1_starve_device_2_witness :
  let t := mkTick [relayed_payload "IoT_Device_1" "0"] None None [] in
  (forall tr c, raises quiet_sdk tr c = None)
  /\ Forall (brings_act_for_1 quiet_sdk) [t; t]
  /\ exists calls w',
      loop quiet_sdk [t; t] both_pending = (Returned StillRunning, w')
      /\ trace w' = (trace both_pending ++ calls)%list
      /\ map fst (writes calls) = [IoT_Device_1; IoT_Device_1]
      /\ iot_device_2_act_flag w' = true.
Proof.
  cbv zeta.
  assert (Hact : act_message quiet_sdk (relayed_payload "IoT_Device_1" "0")
                   "(1553000000)" (client_id IoT_Device_1) "0").
  { split; [vm_compute; reflexivity |].
    exists [("switch_status_value", JString "(1553000000) IoT_Device_1 0")],
           "(1553000000) IoT_Device_1 0".
    repeat split; vm_compute; reflexivity. }
  assert (Ht : brings_act_for_1 quiet_sdk
                 (mkTick [relayed_payload "IoT_Device_1" "0"] None None [])).
  { repeat split. exists (relayed_payload "IoT_Device_1" "0"), "(1553000000)", "0".
    split; [reflexivity | exact Hact]. }
  assert (Hall : Forall (brings_act_for_1 quiet_sdk)
                   [mkTick [relayed_payload "IoT_Device_1" "0"] None None [];
                    mkTick [relayed_payload "IoT_Device_1" "0"] None None []])
    by (constructor; [exact Ht | constructor; [exact Ht | constructor]]).
  split; [exact quiet_sdk_quiet |]. split; [exact Hall |].
  destruct (acts_for_device_1_starve_device_2 quiet_sdk quiet_sdk_quiet _ both_pending Hall)
    as (calls & w' & Hrun & Htr & Hw & Hf & _).
  exists calls, w'. repeat split; assumption.
Defined.

(** ** Help *)

Lemma getopt_loop_S f a rest so lo :
  Getopt.getopt_loop (S f) (a :: rest) so lo
  = if negb (String.prefix "-" a) || String.eqb a "-" then Some ([], a :: rest)
    else if String.eqb a "--" then Some ([], rest)
    else if String.prefix "--" a then
      match Getopt.do_longs (String.substring 2 (String.length a) a) lo rest with
      | None => None
      | Some (o, rest') =>
          match Getopt.getopt_loop f rest' so lo with
          | Some (opts, remaining) => Some (o :: opts, remaining)
          | None => None
          end
      end
    else
      match Getopt.do_shorts (String.substring 1 (String.length a) a) so rest with
      | None => None
      | Some (os, rest') =>
          match Getopt.getopt_loop f rest' so lo with
          | Some (opts, remaining) => Some ((os ++ opts)%list, remaining)
          | None => None
          end
      end.
Proof. reflexivity. Qed.

(** [-h] first: the help text and status 0 when the rest of the command
    line parses, the usage text and status 1 when it does not, since the
    whole command line is parsed before any option is looked at.  Nothing
    after [-h] is taken into account. *)
Theorem help_needs_a_command_line_that_parses rest w :
  read_input ("-h" :: rest) w
  = match Getopt.getopt rest read_input_shortopts read_input_longopts with
    | Some _ => (Raised (SystemExit 0), logged [print HELP] w)
    | None => usage_exit w
    end.
Proof.
  assert (Hparse :
            Getopt.getopt ("-h" :: rest) read_input_shortopts read_input_longopts
            = match Getopt.getopt rest read_input_shortopts read_input_longopts with
              | Some (opts, args) => Some (("-h", EmptyString) :: opts, args)
              | None => None
              end).
  { unfold Getopt.getopt. cbn [List.length].
    rewrite getopt_loop_S.
    change (String.prefix "-" "-h") with true.
    change (String.eqb "-h" "-") with false.
    change (String.eqb "-h" "--") with false.
    change (String.prefix "--" "-h") with false.
    cbn [negb orb].
    change (Getopt.do_shorts (String.substring 1 (String.length "-h") "-h")
              read_input_shortopts rest)
      with (Some ([("-h", EmptyString)], rest)).
    cbv iota beta.
    destruct (Getopt.getopt_loop (S (List.length rest)) rest read_input_shortopts
                read_input_longopts) as [[opts args] |]; reflexivity. }
  unfold read_input. rewrite Hparse.
  destruct (Getopt.getopt rest read_input_shortopts read_input_longopts)
    as [[opts args] |]; reflexivity.
Qed.

(** ** Quiescence *)

(** The acts that are pending in a world, device 1's first. *)
Definition pending (w : World) : list (Device * Z) :=
  ((if iot_device_1_act_flag w then [(IoT_Device_1, value (iot_device_1_status w))] else [])
   ++ (if iot_device_2_act_flag w then [(IoT_Device_2, value (iot_device_2_status w))] else []))%list.

Lemma firstn_add {A : Type} (k1 k2 : nat) (l : list A) :
  firstn (k1 + k2) l = (firstn k1 l ++ firstn k2 (skipn k1 l))%list.
Proof.
  revert l. induction k1 as [| k IH]; intro l; [reflexivity |].
  destruct l as [| x l]; cbn [Nat.add firstn skipn app].
  - now rewrite firstn_nil.
  - now rewrite IH.
Qed.

(** While no message arrives, the passes of the loop write nothing but
    the acts that were pending, each at most once and device 1's before
    device 2's, and leave the statuses as they were: whatever the
    notifications, the writes of any number of passes are the first few of
    the pending acts. *)
Theorem silent_passes_apply_pending_acts_once sdk :
  (forall tr c, raises sdk tr c = None) ->
  forall passes w,
    Forall silent passes ->
    exists calls w' k,
      loop sdk passes w = (Returned StillRunning, w')
      /\ trace w' = (trace w ++ calls)%list
      /\ writes calls = firstn k (pending w)
      /\ pending w' = skipn k (pending w)
      /\ iot_device_1_status w' = iot_device_1_status w
      /\ iot_device_2_status w' = iot_device_2_status w.
Proof.
  intro quiet.
  induction passes as [| t rest IH]; intros w Hsilent.
  - exists [], w, 0%nat. rewrite app_nil_r. repeat split.
  - inversion Hsilent as [| ? ? [Hin Hduring] Hrest]; subst.
    pose proof (loop_body_quiet sdk quiet t w) as Hpass. cbv zeta in Hpass.
    rewrite Hin, Hduring in Hpass. rewrite !arrive_nil in Hpass. cbn [snd] in Hpass.
    assert (Hstep : exists calls1 w1 k1,
               loop_body sdk t w = (Returned tt, w1)
               /\ trace w1 = (trace w ++ calls1)%list
               /\ writes calls1 = firstn k1 (pending w)
               /\ pending w1 = skipn k1 (pending w)
               /\ iot_device_1_status w1 = iot_device_1_status w
               /\ iot_device_2_status w1 = iot_device_2_status w).
    { destruct (has_notification t).
      - eexists (poll_calls sdk t), _, 0%nat. split; [exact Hpass |].
        rewrite trace_logged, writes_poll_calls. repeat split.
      - unfold pending.
        destruct (iot_device_1_act_flag w) eqn:F1;
          [| destruct (iot_device_2_act_flag w) eqn:F2].
        + eexists (poll_calls sdk t ++ act_calls IoT_Device_1 (iot_device_1_status w))%list,
            _, 1%nat.
          split; [exact Hpass |].
          rewrite trace_set_act_flag, !trace_logged, <- app_assoc.
          rewrite writes_app, writes_poll_calls.
          cbn [iot_device_1_act_flag iot_device_2_act_flag iot_device_1_status
                 iot_device_2_status set_act_flag logged set_trace].
          repeat split.
        + eexists (poll_calls sdk t ++ act_calls IoT_Device_2 (iot_device_2_status w))%list,
            _, 1%nat.
          split; [exact Hpass |].
          rewrite trace_set_act_flag, !trace_logged, <- app_assoc.
          rewrite writes_app, writes_poll_calls.
          cbn [iot_device_1_act_flag iot_device_2_act_flag iot_device_1_status
                 iot_device_2_status set_act_flag logged set_trace].
          rewrite F1. repeat split.
        + eexists (poll_calls sdk t), _, 0%nat. split; [exact Hpass |].
          rewrite trace_logged, writes_poll_calls.
          cbn [iot_device_1_act_flag iot_device_2_act_flag iot_device_1_status
                 iot_device_2_status logged set_trace].
          rewrite F1, F2. repeat split. }
    destruct Hstep as (calls1 & w1 & k1 & Hrun1 & Htr1 & Hw1 & Hp1 & Hs1 & Hs2).
    destruct (IH w1 Hrest) as (calls2 & w2 & k2 & Hrun2 & Htr2 & Hw2 & Hp2 & Hs1' & Hs2').
    exists (calls1 ++ calls2)%list, w2, (k1 + k2)%nat.
    cbn [loop]. unfold bind. rewrite Hrun1, Hrun2.
    split; [reflexivity |].
    split; [rewrite Htr2, Htr1; now rewrite <- app_assoc |].
    split.
    { rewrite writes_app, Hw1, Hw2, Hp1. symmetry. apply firstn_add. }
    split; [rewrite Hp2, Hp1; rewrite skipn_skipn; f_equal; lia |].
    split; congruence.
Qed.

Lemma silent_passes_apply_pending_acts_once_witness :
  (forall tr c, raises quiet_sdk tr c = None)
  /\ Forall silent [idle_tick; idle_tick; idle_tick]
  /\ exists calls w' k,
      loop quiet_sdk [idle_tick; idle_tick; idle_tick] both_pending
      = (Returned StillRunning, w')
      /\ trace w' = (trace both_pending ++ calls)%list
      /\ writes calls = firstn k [(IoT_Device_1, 1); (IoT_Device_2, 1)].
Proof.
  assert (Hall : Forall silent [idle_tick; idle_tick; idle_tick])
    by (repeat (constructor; [split; reflexivity |]); constructor).
  split; [exact quiet_sdk_quiet |]. split; [exact Hall |].
  destruct (silent_passes_apply_pending_acts_once quiet_sdk quiet_sdk_quiet
              [idle_tick; idle_tick; idle_tick] both_pending Hall)
    as (calls & w' & k & Hrun & Htr & Hw & _).
  exists calls, w', k. repeat split; assumption.
Defined.
